(** * Dota 2 friends dashboard: a model of [dashboard.py] and its properties

    The development follows the layers of the program.

    - [Py]: the Python built-ins the code calls ([str.strip], [str.isdigit],
      [str.split], [int], [round], integer and float arithmetic) and
      exceptions as an error monad.
    - [Pd]: the part of pandas the code uses: typed columns, frames as
      ordered lists of named columns, [sort_values], [head], column
      selection.
    - [Dashboard]: the functions of [dashboard.py], one definition each, under
      the name they have in the source.
    - lemmas about each layer and, at the end, the properties of the
      summarisation pipeline.

    Scope of the model.  A Python string is a sequence of code points; here a
    character is a code point below 256 (the Latin-1 range), held in an
    [ascii].  Python floats are binary64 numbers, held in a primitive [float].
    Python integers are unbounded, held in [Z]. *)

From Stdlib Require Import ZArith List String Ascii Bool Lia PeanoNat.
From Stdlib Require Import Permutation Sorted DecimalString.
From Stdlib Require Import Floats.
Import ListNotations.

Local Open Scope string_scope.
Local Open Scope list_scope.
Local Open Scope Z_scope.

(* ================================================================= *)
(** ** Python built-ins *)

Module Py.

(** Exceptions the program can meet.  In requests [HTTPError] is a subclass
    of [RequestException]; the constructor [RequestException] stands for
    every other subclass (connection failure, timeout, undecodable body). *)
Inductive exn : Type :=
| KeyError (key : string)
| ValueError
| TypeError
| HTTPError (msg : string)
| RequestException (msg : string).

Inductive result (A : Type) : Type :=
| Ok (a : A)
| Raise (e : exn).

Arguments Ok {A} a.
Arguments Raise {A} e.

Definition bind {A B : Type} (c : result A) (k : A -> result B) : result B :=
  match c with
  | Ok a => k a
  | Raise e => Raise e
  end.

Notation "x <- c ;; k" := (bind c (fun x => k))
  (at level 61, c at next level, right associativity).

(** *** Characters and strings *)

Definition code (c : ascii) : N := N_of_ascii c.

Definition in_range (lo hi : N) (c : ascii) : bool :=
  ((lo <=? code c) && (code c <=? hi))%N.

(** The ten ASCII digits. *)
Definition is_decimal (c : ascii) : bool := in_range 48 57 c.

(** [str.isdigit] on one character: the decimal digits and the characters of
    numeric type Digit, which below 256 are the superscripts two, three and
    one (U+00B2, U+00B3, U+00B9). *)
Definition isdigit_char (c : ascii) : bool :=
  is_decimal c || (code c =? 178)%N || (code c =? 179)%N || (code c =? 185)%N.

(** [str.isspace] on one character: TAB..CR, FS..US, SPACE, NEL, NBSP. *)
Definition isspace (c : ascii) : bool :=
  in_range 9 13 c || in_range 28 31 c || (code c =? 32)%N
  || (code c =? 133)%N || (code c =? 160)%N.

Fixpoint forall_chars (p : ascii -> bool) (s : string) : bool :=
  match s with
  | EmptyString => true
  | String c r => p c && forall_chars p r
  end.

(** [s.isdigit()]: every character is a digit and there is at least one. *)
Definition isdigit (s : string) : bool :=
  match s with
  | EmptyString => false
  | String _ _ => forall_chars isdigit_char s
  end.

Fixpoint lstrip (s : string) : string :=
  match s with
  | EmptyString => EmptyString
  | String c r => if isspace c then lstrip r else s
  end.

Fixpoint rstrip (s : string) : string :=
  match s with
  | EmptyString => EmptyString
  | String c r =>
      match rstrip r with
      | EmptyString => if isspace c then EmptyString else String c EmptyString
      | r' => String c r'
      end
  end.

(** [s.strip()] with no argument. *)
Definition strip (s : string) : string := rstrip (lstrip s).

(** [s.replace(old, new)] for one-character [old] and [new]. *)
Fixpoint replace (old new : ascii) (s : string) : string :=
  match s with
  | EmptyString => EmptyString
  | String c r => String (if Ascii.eqb c old then new else c) (replace old new r)
  end.

(** [s.split(sep)] for a one-character separator: never the empty list. *)
Fixpoint split (sep : ascii) (s : string) : list string :=
  match s with
  | EmptyString => [EmptyString]
  | String c r =>
      if Ascii.eqb c sep then EmptyString :: split sep r
      else match split sep r with
           | t :: ts => String c t :: ts
           | [] => [String c EmptyString]
           end
  end.

Definition newline : ascii := ascii_of_N 10.
Definition comma : ascii := ascii_of_N 44.
Definition underscore : ascii := ascii_of_N 95.

(** [str(z)] for an integer. *)
Definition str_of_int (z : Z) : string := NilZero.string_of_int (Z.to_int z).

(** *** [int(s)] in base 10

    The text may be wrapped in whitespace, carry one sign, and separate its
    digits by single underscores.  Whitespace here is what the parser skips:
    the ASCII blanks TAB..CR and SPACE, and NEL and NBSP, which are turned
    into spaces beforehand; FS..US are not skipped.  A text of more than
    [int_max_str_digits] digits is refused with [ValueError]: the
    interpreter's default limit on the conversion of decimal texts
    ([sys.int_info.default_max_str_digits]). *)

Definition int_space (c : ascii) : bool :=
  in_range 9 13 c || (code c =? 32)%N || (code c =? 133)%N || (code c =? 160)%N.

Definition int_max_str_digits : nat := 4300.

Fixpoint skip_int_space (s : string) : string :=
  match s with
  | EmptyString => EmptyString
  | String c r => if int_space c then skip_int_space r else s
  end.

Definition digit_value (c : ascii) : Z := Z.of_N (code c) - 48.

(** Reads digits and single underscores after a digit has been read;
    [prev_us] says that the previous character was an underscore.  Returns
    the value, the number of digits read and what follows them. *)
Fixpoint scan_digits (s : string) (prev_us : bool) (acc : Z) (ndigits : nat)
  : option (Z * nat * string) :=
  match s with
  | EmptyString => if prev_us then None else Some (acc, ndigits, EmptyString)
  | String c r =>
      if is_decimal c then scan_digits r false (10 * acc + digit_value c) (S ndigits)
      else if Ascii.eqb c underscore then
        if prev_us then None else scan_digits r true acc ndigits
      else if prev_us then None else Some (acc, ndigits, s)
  end.

Definition parse_int (s : string) : option Z :=
  let s1 := skip_int_space s in
  let '(negative, s2) :=
    match s1 with
    | String "-" r => (true, r)
    | String "+" r => (false, r)
    | _ => (false, s1)
    end in
  match s2 with
  | String c r =>
      if is_decimal c then
        match scan_digits r false (digit_value c) 1 with
        | Some (v, ndigits, rest) =>
            match skip_int_space rest with
            | EmptyString =>
                if (ndigits <=? int_max_str_digits)%nat
                then Some (if negative then - v else v)
                else None
            | String _ _ => None
            end
        | None => None
        end
      else None
  | EmptyString => None
  end.

Definition int (s : string) : result Z :=
  match parse_int s with
  | Some z => Ok z
  | None => Raise ValueError
  end.

(** *** Numbers

    A Python number is an [int] or a [float]. *)
Inductive number : Type :=
| PyInt (z : Z)
| PyFloat (f : float).

Definition SF_of_int (z : Z) : spec_float :=
  match z with
  | Z0 => S754_zero false
  | Zpos m => S754_finite false m 0
  | Zneg m => S754_finite true m 0
  end.

(** [float(z)]: the binary64 number nearest to [z], ties to even. *)
Definition float_of_int (z : Z) : float :=
  SF2Prim (binary_normalize prec emax z 0 false).

(** [a / b] on two integers: the binary64 number nearest to the exact
    quotient (the caller has checked [b <> 0]). *)
Definition int_truediv (a b : Z) : float :=
  SF2Prim (SFdiv prec emax (SF_of_int a) (SF_of_int b)).

Definition to_float (n : number) : float :=
  match n with
  | PyInt z => float_of_int z
  | PyFloat f => f
  end.

(** Truth value of a number in a condition. *)
Definition truthy (n : number) : bool :=
  match n with
  | PyInt z => negb (z =? 0)
  | PyFloat f => negb (PrimFloat.eqb f 0)
  end.

(** [a / b] and [a * b] on numbers.  The program divides only after it has
    checked the divisor; [ZeroDivisionError] is outside the model. *)
Definition truediv (a b : number) : number :=
  match a, b with
  | PyInt x, PyInt y => PyFloat (int_truediv x y)
  | _, _ => PyFloat (to_float a / to_float b)
  end.

Definition mul (a b : number) : number :=
  match a, b with
  | PyInt x, PyInt y => PyInt (x * y)
  | _, _ => PyFloat (to_float a * to_float b)
  end.

(** The integer nearest to [10 * m * 2^e], ties to even. *)
Definition tenths_half_even (m : positive) (e : Z) : Z :=
  let num := 10 * Zpos m in
  match e with
  | Zneg k =>
      let q := Z.shiftr num (Zpos k) in
      let r := num - Z.shiftl q (Zpos k) in
      let half := Z.shiftl 1 (Zpos k - 1) in
      match r ?= half with
      | Lt => q
      | Eq => if Z.even q then q else q + 1
      | Gt => q + 1
      end
  | _ => Z.shiftl num e
  end.

(** [round(x, 1)] on a float: the decimal with one fractional digit nearest
    to the exact value of [x] (ties to even), read back as the nearest
    binary64 number.  Infinities and NaN are returned as they are. *)
Definition float_round1 (x : float) : float :=
  match Prim2SF x with
  | S754_finite s m e =>
      let n := tenths_half_even m e in
      let num := match n with
                 | Zpos p => S754_finite s p 0
                 | _ => S754_zero s
                 end in
      SF2Prim (SFdiv prec emax num (S754_finite false 10 0))
  | _ => x
  end.

(** [round(n, 1)]: an [int] is returned unchanged. *)
Definition round1 (n : number) : number :=
  match n with
  | PyInt z => PyInt z
  | PyFloat f => PyFloat (float_round1 f)
  end.

Definition two52 : float := 0x1p+52%float.

(** [rint]: the integral float nearest to [y], ties to even. *)
Definition rint (y : float) : float :=
  if (PrimFloat.abs y <? two52)%float then
    if (y <? 0)%float then (- ((- y + two52) - two52))%float
    else ((y + two52) - two52)%float
  else y.

(** [round(x, 1)] on a NumPy float64 scalar: scale, [rint], scale back. *)
Definition np_round1 (x : float) : float := (rint (x * 10) / 10)%float.

End Py.

(* ================================================================= *)
(** ** pandas: columns and frames *)

Module Pd.
Import Py.

(** A column and its dtype. *)
Inductive Series : Type :=
| int64 (xs : list Z)
| bool_ (xs : list bool)
| float64 (xs : list float)
| object_ (xs : list string)
| datetime64 (xs : list Z).

Definition Series_len (s : Series) : nat :=
  match s with
  | int64 xs | datetime64 xs => List.length xs
  | bool_ xs => List.length xs
  | float64 xs => List.length xs
  | object_ xs => List.length xs
  end.

(** One cell of a table. *)
Inductive value : Type :=
| VInt (z : Z)
| VBool (b : bool)
| VFloat (f : float)
| VStr (s : string)
| VTime (t : Z).

(** [s.iloc[i]] for an [i] within the column. *)
Definition item (s : Series) (i : nat) : value :=
  match s with
  | int64 xs => VInt (nth i xs 0)
  | bool_ xs => VBool (nth i xs false)
  | float64 xs => VFloat (nth i xs 0%float)
  | object_ xs => VStr (nth i xs "")
  | datetime64 xs => VTime (nth i xs 0)
  end.

(** The rows at positions [idx], in that order. *)
Definition take (idx : list nat) (s : Series) : Series :=
  match s with
  | int64 xs => int64 (map (fun i => nth i xs 0) idx)
  | bool_ xs => bool_ (map (fun i => nth i xs false) idx)
  | float64 xs => float64 (map (fun i => nth i xs 0%float) idx)
  | object_ xs => object_ (map (fun i => nth i xs "") idx)
  | datetime64 xs => datetime64 (map (fun i => nth i xs 0) idx)
  end.

Definition Series_firstn (k : nat) (s : Series) : Series :=
  match s with
  | int64 xs => int64 (firstn k xs)
  | bool_ xs => bool_ (firstn k xs)
  | float64 xs => float64 (firstn k xs)
  | object_ xs => object_ (firstn k xs)
  | datetime64 xs => datetime64 (firstn k xs)
  end.

(** A frame: the length of its index and its columns in order.  Column
    names may repeat (a selection can name a column twice). *)
Record DataFrame : Type := {
  index : nat;
  columns : list (string * Series)
}.

(** [pd.DataFrame([])]: no rows and no columns. *)
Definition DataFrame_nil : DataFrame := {| index := 0; columns := [] |}.

Definition len (df : DataFrame) : Z := Z.of_nat (index df).

(** [df.empty]: some axis has length 0. *)
Definition empty (df : DataFrame) : bool :=
  (index df =? 0)%nat || match columns df with [] => true | _ :: _ => false end.

Fixpoint lookup (k : string) (cols : list (string * Series)) : option Series :=
  match cols with
  | [] => None
  | (k', s) :: rest => if String.eqb k k' then Some s else lookup k rest
  end.

(** [df[k]] *)
Definition getitem (df : DataFrame) (k : string) : result Series :=
  match lookup k (columns df) with
  | Some s => Ok s
  | None => Raise (KeyError k)
  end.

Fixpoint assign (k : string) (s : Series) (cols : list (string * Series))
  : list (string * Series) :=
  match cols with
  | [] => [(k, s)]
  | (k', s') :: rest =>
      if String.eqb k k' then (k', s) :: rest else (k', s') :: assign k s rest
  end.

(** [df[k] = s]: replaces the column in place or appends it; the lengths
    must agree. *)
Definition setitem (df : DataFrame) (k : string) (s : Series) : result DataFrame :=
  if (Series_len s =? index df)%nat
  then Ok {| index := index df; columns := assign k s (columns df) |}
  else Raise ValueError.

Definition take_rows (idx : list nat) (df : DataFrame) : DataFrame :=
  {| index := List.length idx;
     columns := map (fun c => (fst c, take idx (snd c))) (columns df) |}.

(** Number of rows [df.head(n)] keeps: the first [n], or all but the last
    [-n] when [n] is negative. *)
Definition head_count (rows : nat) (n : Z) : nat :=
  if n <? 0 then rows - Z.to_nat (- n) else Nat.min rows (Z.to_nat n).

Definition head (df : DataFrame) (n : Z) : DataFrame :=
  let k := head_count (index df) n in
  {| index := k;
     columns := map (fun c => (fst c, Series_firstn k (snd c))) (columns df) |}.

(** [df[[k1, ..., kn]]]: the named columns, in the order asked. *)
Fixpoint select_columns (cols : list (string * Series)) (keys : list string)
  : result (list (string * Series)) :=
  match keys with
  | [] => Ok []
  | k :: rest =>
      match lookup k cols with
      | Some s => bind (select_columns cols rest) (fun r => Ok ((k, s) :: r))
      | None => Raise (KeyError k)
      end
  end.

Definition select (df : DataFrame) (keys : list string) : result DataFrame :=
  bind (select_columns (columns df) keys)
       (fun cols => Ok {| index := index df; columns := cols |}).

(** Row [i] of a frame as [(column name, cell)] pairs, and the frame as the
    list of its rows ([df.to_dict("records")], with repeated names kept). *)
Definition row (df : DataFrame) (i : nat) : list (string * value) :=
  map (fun c => (fst c, item (snd c) i)) (columns df).

Definition records (df : DataFrame) : list (list (string * value)) :=
  map (row df) (seq 0 (index df)).

(** *** Reductions and conversions of a column *)

Definition count_true (xs : list bool) : Z :=
  Z.of_nat (List.length (filter (fun b => b) xs)).

Definition sum_Z (xs : list Z) : Z := fold_right Z.add 0 xs.

(** [int(s.sum())] for a column of booleans or integers.  Columns of other
    dtypes are outside the model. *)
Definition Series_sum (s : Series) : result Z :=
  match s with
  | bool_ xs => Ok (count_true xs)
  | int64 xs => Ok (sum_Z xs)
  | _ => Raise TypeError
  end.

(** [s.mean()] for a non-empty column of integers: the sum, as a float,
    over the count.  Columns of other dtypes are outside the model. *)
Definition Series_mean (s : Series) : result float :=
  match s with
  | int64 xs => Ok (float_of_int (sum_Z xs) / float_of_int (Z.of_nat (List.length xs)))%float
  | _ => Raise TypeError
  end.

(** [~s] on a boolean column. *)
Definition invert (s : Series) : result Series :=
  match s with
  | bool_ xs => Ok (bool_ (map negb xs))
  | _ => Raise TypeError
  end.

(** [pd.to_datetime(s, unit="s")] on a column of epoch seconds. *)
Definition to_datetime (s : Series) : result Series :=
  match s with
  | int64 xs | datetime64 xs => Ok (datetime64 xs)
  | _ => Raise TypeError
  end.

Definition tolist_bool (s : Series) : result (list bool) :=
  match s with
  | bool_ xs => Ok xs
  | _ => Raise TypeError
  end.

Definition tolist_int (s : Series) : result (list Z) :=
  match s with
  | int64 xs => Ok xs
  | _ => Raise TypeError
  end.

(** The cells of a numeric column as Python numbers. *)
Definition tolist_number (s : Series) : result (list number) :=
  match s with
  | int64 xs => Ok (map PyInt xs)
  | float64 xs => Ok (map PyFloat xs)
  | _ => Raise TypeError
  end.

Definition is_int (n : number) : bool :=
  match n with
  | PyInt _ => true
  | PyFloat _ => false
  end.

Definition int_of (n : number) : Z :=
  match n with
  | PyInt z => z
  | PyFloat _ => 0
  end.

(** A column built from Python numbers: [int64] when all are integers,
    [float64] otherwise, the integers converted. *)
Definition Series_of_numbers (ns : list number) : Series :=
  if forallb is_int ns then int64 (map int_of ns) else float64 (map to_float ns).

(** *** Sorting

    [sort_values] orders the rows by one column with the default sort kind,
    which is not required to keep rows with equal keys in their original
    order.  The sorting routine is therefore an interface: any [argsort]
    that returns the positions of a column's cells rearranged into the
    requested order. *)

Definition item_leb (s : Series) (i j : nat) : bool :=
  match s with
  | int64 xs | datetime64 xs => Z.leb (nth i xs 0) (nth j xs 0)
  | bool_ xs => implb (nth i xs false) (nth j xs false)
  | float64 xs => PrimFloat.leb (nth i xs 0%float) (nth j xs 0%float)
  | object_ xs => String.leb (nth i xs "") (nth j xs "")
  end.

Definition has_nan (s : Series) : bool :=
  match s with
  | float64 xs => existsb PrimFloat.is_nan xs
  | _ => false
  end.

(** [key_order s ascending i j]: position [i] may come right before
    position [j]. *)
Definition key_order (s : Series) (ascending : bool) (i j : nat) : Prop :=
  (if ascending then item_leb s i j else item_leb s j i) = true.

Class Sorter : Type := {
  argsort : Series -> bool -> list nat;
  argsort_perm : forall s ascending,
    Permutation (argsort s ascending) (seq 0 (Series_len s));
  argsort_sorted : forall s ascending,
    has_nan s = false -> Sorted (key_order s ascending) (argsort s ascending)
}.

(** [df.sort_values(by, ascending=...)] *)
Definition sort_values {S : Sorter} (df : DataFrame) (by_ : string) (ascending : bool)
  : result DataFrame :=
  bind (getitem df by_) (fun key => Ok (take_rows (argsort key ascending) df)).

(** Insertion sort of positions under a comparison; a position is placed
    before the first one it compares below or equal to, so positions that
    compare equal keep the order in which they were given. *)
Fixpoint insert (cmp : nat -> nat -> bool) (i : nat) (l : list nat) : list nat :=
  match l with
  | [] => [i]
  | j :: rest => if cmp i j then i :: j :: rest else j :: insert cmp i rest
  end.

Definition insertion_sort (cmp : nat -> nat -> bool) (l : list nat) : list nat :=
  fold_right (insert cmp) [] l.

Definition direction (s : Series) (ascending : bool) (i j : nat) : bool :=
  if ascending then item_leb s i j else item_leb s j i.

(** A stable [argsort] in both directions. *)
Definition stable_argsort (s : Series) (ascending : bool) : list nat :=
  insertion_sort (direction s ascending) (seq 0 (Series_len s)).

(** An [argsort] that obtains the descending order by reversing the
    ascending one: rows with equal keys come out in reverse. *)
Definition reversing_argsort (s : Series) (ascending : bool) : list nat :=
  if ascending then stable_argsort s true else rev (stable_argsort s true).

End Pd.

(* ================================================================= *)
(** ** dashboard.py *)

Module Dashboard.
Import Py Pd.

Definition STEAM_EPOCH : Z := 76561197960265728.

(** [None] stands for the [None] of the source; [int] raises nothing but
    [ValueError]. *)
Definition steam64_to_account_id (steam64 : string) : option Z :=
  match int steam64 with
  | Ok z => Some (z - STEAM_EPOCH)
  | Raise _ => None
  end.

Definition normalize_ids (raw_text : string) : list string :=
  let candidates := map strip (split comma (replace newline comma raw_text)) in
  filter isdigit candidates.

(** One match of the remote answer, with the fields the program reads. *)
Record RawMatch : Type := {
  match_id : Z;
  player_slot : Z;
  radiant_win : bool;
  start_time : Z;
  kills : Z;
  deaths : Z;
  assists : Z
}.

(** Query parameters of the request. *)
Record Params : Type := {
  date : Z;
  limit : Z;
  api_key : option string
}.

(** What a request comes to: a decoded body, a status that
    [raise_for_status] turns into [HTTPError], or a failure of the request
    itself (connection, timeout, body that is no JSON). *)
Inductive Response : Type :=
| Response_ok (json : list RawMatch)
| Response_bad_status (exc : string)
| Request_failed (exc : string).

(** [pd.DataFrame(response.json())] *)
Definition DataFrame_of_json (json : list RawMatch) : DataFrame :=
  match json with
  | [] => DataFrame_nil
  | _ :: _ =>
      {| index := List.length json;
         columns :=
           [ ("match_id", int64 (map match_id json));
             ("player_slot", int64 (map player_slot json));
             ("radiant_win", bool_ (map radiant_win json));
             ("start_time", int64 (map start_time json));
             ("kills", int64 (map kills json));
             ("deaths", int64 (map deaths json));
             ("assists", int64 (map assists json)) ] |}
  end.

(** The row function of [matches.apply(..., axis=1)] in [fetch_matches]. *)
Definition outcome (slot : Z) (radiant : bool) : bool :=
  Bool.eqb (slot <? 128) radiant.

(** A summary row: the dictionary [summarize_matches] returns. *)
Record PlayerSummary : Type := {
  steam_id : string;
  label : string;
  games : Z;
  wins : Z;
  losses : Z;
  win_rate : number;
  avg_k : number;
  avg_d : number;
  avg_a : number;
  best_streak : Z
}.

(** [pd.DataFrame(rows)] for a list of summary rows. *)
Definition DataFrame_of_rows (rows : list PlayerSummary) : DataFrame :=
  match rows with
  | [] => DataFrame_nil
  | _ :: _ =>
      {| index := List.length rows;
         columns :=
           [ ("steam_id", object_ (map steam_id rows));
             ("label", object_ (map label rows));
             ("games", int64 (map games rows));
             ("wins", int64 (map wins rows));
             ("losses", int64 (map losses rows));
             ("win_rate", Series_of_numbers (map win_rate rows));
             ("avg_k", Series_of_numbers (map avg_k rows));
             ("avg_d", Series_of_numbers (map avg_d rows));
             ("avg_a", Series_of_numbers (map avg_a rows));
             ("best_streak", int64 (map best_streak rows)) ] |}
  end.

(** One turn of the loop over [sorted_wins]; the state is
    [(current, best_streak)]. *)
Definition streak_step (st : Z * Z) (result : bool) : Z * Z :=
  let '(current, best) := st in
  if result then (current + 1, Z.max best (current + 1)) else (0, best).

Definition streak_loop (sorted_wins : list bool) : Z :=
  snd (fold_left streak_step sorted_wins (0, 0)).

(** [round(avg, 1)] where [avg] is a column mean (a NumPy scalar), or the
    literal [0] when there is no row. *)
Definition round_avg (avg : option float) : number :=
  match avg with
  | Some m => PyFloat (np_round1 m)
  | None => round1 (PyInt 0)
  end.

(** The lambda of [add_loss_rate], on the cells [games] and [losses] of a
    row. *)
Definition loss_rate_of (games_cell losses_cell : number) : number :=
  if truthy games_cell then mul (truediv losses_cell games_cell) (PyInt 100)
  else PyInt 0.

(** Frames are objects: a store maps each allocated reference (those below
    [next]) to the frame it holds. *)
Record store : Type := {
  next : nat;
  cell : nat -> DataFrame
}.

Definition write (h : store) (r : nat) (df : DataFrame) : store :=
  {| next := next h;
     cell := fun r' => if (r' =? r)%nat then df else cell h r' |}.

(** [df.copy()]: a new object with the same content. *)
Definition copy (h : store) (r : nat) : nat * store :=
  (next h, {| next := S (next h);
              cell := fun r' => if (r' =? next h)%nat then cell h r else cell h r' |}).

(** The local variables [params] and [url] of [fetch_matches]; the key is
    sent only when it is a non-empty string. *)
Definition request_params (days : Z) (key : option string) : Params :=
  {| date := days; limit := 200;
     api_key := match key with
                | Some EmptyString | None => None
                | Some k => Some k
                end |}.

Definition request_url (account_id : Z) : string :=
  "https://api.opendota.com/api/players/" ++ str_of_int account_id ++ "/matches".

Section Program.

Context {S : Sorter}.

(** [requests.get(url, params=..., timeout=15)] followed by
    [raise_for_status] and [json]: the remote service, as seen by the
    program.  It is a function of the request, which also accounts for the
    memoisation of [fetch_matches] by [st.cache_data]. *)
Variable requests_get : string -> Params -> Response.

Definition fetch_matches (account_id : Z) (days : Z) (key : option string)
  : result DataFrame :=
  let params := request_params days key in
  let url := request_url account_id in
  match requests_get url params with
  | Request_failed exc => Raise (RequestException exc)
  | Response_bad_status exc => Raise (HTTPError exc)
  | Response_ok json =>
      let matches := DataFrame_of_json json in
      if empty matches then Ok matches
      else
        slots <- (c <- getitem matches "player_slot" ;; tolist_int c) ;;
        radiant <- (c <- getitem matches "radiant_win" ;; tolist_bool c) ;;
        let win := bool_ (map (fun p => outcome (fst p) (snd p)) (combine slots radiant)) in
        matches <- setitem matches "win" win ;;
        loss <- (c <- getitem matches "win" ;; invert c) ;;
        matches <- setitem matches "loss" loss ;;
        time <- (c <- getitem matches "start_time" ;; to_datetime c) ;;
        setitem matches "start_time" time
  end.

Definition summarize_matches (df : DataFrame) (steam_id label : string)
  : result PlayerSummary :=
  let total := len df in
  wins <- (c <- getitem df "win" ;; Series_sum c) ;;
  losses <- (c <- getitem df "loss" ;; Series_sum c) ;;
  let win_rate :=
    if total =? 0 then PyInt 0
    else mul (truediv (PyInt wins) (PyInt total)) (PyInt 100) in
  let mean_of (k : string) : result (option float) :=
    if total =? 0 then Ok None
    else c <- getitem df k ;; m <- Series_mean c ;; Ok (Some m) in
  avg_k <- mean_of "kills" ;;
  avg_d <- mean_of "deaths" ;;
  avg_a <- mean_of "assists" ;;
  best_streak <-
    (if total =? 0 then Ok 0
     else
       sorted <- sort_values df "start_time" true ;;
       sorted_wins <- (c <- getitem sorted "win" ;; tolist_bool c) ;;
       Ok (streak_loop sorted_wins)) ;;
  Ok {| steam_id := steam_id;
        label := label;
        games := total;
        wins := wins;
        losses := losses;
        win_rate := round1 win_rate;
        avg_k := round_avg avg_k;
        avg_d := round_avg avg_d;
        avg_a := round_avg avg_a;
        best_streak := best_streak |}.

(** The loop of [collect_period_summaries], with the lists [rows] and
    [errors] built so far.  Only [HTTPError] and [RequestException] raised by
    [fetch_matches] are caught; [summarize_matches] is called outside the
    [try]. *)
Fixpoint collect_loop (steam_ids : list string) (days : Z) (key : option string)
  (rows : list PlayerSummary) (errors : list string)
  : result (list PlayerSummary * list string) :=
  match steam_ids with
  | [] => Ok (rows, errors)
  | sid :: rest =>
      match steam64_to_account_id sid with
      | None =>
          collect_loop rest days key rows
            (errors ++ [("Invalid Steam64 ID: " ++ sid)%string])
      | Some account_id =>
          match fetch_matches account_id days key with
          | Raise (HTTPError exc) =>
              collect_loop rest days key rows
                (errors ++ [("HTTP error for " ++ sid ++ ": " ++ exc)%string])
          | Raise (RequestException exc) =>
              collect_loop rest days key rows
                (errors ++ [("Network error for " ++ sid ++ ": " ++ exc)%string])
          | Raise e => Raise e
          | Ok matches =>
              row <- summarize_matches matches sid
                       ("Last " ++ str_of_int days ++ " days")%string ;;
              collect_loop rest days key (rows ++ [row]) errors
          end
      end
  end.

Definition collect_period_summaries (steam_ids : list string) (days : Z)
  (key : option string) : result (DataFrame * list string) :=
  out <- collect_loop steam_ids days key [] [] ;;
  Ok (DataFrame_of_rows (fst out), snd out).

Definition highlight_top_players (df : DataFrame) (metric : string) (top_n : Z)
  : result DataFrame :=
  if empty df then Ok df
  else
    sorted <- sort_values df metric false ;;
    select (head sorted top_n)
      ["steam_id"; "win_rate"; "games"; "wins"; "losses"; metric].

End Program.

(** The column [enriched.apply(lambda row: ..., axis=1)] of [add_loss_rate];
    the lambda reads [row["games"]] first. *)
Definition loss_rate_column (frame : DataFrame) : result Series :=
  games <- (c <- getitem frame "games" ;; tolist_number c) ;;
  losses <- (c <- getitem frame "losses" ;; tolist_number c) ;;
  Ok (Series_of_numbers
        (map (fun p => loss_rate_of (fst p) (snd p)) (combine games losses))).

(** [add_loss_rate] on the frame held at reference [df]; returns the
    reference of the result and the store after the call. *)
Definition add_loss_rate (df : nat) (h : store) : result (nat * store) :=
  if empty (cell h df) then Ok (df, h)
  else
    let '(enriched, h1) := copy h df in
    col <- loss_rate_column (cell h1 enriched) ;;
    frame <- setitem (cell h1 enriched) "loss_rate" col ;;
    Ok (enriched, write h1 enriched frame).

End Dashboard.

(* ================================================================= *)
(** ** Vocabulary of the specification *)

Module Spec.
Import Py Pd Dashboard.

(** The derived attributes of a match record. *)
Definition win_of (r : RawMatch) : bool :=
  Bool.eqb (player_slot r <? 128) (radiant_win r).

Definition loss_of (r : RawMatch) : bool := negb (win_of r).

Definition wins_in (records : list RawMatch) : Z :=
  Z.of_nat (List.length (filter win_of records)).

Definition losses_in (records : list RawMatch) : Z :=
  Z.of_nat (List.length (filter loss_of records)).

(** Records in chronological order. *)
Definition chronological (records : list RawMatch) : Prop :=
  Sorted (fun a b => start_time a <= start_time b) records.

(** The values the consecutive-win counter takes while it scans a list of
    results, starting from [current]: one more on a win, 0 on a loss. *)
Fixpoint counter_values (current : Z) (results : list bool) : list Z :=
  match results with
  | [] => []
  | r :: rest =>
      let c := if r then current + 1 else 0 in
      c :: counter_values c rest
  end.

(** The largest value the counter reaches, 0 when it reaches none. *)
Definition max_counter (results : list bool) : Z :=
  fold_right Z.max 0 (counter_values 0 results).

(** The frame [fetch_matches] builds from a non-empty answer: the columns of
    the answer, [start_time] as dates, then [win] and [loss]. *)
Definition matches_frame (json : list RawMatch) : DataFrame :=
  {| index := List.length json;
     columns :=
       [ ("match_id", int64 (map match_id json));
         ("player_slot", int64 (map player_slot json));
         ("radiant_win", bool_ (map radiant_win json));
         ("start_time", datetime64 (map start_time json));
         ("kills", int64 (map kills json));
         ("deaths", int64 (map deaths json));
         ("assists", int64 (map assists json));
         ("win", bool_ (map win_of json));
         ("loss", bool_ (map loss_of json)) ] |}.

(** The records of [json] in the order in which [summarize_matches] scans
    them. *)
Definition scan_order {S : Sorter} (json : list RawMatch) : list nat :=
  argsort (datetime64 (map start_time json)) true.

Definition scanned {S : Sorter} (json : list RawMatch) (d : RawMatch) : list RawMatch :=
  map (fun i => nth i json d) (scan_order json).

(** A text made of ASCII decimal digits, at least one. *)
Definition decimal_string (s : string) : bool :=
  match s with
  | EmptyString => false
  | String _ _ => forall_chars is_decimal s
  end.

(** The number a text of decimal digits denotes, read after [acc]. *)
Fixpoint decimal_from (acc : Z) (s : string) : Z :=
  match s with
  | EmptyString => acc
  | String c r => decimal_from (10 * acc + digit_value c) r
  end.

Definition decimal_value (s : string) : Z := decimal_from 0 s.

(** The separators of an identifier list, and the pieces of a text between
    them. *)
Definition is_separator (c : ascii) : bool :=
  Ascii.eqb c newline || Ascii.eqb c comma.

Fixpoint fields (s : string) : list string :=
  match s with
  | EmptyString => [EmptyString]
  | String c r =>
      if is_separator c then EmptyString :: fields r
      else match fields r with
           | t :: ts => String c t :: ts
           | [] => [String c EmptyString]
           end
  end.

(** The separators of a text, in order, and a list of pieces joined by a
    list of separators. *)
Fixpoint separators (s : string) : list ascii :=
  match s with
  | EmptyString => []
  | String c r => if is_separator c then c :: separators r else separators r
  end.

Fixpoint weave (pieces : list string) (seps : list ascii) : string :=
  match pieces, seps with
  | p :: rest, c :: seps' => (p ++ String c (weave rest seps'))%string
  | p :: _, [] => p
  | [], _ => EmptyString
  end.

Definition first_char (s : string) : option ascii :=
  match s with
  | EmptyString => None
  | String c _ => Some c
  end.

Fixpoint last_char (s : string) : option ascii :=
  match s with
  | EmptyString => None
  | String c EmptyString => Some c
  | String _ r => last_char r
  end.

Definition is_blank (c : option ascii) : bool :=
  match c with
  | Some c => isspace c
  | None => false
  end.

(** The loss rate of a summary row: [losses / games * 100], and the integer
    0 for a row without games. *)
Definition loss_rate (p : PlayerSummary) : number :=
  if games p =? 0 then PyInt 0
  else PyFloat (int_truediv (losses p) (games p) * 100)%float.

(** A summary frame with the column [loss_rate] added at the end. *)
Definition with_loss_rate (rows : list PlayerSummary) : DataFrame :=
  {| index := index (DataFrame_of_rows rows);
     columns := columns (DataFrame_of_rows rows)
                ++ [("loss_rate", Series_of_numbers (map loss_rate rows))] |}.

(** The cell named [k] of a row (the first one, when the name repeats), and
    the row restricted to the names [keys], in that order. *)
Fixpoint field (r : list (string * value)) (k : string) : option value :=
  match r with
  | [] => None
  | (k', v) :: rest => if String.eqb k k' then Some v else field rest k
  end.

Fixpoint project (keys : list string) (r : list (string * value))
  : list (string * value) :=
  match keys with
  | [] => []
  | k :: rest =>
      match field r k with
      | Some v => (k, v) :: project rest r
      | None => project rest r
      end
  end.

(** The fields a ranking shows. *)
Definition display (metric : string) : list string :=
  ["steam_id"; "win_rate"; "games"; "wins"; "losses"; metric].

(** Every column spans the index. *)
Definition well_formed (df : DataFrame) : Prop :=
  Forall (fun c => Series_len (snd c) = index df) (columns df).

Definition has_columns (df : DataFrame) (keys : list string) : Prop :=
  Forall (fun k => lookup k (columns df) <> None) keys.

(** What one identifier contributes to a batch: a summary row or an error
    message, unless an exception escapes. *)
Definition entry {S : Sorter} (requests_get : string -> Params -> Response)
  (days : Z) (key : option string) (sid : string) : result (PlayerSummary + string) :=
  match steam64_to_account_id sid with
  | None => Ok (inr ("Invalid Steam64 ID: " ++ sid)%string)
  | Some account_id =>
      match fetch_matches requests_get account_id days key with
      | Raise (HTTPError exc) => Ok (inr ("HTTP error for " ++ sid ++ ": " ++ exc)%string)
      | Raise (RequestException exc) =>
          Ok (inr ("Network error for " ++ sid ++ ": " ++ exc)%string)
      | Raise e => Raise e
      | Ok matches =>
          row <- summarize_matches matches sid ("Last " ++ str_of_int days ++ " days")%string ;;
          Ok (inl row)
      end
  end.

(** The summaries and the errors of a list of entries, each in order. *)
Fixpoint summaries_of (entries : list (PlayerSummary + string)) : list PlayerSummary :=
  match entries with
  | [] => []
  | inl row :: rest => row :: summaries_of rest
  | inr _ :: rest => summaries_of rest
  end.

Fixpoint errors_of (entries : list (PlayerSummary + string)) : list string :=
  match entries with
  | [] => []
  | inl _ :: rest => errors_of rest
  | inr msg :: rest => msg :: errors_of rest
  end.

(** The win rate as the list of testable properties words it: the product
    [100 * W] first, then the quotient, then the rounding. *)
Definition win_rate_product_first (W L : Z) : number :=
  round1 (truediv (mul (PyInt 100) (PyInt W)) (PyInt (W + L))).

(** The win rate as the summariser's description words it: the quotient
    [W / (W + L)] first, then the product by 100, then the rounding. *)
Definition win_rate_quotient_first (W L : Z) : number :=
  round1 (mul (truediv (PyInt W) (PyInt (W + L))) (PyInt 100)).

(** Two positions with equal keys are in input order. *)
Definition tie_order (key : Series) (i j : nat) : Prop :=
  item key i = item key j -> (i < j)%nat.

(** In an order of positions, rows with equal keys come in the order of
    their positions in the input. *)
Definition ties_in_input_order (key : Series) (order : list nat) : Prop :=
  forall p q, (p < q < List.length order)%nat ->
    item key (nth p order 0%nat) = item key (nth q order 0%nat) ->
    (nth p order 0%nat < nth q order 0%nat)%nat.

(** Sample data: a match won or lost at a given time, and a summary row
    with a given identifier and win rate. *)
Definition sample_match (won : bool) (time : Z) : RawMatch :=
  {| match_id := time; player_slot := 0; radiant_win := won; start_time := time;
     kills := 5; deaths := 3; assists := 8 |}.

Definition sample_row (sid : string) (rate : float) : PlayerSummary :=
  {| steam_id := sid; label := "Last 7 days"; games := 10; wins := 5; losses := 5;
     win_rate := PyFloat rate; avg_k := PyFloat 5; avg_d := PyFloat 3; avg_a := PyFloat 8;
     best_streak := 2 |}.

(** The results win, win, loss, win, win, win, loss at times 1 to 7,
    received out of order. *)
Definition streak_sample : list RawMatch :=
  [sample_match true 4; sample_match false 7; sample_match true 1;
   sample_match true 6; sample_match false 3; sample_match true 2;
   sample_match true 5].

(** Slot 0 with a radiant win, slot 128 with a radiant win, slot 129 with a
    radiant loss. *)
Definition outcome_sample : list RawMatch :=
  [ {| match_id := 1; player_slot := 0; radiant_win := true; start_time := 10;
       kills := 1; deaths := 2; assists := 3 |};
    {| match_id := 2; player_slot := 128; radiant_win := true; start_time := 20;
       kills := 1; deaths := 2; assists := 3 |};
    {| match_id := 3; player_slot := 129; radiant_win := false; start_time := 30;
       kills := 1; deaths := 2; assists := 3 |} ].

(** Eighteen summary rows, identified 0 to 17, all with win rate 50.0. *)
Definition tied_rows : list PlayerSummary :=
  map (fun i => sample_row (str_of_int (Z.of_nat i)) 50) (seq 0 18).

(** A remote service that answers every request with the same matches. *)
Definition always (json : list RawMatch) : string -> Params -> Response :=
  fun _ _ => Response_ok json.

(** The superscript two, a digit for [str.isdigit] that is no decimal
    digit. *)
Definition superscript_two : string := String (ascii_of_N 178) EmptyString.

(** A store with one frame, the empty one. *)
Definition store_of_nil : store := {| next := 1; cell := fun _ => DataFrame_nil |}.

End Spec.

Import Py Pd Dashboard Spec.

(* ================================================================= *)
(** ** Facts about sorting positions *)

Section InsertionSort.

Variable cmp : nat -> nat -> bool.

Lemma insert_perm (i : nat) (l : list nat) : Permutation (insert cmp i l) (i :: l).
Proof.
  induction l as [|j l IH]; simpl.
  - apply Permutation_refl.
  - destruct (cmp i j).
    + apply Permutation_refl.
    + eapply perm_trans; [apply perm_skip, IH | apply perm_swap].
Qed.

Lemma insertion_sort_perm (l : list nat) : Permutation (insertion_sort cmp l) l.
Proof.
  induction l as [|i l IH]; simpl.
  - apply perm_nil.
  - eapply perm_trans; [apply insert_perm | apply perm_skip, IH].
Qed.

Hypothesis cmp_total : forall i j, cmp i j = false -> cmp j i = true.

Lemma insert_hd (a i : nat) (l : list nat) :
  cmp a i = true -> HdRel (fun x y => cmp x y = true) a l ->
  HdRel (fun x y => cmp x y = true) a (insert cmp i l).
Proof.
  intros Hai Hl. destruct l as [|j l]; simpl.
  - constructor. exact Hai.
  - destruct (cmp i j); constructor; [exact Hai|].
    inversion Hl; assumption.
Qed.

Lemma insert_sorted (i : nat) (l : list nat) :
  Sorted (fun x y => cmp x y = true) l ->
  Sorted (fun x y => cmp x y = true) (insert cmp i l).
Proof.
  induction 1 as [|j l Hs IH Hhd]; simpl.
  - repeat constructor.
  - destruct (cmp i j) eqn:E.
    + constructor; [constructor; assumption | constructor; exact E].
    + constructor; [exact IH|].
      apply insert_hd; [apply cmp_total, E | exact Hhd].
Qed.

Lemma insertion_sort_sorted (l : list nat) :
  Sorted (fun x y => cmp x y = true) (insertion_sort cmp l).
Proof.
  induction l as [|i l IH]; simpl.
  - constructor.
  - apply insert_sorted, IH.
Qed.

End InsertionSort.

Lemma Sorted_snoc (R : nat -> nat -> Prop) (l : list nat) (a : nat) :
  Sorted R l -> (forall b, last l a = b -> l <> [] -> R b a) -> Sorted R (l ++ [a]).
Proof.
  induction 1 as [|x l Hs IH Hhd]; intros Hlast; simpl.
  - repeat constructor.
  - constructor.
    + apply IH. intros b Hb Hne. apply Hlast; [|discriminate].
      destruct l; [contradiction Hne; reflexivity | exact Hb].
    + destruct l as [|y l]; simpl.
      * constructor. apply Hlast; [reflexivity | discriminate].
      * inversion Hhd; constructor; assumption.
Qed.

Lemma Sorted_rev (R : nat -> nat -> Prop) (l : list nat) :
  Sorted R l -> Sorted (fun x y => R y x) (rev l).
Proof.
  induction 1 as [|x l Hs IH Hhd]; simpl.
  - constructor.
  - apply Sorted_snoc; [exact IH|].
    intros b Hb Hne. destruct l as [|y l]; [contradiction Hne; reflexivity|].
    simpl in Hb. rewrite last_last in Hb. subst b.
    inversion Hhd; assumption.
Qed.

(** *** The order on floats is total away from NaN *)

Lemma SFcompare_total (x y : spec_float) :
  SFeqb x x = true -> SFeqb y y = true -> SFleb x y = false -> SFleb y x = true.
Proof.
  unfold SFeqb, SFleb.
  destruct x as [sx|sx| |sx mx ex], y as [sy|sy| |sy my ey]; simpl;
    try discriminate; try reflexivity;
    try (destruct sx; discriminate || reflexivity);
    try (destruct sy; discriminate || reflexivity);
    try (destruct sx, sy; discriminate || reflexivity).
  intros _ _.
  rewrite (Z.compare_antisym ex ey).
  rewrite !Pos.compare_cont_spec. simpl.
  rewrite (Pos.compare_antisym mx my).
  destruct sx, sy; try discriminate; try reflexivity;
    destruct (ex ?= ey); simpl; try discriminate; try reflexivity;
    destruct (mx ?= my)%positive; simpl; discriminate || reflexivity.
Qed.

Lemma float_leb_total (a b : float) :
  PrimFloat.is_nan a = false -> PrimFloat.is_nan b = false ->
  PrimFloat.leb a b = false -> PrimFloat.leb b a = true.
Proof.
  unfold PrimFloat.is_nan. rewrite !FloatAxioms.eqb_spec, !FloatAxioms.leb_spec.
  intros Ha Hb. apply SFcompare_total.
  - destruct (SFeqb (Prim2SF a) (Prim2SF a)); [reflexivity | discriminate].
  - destruct (SFeqb (Prim2SF b) (Prim2SF b)); [reflexivity | discriminate].
Qed.

Lemma nth_not_nan (xs : list float) (i : nat) :
  existsb PrimFloat.is_nan xs = false -> PrimFloat.is_nan (nth i xs 0%float) = false.
Proof.
  revert i. induction xs as [|x xs IH]; intros [|i] H; simpl in *;
    try reflexivity; apply orb_false_iff in H; destruct H as [Hx Hxs].
  - exact Hx.
  - apply IH, Hxs.
Qed.

Lemma item_leb_total (s : Series) (i j : nat) :
  has_nan s = false -> item_leb s i j = false -> item_leb s j i = true.
Proof.
  destruct s as [xs|xs|xs|xs|xs]; simpl; intros Hnan H.
  - apply Z.leb_le. apply Z.leb_gt in H. lia.
  - destruct (nth i xs false), (nth j xs false); simpl in *; congruence.
  - apply float_leb_total; auto using nth_not_nan.
  - destruct (String.leb_total (nth i xs "") (nth j xs "")); congruence.
  - apply Z.leb_le. apply Z.leb_gt in H. lia.
Qed.

Lemma direction_total (s : Series) (ascending : bool) (i j : nat) :
  has_nan s = false ->
  direction s ascending i j = false -> direction s ascending j i = true.
Proof.
  destruct ascending; simpl; intros; eapply item_leb_total; eassumption.
Qed.

Lemma stable_argsort_perm (s : Series) (ascending : bool) :
  Permutation (stable_argsort s ascending) (seq 0 (Series_len s)).
Proof. apply insertion_sort_perm. Qed.

Lemma stable_argsort_sorted (s : Series) (ascending : bool) :
  has_nan s = false -> Sorted (key_order s ascending) (stable_argsort s ascending).
Proof.
  intros Hnan. unfold stable_argsort.
  apply (insertion_sort_sorted (direction s ascending)).
  intros i j. apply direction_total, Hnan.
Qed.

Lemma reversing_argsort_perm (s : Series) (ascending : bool) :
  Permutation (reversing_argsort s ascending) (seq 0 (Series_len s)).
Proof.
  unfold reversing_argsort. destruct ascending.
  - apply stable_argsort_perm.
  - eapply perm_trans; [apply Permutation_sym, Permutation_rev | apply stable_argsort_perm].
Qed.

Lemma reversing_argsort_sorted (s : Series) (ascending : bool) :
  has_nan s = false -> Sorted (key_order s ascending) (reversing_argsort s ascending).
Proof.
  intros Hnan. unfold reversing_argsort. destruct ascending.
  - apply stable_argsort_sorted, Hnan.
  - apply (Sorted_rev (key_order s true)). apply stable_argsort_sorted, Hnan.
Qed.

(** The two sorting routines meet the interface. *)
#[export] Instance stable_sorter : Sorter := {|
  argsort := stable_argsort;
  argsort_perm := stable_argsort_perm;
  argsort_sorted := stable_argsort_sorted
|}.

Definition reversing_sorter : Sorter := {|
  argsort := reversing_argsort;
  argsort_perm := reversing_argsort_perm;
  argsort_sorted := reversing_argsort_sorted
|}.

(** *** The insertion sort keeps rows with equal keys in input order *)

Lemma item_leb_item (key : Series) (i i' j j' : nat) :
  item key i = item key i' -> item key j = item key j' ->
  item_leb key i j = item_leb key i' j'.
Proof.
  destruct key as [xs|xs|xs|xs|xs]; simpl; intros Hi Hj.
  - apply (f_equal (fun v => match v with VInt z => z | _ => 0 end)) in Hi, Hj.
    rewrite Hi, Hj. reflexivity.
  - apply (f_equal (fun v => match v with VBool b => b | _ => false end)) in Hi, Hj.
    rewrite Hi, Hj. reflexivity.
  - apply (f_equal (fun v => match v with VFloat f => f | _ => 0%float end)) in Hi, Hj.
    rewrite Hi, Hj. reflexivity.
  - apply (f_equal (fun v => match v with VStr s => s | _ => EmptyString end)) in Hi, Hj.
    rewrite Hi, Hj. reflexivity.
  - apply (f_equal (fun v => match v with VTime z => z | _ => 0 end)) in Hi, Hj.
    rewrite Hi, Hj. reflexivity.
Qed.

Lemma direction_of_tie (key : Series) (ascending : bool) (i j : nat) :
  has_nan key = false -> item key j = item key i -> direction key ascending i j = true.
Proof.
  intros Hnan Hij.
  assert (Hrefl : item_leb key i i = true).
  { destruct (item_leb key i i) eqn:E; [reflexivity|].
    rewrite (item_leb_total key i i Hnan E) in E. discriminate E. }
  destruct ascending; simpl.
  - rewrite (item_leb_item key i i j i eq_refl Hij). exact Hrefl.
  - rewrite (item_leb_item key j i i i Hij eq_refl). exact Hrefl.
Qed.

Lemma insert_tie_order (key : Series) (ascending : bool) (x : nat) (l : list nat) :
  has_nan key = false ->
  Forall (fun y => (x < y)%nat) l ->
  StronglySorted (tie_order key) l ->
  StronglySorted (tie_order key) (insert (direction key ascending) x l).
Proof.
  intros Hnan Hlt Hs. induction Hs as [|j rest Hs IH Hj]; simpl.
  - repeat constructor.
  - inversion Hlt as [|? ? Hxj Hrest]; subst.
    destruct (direction key ascending x j) eqn:E.
    + constructor; [constructor; assumption|].
      eapply Forall_impl; [|exact Hlt]. intros y Hy _. exact Hy.
    + constructor; [apply IH, Hrest|].
      apply (Permutation_Forall (Permutation_sym (insert_perm _ x rest))).
      constructor; [|exact Hj].
      intros Htie. rewrite (direction_of_tie key ascending x j Hnan Htie) in E.
      discriminate E.
Qed.

Lemma insertion_sort_tie_order (key : Series) (ascending : bool) (start len : nat) :
  has_nan key = false ->
  StronglySorted (tie_order key) (insertion_sort (direction key ascending) (seq start len)).
Proof.
  intros Hnan. revert start. induction len as [|len IH]; intros start; simpl.
  - constructor.
  - apply insert_tie_order; [exact Hnan| |apply IH].
    apply (Permutation_Forall (Permutation_sym (insertion_sort_perm _ _))).
    apply Forall_forall. intros y Hy. apply in_seq in Hy. lia.
Qed.

Lemma StronglySorted_nth (R : nat -> nat -> Prop) (l : list nat) (p q : nat) :
  StronglySorted R l -> (p < q < List.length l)%nat -> R (nth p l 0%nat) (nth q l 0%nat).
Proof.
  intros Hs. revert p q. induction Hs as [|x l Hs IH Hx]; intros p q Hpq; simpl in Hpq.
  - lia.
  - destruct q as [|q]; [lia|]. destruct p as [|p]; simpl.
    + rewrite Forall_forall in Hx. apply Hx, nth_In. lia.
    + apply IH. lia.
Qed.

(** With the stable routine, rows tied on the key come in input order, in
    both directions. *)
Lemma stable_argsort_ties (key : Series) (ascending : bool) :
  has_nan key = false -> ties_in_input_order key (stable_argsort key ascending).
Proof.
  intros Hnan p q Hpq.
  apply (StronglySorted_nth (tie_order key)); [|exact Hpq].
  apply insertion_sort_tie_order, Hnan.
Qed.

(* ================================================================= *)
(** ** Facts about columns and frames *)

Lemma nth_map_in_range (A B : Type) (f : A -> B) (l : list A) (d : A) (d' : B) (i : nat) :
  (i < List.length l)%nat -> nth i (map f l) d' = f (nth i l d).
Proof.
  intros Hi. rewrite (nth_indep _ d' (f d)) by (rewrite length_map; exact Hi).
  apply map_nth.
Qed.

Lemma map_nth_seq (A : Type) (l : list A) (d : A) :
  map (fun i => nth i l d) (seq 0 (List.length l)) = l.
Proof.
  induction l as [|x l IH]; simpl; [reflexivity|].
  f_equal. rewrite <- seq_shift, map_map. exact IH.
Qed.

(** Reading a list at a permutation of its positions permutes it. *)
Lemma map_nth_perm (A : Type) (l : list A) (d : A) (idx : list nat) :
  Permutation idx (seq 0 (List.length l)) ->
  Permutation (map (fun i => nth i l d) idx) l.
Proof.
  intros H. eapply perm_trans; [apply Permutation_map, H|].
  rewrite map_nth_seq. apply Permutation_refl.
Qed.

Lemma perm_seq_in_range (idx : list nat) (n : nat) :
  Permutation idx (seq 0 n) -> Forall (fun i => (i < n)%nat) idx.
Proof.
  intros H. apply Forall_forall. intros i Hi.
  apply (Permutation_in _ H) in Hi. apply in_seq in Hi. lia.
Qed.

Lemma map_nth_map (A B : Type) (f : A -> B) (l : list A) (d : A) (d' : B) (idx : list nat) :
  Forall (fun i => (i < List.length l)%nat) idx ->
  map (fun i => nth i (map f l) d') idx = map f (map (fun i => nth i l d) idx).
Proof.
  induction 1 as [|i idx Hi _ IH]; simpl; [reflexivity|].
  rewrite IH. f_equal. apply nth_map_in_range, Hi.
Qed.

Lemma count_true_perm (l l' : list bool) :
  Permutation l l' -> count_true l = count_true l'.
Proof.
  intros H. unfold count_true. f_equal.
  apply Permutation_length. clear -H.
  induction H; simpl.
  - constructor.
  - destruct x; [apply perm_skip|]; assumption.
  - destruct x, y; apply Permutation_refl.
  - eapply perm_trans; eassumption.
Qed.

Lemma count_true_negb (l : list bool) :
  count_true l + count_true (map negb l) = Z.of_nat (List.length l).
Proof.
  unfold count_true. induction l as [|[|] l IH]; simpl List.length in *; simpl filter in *;
    simpl List.length; lia.
Qed.

Lemma count_true_bounds (l : list bool) :
  0 <= count_true l <= Z.of_nat (List.length l).
Proof.
  pose proof (count_true_negb l). unfold count_true in *. lia.
Qed.

(* ================================================================= *)
(** ** Facts about the streak loop *)

Lemma max_counter_nonneg (c : Z) (l : list bool) :
  0 <= fold_right Z.max 0 (counter_values c l).
Proof.
  revert c. induction l as [|r l IH]; intros c; simpl; [lia|].
  specialize (IH (if r then c + 1 else 0)). lia.
Qed.

(** The loop keeps the running maximum of the counter. *)
Lemma streak_fold (l : list bool) (current best : Z) :
  0 <= best ->
  snd (fold_left streak_step l (current, best))
  = Z.max best (fold_right Z.max 0 (counter_values current l)).
Proof.
  revert current best. induction l as [|r l IH]; intros current best Hb; simpl.
  - lia.
  - destruct r.
    + rewrite IH by lia. lia.
    + rewrite IH by lia. pose proof (max_counter_nonneg 0 l). lia.
Qed.

Lemma streak_loop_max_counter (l : list bool) : streak_loop l = max_counter l.
Proof.
  unfold streak_loop, max_counter. rewrite streak_fold by lia.
  pose proof (max_counter_nonneg 0 l). lia.
Qed.

Lemma counter_values_bound (c : Z) (l : list bool) :
  0 <= c -> fold_right Z.max 0 (counter_values c l) <= c + count_true l.
Proof.
  revert c. induction l as [|r l IH]; intros c Hc; simpl.
  - unfold count_true; simpl; lia.
  - destruct r.
    + specialize (IH (c + 1) ltac:(lia)).
      unfold count_true in *; simpl filter; simpl List.length. lia.
    + specialize (IH 0 ltac:(lia)).
      unfold count_true in *; simpl filter. lia.
Qed.

Lemma streak_loop_bounds (l : list bool) : 0 <= streak_loop l <= count_true l.
Proof.
  rewrite streak_loop_max_counter. unfold max_counter. split.
  - apply max_counter_nonneg.
  - pose proof (counter_values_bound 0 l). lia.
Qed.

(* ================================================================= *)
(** ** Facts about [fetch_matches] and [summarize_matches] *)

Lemma wins_in_count (json : list RawMatch) : count_true (map win_of json) = wins_in json.
Proof.
  unfold count_true, wins_in. f_equal.
  induction json as [|r l IH]; simpl; [reflexivity|].
  destruct (win_of r); simpl; congruence.
Qed.

Lemma losses_in_count (json : list RawMatch) : count_true (map loss_of json) = losses_in json.
Proof.
  unfold count_true, losses_in. f_equal.
  induction json as [|r l IH]; simpl; [reflexivity|].
  destruct (loss_of r); simpl; congruence.
Qed.

Lemma wins_losses_total (json : list RawMatch) :
  wins_in json + losses_in json = Z.of_nat (List.length json).
Proof.
  rewrite <- wins_in_count, <- losses_in_count.
  pose proof (count_true_negb (map win_of json)) as H.
  rewrite map_map, length_map in H. exact H.
Qed.

Lemma lookup_map_snd (f : Series -> Series) (k : string) (cols : list (string * Series)) :
  lookup k (map (fun c => (fst c, f (snd c))) cols) = option_map f (lookup k cols).
Proof.
  induction cols as [|[k' s] cols IH]; simpl; [reflexivity|].
  destruct (String.eqb k k'); [reflexivity | exact IH].
Qed.

Lemma DataFrame_of_json_nonempty (json : list RawMatch) :
  json <> [] ->
  DataFrame_of_json json =
  {| index := List.length json;
     columns :=
       [ ("match_id", int64 (map match_id json));
         ("player_slot", int64 (map player_slot json));
         ("radiant_win", bool_ (map radiant_win json));
         ("start_time", int64 (map start_time json));
         ("kills", int64 (map kills json));
         ("deaths", int64 (map deaths json));
         ("assists", int64 (map assists json)) ] |}.
Proof. destruct json; [intros H; contradiction H; reflexivity | reflexivity]. Qed.

Section ProgramFacts.

Context {S : Sorter}.
Variable requests_get : string -> Params -> Response.

Lemma fetch_matches_empty (account_id days : Z) (key : option string) :
  requests_get (request_url account_id) (request_params days key) = Response_ok [] ->
  fetch_matches requests_get account_id days key = Ok DataFrame_nil.
Proof. intros H. unfold fetch_matches. rewrite H. reflexivity. Qed.

Lemma fetch_matches_ok (account_id days : Z) (key : option string) (json : list RawMatch) :
  requests_get (request_url account_id) (request_params days key) = Response_ok json ->
  json <> [] ->
  fetch_matches requests_get account_id days key = Ok (matches_frame json).
Proof.
  intros H Hne. unfold fetch_matches. rewrite H.
  rewrite (DataFrame_of_json_nonempty json Hne).
  assert (Hlen : (List.length json =? 0)%nat = false).
  { destruct json; [contradiction Hne; reflexivity | reflexivity]. }
  unfold empty, getitem, setitem. cbn -[combine map List.length Nat.eqb].
  rewrite Hlen.
  repeat (cbn -[combine map List.length Nat.eqb];
          rewrite ?length_map, ?length_combine, ?Nat.min_id, ?Nat.eqb_refl).
  unfold matches_frame. do 3 f_equal.
  repeat (f_equal; try reflexivity).
  - rewrite <- (map_map (fun r => (player_slot r, radiant_win r))
                        (fun p => outcome (fst p) (snd p))).
    f_equal. clear. induction json; simpl; congruence.
  - f_equal. rewrite map_map.
    rewrite <- (map_map (fun r => (player_slot r, radiant_win r))
                        (fun p => negb (outcome (fst p) (snd p)))).
    f_equal. clear. induction json; simpl; congruence.
Qed.

Lemma scan_order_perm (json : list RawMatch) :
  Permutation (scan_order json) (seq 0 (List.length json)).
Proof.
  unfold scan_order.
  pose proof (argsort_perm (datetime64 (map start_time json)) true) as H.
  simpl in H. rewrite length_map in H. exact H.
Qed.

Lemma scan_order_in_range (json : list RawMatch) :
  Forall (fun i => (i < List.length json)%nat) (scan_order json).
Proof. apply perm_seq_in_range, scan_order_perm. Qed.

Lemma scanned_perm (json : list RawMatch) (d : RawMatch) :
  Permutation (scanned json d) json.
Proof. apply map_nth_perm, scan_order_perm. Qed.

Lemma scanned_chronological (json : list RawMatch) (d : RawMatch) :
  chronological (scanned json d).
Proof.
  unfold chronological, scanned.
  pose proof (argsort_sorted (datetime64 (map start_time json)) true eq_refl) as Hs.
  pose proof (scan_order_in_range json) as Hr.
  fold (scan_order json) in Hs.
  induction Hs as [|i idx Hs IH Hhd]; simpl; [constructor|].
  inversion Hr as [|? ? Hi Hidx]; subst.
  constructor; [apply IH, Hidx|].
  destruct Hhd as [|j idx Hij]; simpl; constructor.
  inversion Hidx as [|? ? Hj _]; subst.
  unfold key_order in Hij; simpl in Hij. apply Z.leb_le in Hij.
  rewrite !(nth_map_in_range _ _ start_time json d 0) in Hij by assumption.
  exact Hij.
Qed.

Lemma scanned_wins (json : list RawMatch) (d : RawMatch) :
  map (fun i => nth i (map win_of json) false) (scan_order json)
  = map win_of (scanned json d).
Proof. apply map_nth_map, scan_order_in_range. Qed.

(** What [summarize_matches] computes on the frame of a non-empty answer. *)
Lemma summarize_matches_ok (json : list RawMatch) (d : RawMatch) (sid lbl : string) :
  json <> [] ->
  summarize_matches (matches_frame json) sid lbl =
  Ok {| steam_id := sid;
        label := lbl;
        games := Z.of_nat (List.length json);
        wins := wins_in json;
        losses := losses_in json;
        win_rate :=
          round1 (mul (truediv (PyInt (wins_in json))
                               (PyInt (Z.of_nat (List.length json))))
                      (PyInt 100));
        avg_k := round_avg (Some (float_of_int (sum_Z (map kills json))
                                  / float_of_int (Z.of_nat (List.length json)))%float);
        avg_d := round_avg (Some (float_of_int (sum_Z (map deaths json))
                                  / float_of_int (Z.of_nat (List.length json)))%float);
        avg_a := round_avg (Some (float_of_int (sum_Z (map assists json))
                                  / float_of_int (Z.of_nat (List.length json)))%float);
        best_streak := streak_loop (map win_of (scanned json d)) |}.
Proof.
  intros Hne.
  assert (Hlen : (Z.of_nat (List.length json) =? 0) = false).
  { apply Z.eqb_neq. destruct json; [contradiction Hne; reflexivity | simpl List.length; lia]. }
  unfold summarize_matches, len, sort_values, getitem.
  cbn -[map List.length Z.eqb Z.of_nat round1 round_avg mul truediv streak_loop argsort].
  rewrite Hlen.
  cbn -[map List.length Z.eqb Z.of_nat round1 round_avg mul truediv streak_loop argsort].
  rewrite !length_map, wins_in_count, losses_in_count.
  rewrite lookup_map_snd.
  cbn -[map List.length Z.eqb Z.of_nat round1 round_avg mul truediv streak_loop argsort].
  fold (scan_order json). rewrite (scanned_wins json d).
  reflexivity.
Qed.

End ProgramFacts.

(* ================================================================= *)
(** ** Facts about identifiers *)

Lemma split_replace_fields (s : string) :
  split comma (replace newline comma s) = fields s.
Proof.
  induction s as [|c r IH]; simpl; [reflexivity|].
  rewrite IH. unfold is_separator.
  destruct (Ascii.eqb c newline) eqn:Hn; simpl.
  - reflexivity.
  - destruct (Ascii.eqb c comma); reflexivity.
Qed.

Lemma fields_not_nil (s : string) : fields s <> [].
Proof.
  induction s as [|c r IH]; simpl; [discriminate|].
  destruct (is_separator c); [discriminate|].
  destruct (fields r); [contradiction IH; reflexivity | discriminate].
Qed.

(** [fields] cuts exactly at the separators: no piece holds one, there is
    one piece more than there are separators, and weaving the pieces with
    the separators gives the text back. *)
Lemma fields_no_separator (s : string) :
  Forall (fun t => forall_chars (fun c => negb (is_separator c)) t = true) (fields s).
Proof.
  induction s as [|c r IH]; simpl; [repeat constructor|].
  destruct (is_separator c) eqn:E.
  - constructor; [reflexivity | exact IH].
  - destruct (fields r) as [|t ts]; [repeat constructor; simpl; rewrite E; reflexivity|].
    inversion IH as [|? ? Ht Hts]; subst.
    constructor; [simpl; rewrite E, Ht; reflexivity | exact Hts].
Qed.

Lemma fields_count (s : string) :
  List.length (fields s) = Datatypes.S (List.length (separators s)).
Proof.
  induction s as [|c r IH]; simpl; [reflexivity|].
  destruct (is_separator c); simpl; [rewrite IH; reflexivity|].
  destruct (fields r) as [|t ts] eqn:E; [contradiction (fields_not_nil r E)|].
  exact IH.
Qed.

Lemma fields_weave (s : string) : weave (fields s) (separators s) = s.
Proof.
  induction s as [|c r IH]; simpl; [reflexivity|].
  destruct (is_separator c); simpl; [rewrite IH; reflexivity|].
  destruct (fields r) as [|t ts] eqn:E; [contradiction (fields_not_nil r E)|].
  destruct (separators r) as [|c' seps]; simpl in *; rewrite IH; reflexivity.
Qed.

(** [strip] removes blanks at both ends and nothing else. *)
Lemma lstrip_split (s : string) :
  exists l, s = (l ++ lstrip s)%string /\ forall_chars isspace l = true.
Proof.
  induction s as [|c r [l [Hl Hb]]]; simpl.
  - exists EmptyString. split; reflexivity.
  - destruct (isspace c) eqn:E.
    + exists (String c l). simpl. rewrite E, Hb. split; [f_equal; exact Hl | reflexivity].
    + exists EmptyString. split; reflexivity.
Qed.

Lemma rstrip_split (s : string) :
  exists r, s = (rstrip s ++ r)%string /\ forall_chars isspace r = true.
Proof.
  induction s as [|c s' [r [Hr Hb]]]; simpl.
  - exists EmptyString. split; reflexivity.
  - destruct (rstrip s') as [|c' t] eqn:E.
    + destruct (isspace c) eqn:Ec.
      * exists (String c r). simpl in *. rewrite Ec, Hb. split; [f_equal; exact Hr | reflexivity].
      * exists r. simpl in *. split; [f_equal; exact Hr | exact Hb].
    + exists r. simpl in *. split; [f_equal; exact Hr | exact Hb].
Qed.

Lemma lstrip_first (s : string) : is_blank (first_char (lstrip s)) = false.
Proof.
  induction s as [|c r IH]; simpl; [reflexivity|].
  destruct (isspace c) eqn:E; [exact IH | simpl; exact E].
Qed.

Lemma rstrip_last (s : string) : is_blank (last_char (rstrip s)) = false.
Proof.
  induction s as [|c r IH]; simpl; [reflexivity|].
  destruct (rstrip r) as [|c' t] eqn:E.
  - destruct (isspace c) eqn:Ec; simpl; [reflexivity | exact Ec].
  - exact IH.
Qed.

Lemma rstrip_first (s : string) :
  is_blank (first_char s) = false -> is_blank (first_char (rstrip s)) = false.
Proof.
  destruct s as [|c r]; simpl; [reflexivity|]. intros Hc.
  destruct (rstrip r); [rewrite Hc|]; simpl; exact Hc.
Qed.

Lemma strip_trims (s : string) :
  (exists l r, s = (l ++ strip s ++ r)%string /\
               forall_chars isspace l = true /\ forall_chars isspace r = true) /\
  is_blank (first_char (strip s)) = false /\
  is_blank (last_char (strip s)) = false.
Proof.
  unfold strip. split; [|split].
  - destruct (lstrip_split s) as [l [Hl Hbl]].
    destruct (rstrip_split (lstrip s)) as [r [Hr Hbr]].
    exists l, r. rewrite <- Hr. auto.
  - apply rstrip_first, lstrip_first.
  - apply rstrip_last.
Qed.

Lemma decimal_not_space (c : ascii) : is_decimal c = true -> int_space c = false.
Proof.
  unfold is_decimal, int_space, in_range. intros H.
  apply andb_true_iff in H. destruct H as [H1 H2].
  apply N.leb_le in H1. apply N.leb_le in H2.
  repeat (apply orb_false_iff; split).
  - apply andb_false_iff. right. apply N.leb_gt. lia.
  - apply N.eqb_neq. lia.
  - apply N.eqb_neq. lia.
  - apply N.eqb_neq. lia.
Qed.

Lemma decimal_isdigit (c : ascii) : is_decimal c = true -> isdigit_char c = true.
Proof. unfold isdigit_char. intros ->. reflexivity. Qed.

Lemma scan_digits_decimal (r : string) (acc : Z) (n : nat) :
  forall_chars is_decimal r = true ->
  scan_digits r false acc n = Some (decimal_from acc r, (n + String.length r)%nat, EmptyString).
Proof.
  revert acc n. induction r as [|c r IH]; intros acc n H; simpl in *.
  - rewrite Nat.add_0_r. reflexivity.
  - apply andb_true_iff in H. destruct H as [Hc Hr].
    rewrite Hc, IH by exact Hr. do 3 f_equal. lia.
Qed.

(** [int] reads a text of decimal digits as the number it denotes, up to
    the limit on the number of digits. *)
Lemma parse_int_decimal (s : string) :
  decimal_string s = true ->
  (String.length s <= int_max_str_digits)%nat ->
  parse_int s = Some (decimal_value s).
Proof.
  destruct s as [|c r]; [discriminate|]. simpl decimal_string.
  intros H Hlen. apply andb_true_iff in H. destruct H as [Hc Hr].
  unfold parse_int. simpl skip_int_space. rewrite (decimal_not_space c Hc).
  assert (Hsign : (match String c r with
                   | String "-" r' => (true, r')
                   | String "+" r' => (false, r')
                   | _ => (false, String c r)
                   end) = (false, String c r)).
  { destruct c as [[] [] [] [] [] [] [] []]; try discriminate Hc; reflexivity. }
  rewrite Hsign, Hc, (scan_digits_decimal r _ 1 Hr). simpl skip_int_space.
  simpl String.length in Hlen.
  replace (1 + String.length r <=? int_max_str_digits)%nat with true
    by (symmetry; apply Nat.leb_le; lia).
  unfold decimal_value. simpl. reflexivity.
Qed.

(* ================================================================= *)
(** ** Facts about the store and [add_loss_rate] *)

Lemma cell_write_same (h : store) (r : nat) (df : DataFrame) : cell (write h r df) r = df.
Proof. simpl. rewrite Nat.eqb_refl. reflexivity. Qed.

Lemma cell_write_other (h : store) (r r' : nat) (df : DataFrame) :
  r' <> r -> cell (write h r df) r' = cell h r'.
Proof. intros H. simpl. apply Nat.eqb_neq in H. rewrite H. reflexivity. Qed.

Lemma cell_copy_new (h : store) (r : nat) : cell (snd (copy h r)) (next h) = cell h r.
Proof. simpl. rewrite Nat.eqb_refl. reflexivity. Qed.

Lemma cell_copy_old (h : store) (r r' : nat) :
  (r' < next h)%nat -> cell (snd (copy h r)) r' = cell h r'.
Proof.
  intros H. simpl. replace (r' =? next h)%nat with false; [reflexivity|].
  symmetry. apply Nat.eqb_neq. lia.
Qed.

Lemma add_loss_rate_empty (h : store) (df : nat) :
  empty (cell h df) = true -> add_loss_rate df h = Ok (df, h).
Proof. intros H. unfold add_loss_rate. rewrite H. reflexivity. Qed.

Lemma add_loss_rate_nonempty (h : store) (df : nat) (col : Series) (frame : DataFrame) :
  empty (cell h df) = false ->
  loss_rate_column (cell h df) = Ok col ->
  setitem (cell h df) "loss_rate" col = Ok frame ->
  add_loss_rate df h = Ok (next h, write (snd (copy h df)) (next h) frame).
Proof.
  intros He Hcol Hset. unfold add_loss_rate. rewrite He.
  change (copy h df) with (next h, snd (copy h df)). cbv beta iota.
  rewrite cell_copy_new, Hcol. cbn [bind]. rewrite Hset. reflexivity.
Qed.

Lemma Series_of_numbers_len (ns : list number) :
  Series_len (Series_of_numbers ns) = List.length ns.
Proof.
  unfold Series_of_numbers. destruct (forallb is_int ns); simpl; apply length_map.
Qed.

Lemma float_of_int_100 : float_of_int 100 = 100%float.
Proof. vm_compute. reflexivity. Qed.

Lemma loss_rate_of_row (p : PlayerSummary) :
  loss_rate_of (PyInt (games p)) (PyInt (losses p)) = loss_rate p.
Proof.
  unfold loss_rate_of, loss_rate, truthy. destruct (games p =? 0); simpl; [reflexivity|].
  rewrite float_of_int_100. reflexivity.
Qed.

Lemma loss_rate_cells (rows : list PlayerSummary) :
  map (fun p => loss_rate_of (fst p) (snd p))
      (combine (map PyInt (map games rows)) (map PyInt (map losses rows)))
  = map loss_rate rows.
Proof.
  induction rows as [|p rows IH]; simpl; [reflexivity|].
  rewrite IH. f_equal. apply loss_rate_of_row.
Qed.

Lemma DataFrame_of_rows_nonempty (rows : list PlayerSummary) :
  rows <> [] ->
  DataFrame_of_rows rows =
  {| index := List.length rows;
     columns :=
       [ ("steam_id", object_ (map steam_id rows));
         ("label", object_ (map label rows));
         ("games", int64 (map games rows));
         ("wins", int64 (map wins rows));
         ("losses", int64 (map losses rows));
         ("win_rate", Series_of_numbers (map win_rate rows));
         ("avg_k", Series_of_numbers (map avg_k rows));
         ("avg_d", Series_of_numbers (map avg_d rows));
         ("avg_a", Series_of_numbers (map avg_a rows));
         ("best_streak", int64 (map best_streak rows)) ] |}.
Proof. destruct rows; [intros H; contradiction H; reflexivity | reflexivity]. Qed.

Lemma DataFrame_of_rows_empty (rows : list PlayerSummary) :
  empty (DataFrame_of_rows rows) = match rows with [] => true | _ :: _ => false end.
Proof. destruct rows; reflexivity. Qed.

Lemma with_loss_rate_not_empty (rows : list PlayerSummary) :
  rows <> [] -> empty (with_loss_rate rows) = false.
Proof. destruct rows; [intros H; contradiction H; reflexivity | reflexivity]. Qed.

(** Adding the column to a summary frame, and adding it again. *)
Lemma loss_rate_column_rows (rows : list PlayerSummary) :
  rows <> [] ->
  loss_rate_column (DataFrame_of_rows rows) = Ok (Series_of_numbers (map loss_rate rows)).
Proof.
  intros Hne. rewrite (DataFrame_of_rows_nonempty rows Hne).
  unfold loss_rate_column, getitem. cbn -[map combine Series_of_numbers].
  rewrite loss_rate_cells. reflexivity.
Qed.

Lemma setitem_rows (rows : list PlayerSummary) :
  rows <> [] ->
  setitem (DataFrame_of_rows rows) "loss_rate" (Series_of_numbers (map loss_rate rows))
  = Ok (with_loss_rate rows).
Proof.
  intros Hne. unfold with_loss_rate. rewrite (DataFrame_of_rows_nonempty rows Hne).
  unfold setitem. rewrite Series_of_numbers_len, length_map.
  cbn -[map Series_of_numbers List.length Nat.eqb]. rewrite Nat.eqb_refl. reflexivity.
Qed.

Lemma loss_rate_column_again (rows : list PlayerSummary) :
  rows <> [] ->
  loss_rate_column (with_loss_rate rows) = Ok (Series_of_numbers (map loss_rate rows)).
Proof.
  intros Hne. unfold with_loss_rate. rewrite (DataFrame_of_rows_nonempty rows Hne).
  unfold loss_rate_column, getitem. cbn -[map combine Series_of_numbers].
  rewrite loss_rate_cells. reflexivity.
Qed.

Lemma setitem_again (rows : list PlayerSummary) :
  rows <> [] ->
  setitem (with_loss_rate rows) "loss_rate" (Series_of_numbers (map loss_rate rows))
  = Ok (with_loss_rate rows).
Proof.
  intros Hne. unfold with_loss_rate. rewrite (DataFrame_of_rows_nonempty rows Hne).
  unfold setitem. rewrite Series_of_numbers_len, length_map.
  cbn -[map Series_of_numbers List.length Nat.eqb]. rewrite Nat.eqb_refl. reflexivity.
Qed.

(* ================================================================= *)
(** ** Facts about [head], [select] and rows *)

Lemma head_count_firstn (A : Type) (l : list A) (n : Z) :
  0 <= n -> firstn (head_count (List.length l) n) l = firstn (Z.to_nat n) l.
Proof.
  intros Hn. unfold head_count.
  replace (n <? 0) with false by (symmetry; apply Z.ltb_ge; exact Hn).
  destruct (Nat.le_ge_cases (List.length l) (Z.to_nat n)) as [H|H].
  - rewrite Nat.min_l by exact H. rewrite !firstn_all2 by lia. reflexivity.
  - rewrite Nat.min_r by exact H. reflexivity.
Qed.

Lemma head_count_le (rows : nat) (n : Z) : (head_count rows n <= rows)%nat.
Proof. unfold head_count. destruct (n <? 0); lia. Qed.

Lemma Series_firstn_take (k : nat) (idx : list nat) (s : Series) :
  Series_firstn k (take idx s) = take (firstn k idx) s.
Proof. destruct s; simpl; rewrite firstn_map; reflexivity. Qed.

(** [head] after a reordering reads the first positions of the order. *)
Lemma head_take_rows (idx : list nat) (df : DataFrame) (n : Z) :
  0 <= n ->
  head (take_rows idx df) n = take_rows (firstn (Z.to_nat n) idx) df.
Proof.
  intros Hn. unfold head, take_rows. cbn [index columns].
  rewrite <- (head_count_firstn _ idx n Hn).
  f_equal.
  - rewrite length_firstn. pose proof (head_count_le (List.length idx) n). lia.
  - rewrite map_map. apply map_ext. intros [k s]. cbn [fst snd].
    rewrite Series_firstn_take. reflexivity.
Qed.

Lemma item_take (idx : list nat) (s : Series) (p : nat) :
  (p < List.length idx)%nat -> item (take idx s) p = item s (nth p idx 0%nat).
Proof.
  intros Hp. destruct s as [xs|xs|xs|xs|xs]; simpl; f_equal.
  - apply (nth_map_in_range _ _ (fun i => nth i xs 0)); exact Hp.
  - apply (nth_map_in_range _ _ (fun i => nth i xs false)); exact Hp.
  - apply (nth_map_in_range _ _ (fun i => nth i xs 0%float)); exact Hp.
  - apply (nth_map_in_range _ _ (fun i => nth i xs "")); exact Hp.
  - apply (nth_map_in_range _ _ (fun i => nth i xs 0)); exact Hp.
Qed.

Lemma row_take_rows (idx : list nat) (df : DataFrame) (p : nat) :
  (p < List.length idx)%nat -> row (take_rows idx df) p = row df (nth p idx 0%nat).
Proof.
  intros Hp. unfold row, take_rows. cbn [columns]. rewrite map_map.
  apply map_ext. intros [k s]. cbn [fst snd]. rewrite item_take by exact Hp. reflexivity.
Qed.

Lemma map_nth_positions (A : Type) (f : nat -> A) (idx : list nat) :
  map (fun p => f (nth p idx 0%nat)) (seq 0 (List.length idx)) = map f idx.
Proof.
  rewrite <- (map_map (fun p => nth p idx 0%nat) f). f_equal. apply map_nth_seq.
Qed.

Lemma records_take_rows (idx : list nat) (df : DataFrame) :
  records (take_rows idx df) = map (row df) idx.
Proof.
  unfold records. cbn [index take_rows].
  rewrite <- (map_nth_positions _ (row df) idx).
  apply map_ext_in. intros p Hp. apply in_seq in Hp.
  apply row_take_rows. lia.
Qed.

Lemma field_row (df : DataFrame) (i : nat) (k : string) :
  field (row df i) k = option_map (fun s => item s i) (lookup k (columns df)).
Proof.
  unfold row. induction (columns df) as [|[k' s] cols IH]; simpl; [reflexivity|].
  destruct (String.eqb k k'); [reflexivity | exact IH].
Qed.

(** Selecting columns that are all there succeeds, and each row of the
    selection is the projection of the row it comes from. *)
Lemma select_columns_ok (cols : list (string * Series)) (keys : list string) :
  Forall (fun k => lookup k cols <> None) keys ->
  exists picked,
    select_columns cols keys = Ok picked /\
    forall i, map (fun c => (fst c, item (snd c) i)) picked
              = project keys (map (fun c => (fst c, item (snd c) i)) cols).
Proof.
  induction 1 as [|k keys Hk _ IH]; simpl.
  - exists []. split; [reflexivity | intros; reflexivity].
  - destruct IH as [picked [Hsel Hrows]].
    destruct (lookup k cols) as [s|] eqn:Hl; [|contradiction Hk; reflexivity].
    rewrite Hsel. exists ((k, s) :: picked). split; [reflexivity|].
    intros i. simpl.
    pose proof (field_row {| index := 0; columns := cols |} i k) as Hf.
    unfold row in Hf. cbn [columns] in Hf. rewrite Hf, Hl. simpl.
    rewrite Hrows. reflexivity.
Qed.

Lemma select_ok (df : DataFrame) (keys : list string) :
  has_columns df keys ->
  exists result,
    select df keys = Ok result /\
    index result = index df /\
    forall i, row result i = project keys (row df i).
Proof.
  intros H. destruct (select_columns_ok (columns df) keys H) as [picked [Hsel Hrows]].
  exists {| index := index df; columns := picked |}.
  unfold select. rewrite Hsel. repeat split. exact Hrows.
Qed.

Lemma has_columns_take_rows (idx : list nat) (df : DataFrame) (keys : list string) :
  has_columns df keys -> has_columns (take_rows idx df) keys.
Proof.
  unfold has_columns. intros H. eapply Forall_impl; [|exact H].
  intros k Hk. cbv beta in Hk. cbn [take_rows columns]. rewrite lookup_map_snd.
  destruct (lookup k (columns df)); [discriminate | contradiction Hk; reflexivity].
Qed.

Lemma getitem_well_formed (df : DataFrame) (k : string) (s : Series) :
  well_formed df -> getitem df k = Ok s -> Series_len s = index df.
Proof.
  unfold well_formed, getitem. intros Hwf.
  induction Hwf as [|[k' s'] cols Hc _ IH]; simpl; [discriminate|].
  destruct (String.eqb k k').
  - intros [= <-]. exact Hc.
  - exact IH.
Qed.

Section RankerFacts.

Context {S : Sorter}.

(** [highlight_top_players] on a non-empty frame: the rows at the first
    [top_n] positions of the descending order, projected. *)
Lemma highlight_top_players_rows (df : DataFrame) (metric : string) (top_n : Z) (key : Series) :
  0 <= top_n ->
  empty df = false ->
  getitem df metric = Ok key ->
  has_columns df (display metric) ->
  exists result,
    highlight_top_players df metric top_n = Ok result /\
    records result
    = map (fun i => project (display metric) (row df i))
          (firstn (Z.to_nat top_n) (argsort key false)).
Proof.
  intros Hn He Hkey Hcols.
  unfold highlight_top_players, sort_values. rewrite He, Hkey. cbn [bind].
  rewrite head_take_rows by exact Hn.
  set (idx := firstn (Z.to_nat top_n) (argsort key false)).
  destruct (select_ok (take_rows idx df) (display metric)
              (has_columns_take_rows idx df _ Hcols)) as [result [Hsel [Hidx Hrows]]].
  exists result. split; [exact Hsel|].
  unfold records. rewrite Hidx. cbn [take_rows index].
  rewrite <- (map_nth_positions _ (fun i => project (display metric) (row df i)) idx).
  apply map_ext_in. intros p Hp. apply in_seq in Hp.
  rewrite Hrows, row_take_rows by lia. reflexivity.
Qed.

End RankerFacts.

(* ================================================================= *)
(** ** Facts about [collect_period_summaries] *)

Section CollectFacts.

Context {S : Sorter}.
Variable requests_get : string -> Params -> Response.
Variable days : Z.
Variable key : option string.

(** The loop adds one entry per identifier, in order, as long as no
    exception escapes. *)
Lemma collect_loop_entries (steam_ids : list string) (entries : list (PlayerSummary + string))
  (rows : list PlayerSummary) (errors : list string) :
  Forall2 (fun sid e => entry requests_get days key sid = Ok e) steam_ids entries ->
  collect_loop requests_get steam_ids days key rows errors
  = Ok (rows ++ summaries_of entries, errors ++ errors_of entries).
Proof.
  intros H. revert rows errors.
  induction H as [|sid e steam_ids entries He _ IH]; intros rows errors; simpl.
  - rewrite !app_nil_r. reflexivity.
  - unfold entry in He.
    destruct (steam64_to_account_id sid) as [account_id|].
    + destruct (fetch_matches requests_get account_id days key) as [matches|[]].
      * destruct (summarize_matches matches sid _) as [r|]; [|discriminate He].
        injection He as <-. cbn [bind]. rewrite IH, <- app_assoc. reflexivity.
      * discriminate He.
      * discriminate He.
      * discriminate He.
      * injection He as <-. rewrite IH, <- app_assoc. reflexivity.
      * injection He as <-. rewrite IH, <- app_assoc. reflexivity.
    + injection He as <-. rewrite IH, <- app_assoc. reflexivity.
Qed.

(** An exception that escapes from one identifier ends the loop: the
    identifiers after it are not processed and nothing is returned. *)
Lemma collect_loop_raises (before after : list string) (sid : string)
  (entries : list (PlayerSummary + string)) (e : exn)
  (rows : list PlayerSummary) (errors : list string) :
  Forall2 (fun sid e => entry requests_get days key sid = Ok e) before entries ->
  entry requests_get days key sid = Raise e ->
  collect_loop requests_get (before ++ sid :: after) days key rows errors = Raise e.
Proof.
  intros H He. revert rows errors.
  induction H as [|sid0 e0 before entries He0 _ IH]; intros rows errors; simpl.
  - unfold entry in He.
    destruct (steam64_to_account_id sid) as [account_id|]; [|discriminate He].
    destruct (fetch_matches requests_get account_id days key) as [matches|[]];
      try discriminate He; try (injection He as <-; reflexivity).
    destruct (summarize_matches matches sid _) as [r|]; [discriminate He|].
    injection He as <-. reflexivity.
  - unfold entry in He0.
    destruct (steam64_to_account_id sid0) as [account_id|].
    + destruct (fetch_matches requests_get account_id days key) as [matches|[]];
        try discriminate He0; try apply IH.
      destruct (summarize_matches matches sid0 _) as [r|]; [|discriminate He0].
      cbn [bind]. apply IH.
    + apply IH.
Qed.

(** An identifier whose account has matches in the window yields a summary;
    one whose account has none makes [summarize_matches] raise. *)
Lemma entry_no_matches (sid : string) (account_id : Z) :
  steam64_to_account_id sid = Some account_id ->
  requests_get (request_url account_id) (request_params days key) = Response_ok [] ->
  entry requests_get days key sid = Raise (KeyError "win").
Proof.
  intros Hid Hr. unfold entry. rewrite Hid, (fetch_matches_empty _ _ _ _ Hr). reflexivity.
Qed.

Lemma entry_matches (sid : string) (account_id : Z) (json : list RawMatch) :
  steam64_to_account_id sid = Some account_id ->
  requests_get (request_url account_id) (request_params days key) = Response_ok json ->
  json <> [] ->
  exists row, entry requests_get days key sid = Ok (inl row).
Proof.
  intros Hid Hr Hne. unfold entry. rewrite Hid, (fetch_matches_ok _ _ _ _ _ Hr Hne).
  destruct json as [|d json']; [contradiction Hne; reflexivity|].
  rewrite (summarize_matches_ok (d :: json') d _ _ Hne). eexists. reflexivity.
Qed.

End CollectFacts.

(* ================================================================= *)
(** ** Properties of the summarisation pipeline *)

Lemma wins_in_perm (l l' : list RawMatch) : Permutation l l' -> wins_in l = wins_in l'.
Proof.
  intros H. rewrite <- !wins_in_count. apply count_true_perm, Permutation_map, H.
Qed.

(** C1.  The frame [fetch_matches] returns when the remote reports no match
    is [pd.DataFrame([])], which has no column; on it [summarize_matches]
    does not return the all-zero summary: reading the column [win] raises
    [KeyError]. *)
Theorem summarize_matches_no_matches {S : Sorter}
  (requests_get : string -> Params -> Response)
  (account_id days : Z) (key : option string) (sid lbl : string) :
  requests_get (request_url account_id) (request_params days key) = Response_ok [] ->
  exists df,
    fetch_matches requests_get account_id days key = Ok df /\
    len df = 0 /\
    summarize_matches df sid lbl = Raise (KeyError "win").
Proof.
  intros Hr. exists DataFrame_nil.
  split; [apply fetch_matches_empty, Hr|]. split; reflexivity.
Qed.

Lemma summarize_matches_no_matches_example :
  exists df,
    fetch_matches (always []) 395662619 7 None = Ok df /\
    len df = 0 /\
    summarize_matches (S := stable_sorter) df "76561198355928347" "Last 7 days"
    = Raise (KeyError "win").
Proof.
  exact (summarize_matches_no_matches (S := stable_sorter) (always []) 395662619 7 None
           "76561198355928347" "Last 7 days" eq_refl).
Defined.

(** C2.  One identifier whose account has no match in the window aborts the
    whole batch: [collect_period_summaries] raises [KeyError] and returns
    neither summaries nor errors, whatever the identifiers before it
    produced and whatever follows it. *)
Theorem collect_period_summaries_no_matches {S : Sorter}
  (requests_get : string -> Params -> Response) (days : Z) (key : option string)
  (before after : list string) (entries : list (PlayerSummary + string))
  (sid : string) (account_id : Z) :
  Forall2 (fun sid e => entry requests_get days key sid = Ok e) before entries ->
  steam64_to_account_id sid = Some account_id ->
  requests_get (request_url account_id) (request_params days key) = Response_ok [] ->
  collect_period_summaries requests_get (before ++ sid :: after) days key
  = Raise (KeyError "win").
Proof.
  intros Hbefore Hid Hr. unfold collect_period_summaries.
  rewrite (collect_loop_raises requests_get days key before after sid entries
             (KeyError "win") [] [] Hbefore
             (entry_no_matches requests_get days key sid account_id Hid Hr)).
  reflexivity.
Qed.

(** A malformed identifier, then a valid one without matches. *)
Lemma collect_period_summaries_no_matches_example :
  collect_period_summaries (S := stable_sorter) (always [])
    (["bad_id"] ++ "76561198355928347" :: []) 7 None
  = Raise (KeyError "win").
Proof.
  exact (collect_period_summaries_no_matches (S := stable_sorter) (always []) 7 None
           ["bad_id"] [] [inr "Invalid Steam64 ID: bad_id"] "76561198355928347" 395662619
           ltac:(repeat constructor) eq_refl eq_refl).
Defined.

(** C3.  For a non-empty set of records, [best_streak] is the largest value
    reached by the consecutive-win counter over the records in chronological
    order. *)
Theorem best_streak_max_counter {S : Sorter} (requests_get : string -> Params -> Response)
  (account_id days : Z) (key : option string) (sid lbl : string) (json : list RawMatch) :
  requests_get (request_url account_id) (request_params days key) = Response_ok json ->
  json <> [] ->
  exists df summary chrono,
    fetch_matches requests_get account_id days key = Ok df /\
    summarize_matches df sid lbl = Ok summary /\
    Permutation chrono json /\
    chronological chrono /\
    best_streak summary = max_counter (map win_of chrono).
Proof.
  intros Hr Hne. destruct json as [|d json']; [contradiction Hne; reflexivity|].
  exists (matches_frame (d :: json')). eexists. exists (scanned (d :: json') d).
  split; [apply fetch_matches_ok; assumption|].
  split; [apply (summarize_matches_ok (d :: json') d); assumption|].
  split; [apply scanned_perm|].
  split; [apply scanned_chronological|].
  cbn [best_streak]. apply streak_loop_max_counter.
Qed.

(** On the sample results the best streak is 3. *)
Lemma best_streak_example :
  exists df summary,
    fetch_matches (always streak_sample) 0 7 None = Ok df /\
    summarize_matches (S := stable_sorter) df "76561198355928347" "Last 7 days" = Ok summary /\
    best_streak summary = 3.
Proof.
  destruct (best_streak_max_counter (S := stable_sorter) (always streak_sample) 0 7 None
              "76561198355928347" "Last 7 days" streak_sample eq_refl ltac:(discriminate))
    as [df [summary [chrono [Hf [Hs _]]]]].
  exists df, summary. split; [exact Hf|]. split; [exact Hs|].
  injection Hf as <-. vm_compute in Hs. injection Hs as <-. reflexivity.
Defined.

(** C4.  Every record of a non-empty answer gets
    [win = (player_slot < 128) == radiant_win] and [loss = not win]. *)
Theorem fetch_matches_win_loss (requests_get : string -> Params -> Response)
  (account_id days : Z) (key : option string) (json : list RawMatch) :
  requests_get (request_url account_id) (request_params days key) = Response_ok json ->
  json <> [] ->
  exists df,
    fetch_matches requests_get account_id days key = Ok df /\
    getitem df "win"
      = Ok (bool_ (map (fun r => Bool.eqb (player_slot r <? 128) (radiant_win r)) json)) /\
    getitem df "loss"
      = Ok (bool_ (map (fun r => negb (Bool.eqb (player_slot r <? 128) (radiant_win r))) json)).
Proof.
  intros Hr Hne. exists (matches_frame json).
  split; [apply fetch_matches_ok; assumption|]. split; reflexivity.
Qed.

(** On the sample records: a win, a loss, a win. *)
Lemma fetch_matches_win_loss_example :
  exists df,
    fetch_matches (always outcome_sample) 0 7 None = Ok df /\
    getitem df "win" = Ok (bool_ [true; false; true]) /\
    getitem df "loss" = Ok (bool_ [false; true; false]).
Proof.
  exact (fetch_matches_win_loss (always outcome_sample) 0 7 None outcome_sample
           eq_refl ltac:(discriminate)).
Defined.

(** C5 (as amended).  On an empty frame [highlight_top_players] returns the
    frame it was given; otherwise its rows are the first [top_n] rows of a
    rearrangement of the input in descending order of the metric, each
    projected to the display fields.  Nothing is said of rows with equal
    metric. *)
Theorem highlight_top_players_ranking {S : Sorter} (df : DataFrame) (metric : string)
  (top_n : Z) :
  0 <= top_n ->
  (empty df = true -> highlight_top_players df metric top_n = Ok df) /\
  (empty df = false -> well_formed df -> has_columns df (display metric) ->
   forall key, getitem df metric = Ok key -> has_nan key = false ->
   exists order result,
     Permutation order (seq 0 (index df)) /\
     Sorted (key_order key false) order /\
     highlight_top_players df metric top_n = Ok result /\
     records result
     = map (fun i => project (display metric) (row df i)) (firstn (Z.to_nat top_n) order)).
Proof.
  intros Hn. split.
  - intros He. unfold highlight_top_players. rewrite He. reflexivity.
  - intros He Hwf Hcols key Hkey Hnan.
    destruct (highlight_top_players_rows df metric top_n key Hn He Hkey Hcols)
      as [result [Hres Hrec]].
    exists (argsort key false), result. repeat split.
    + rewrite <- (getitem_well_formed df metric key Hwf Hkey). apply argsort_perm.
    + apply argsort_sorted, Hnan.
    + exact Hres.
    + exact Hrec.
Qed.

Lemma DataFrame_of_rows_well_formed (rows : list PlayerSummary) :
  well_formed (DataFrame_of_rows rows).
Proof.
  destruct rows as [|p rows]; [constructor|].
  unfold well_formed. cbn -[map Series_of_numbers List.length].
  repeat constructor; cbn [snd Series_len]; rewrite ?Series_of_numbers_len;
    apply length_map.
Qed.

(** Of two players with win rates 60.0 and 80.0, the top one is the player
    with 80.0. *)
Lemma highlight_top_players_example :
  exists result,
    highlight_top_players (S := stable_sorter)
      (DataFrame_of_rows [sample_row "A" 60; sample_row "B" 80]) "win_rate" 1 = Ok result /\
    records result
    = [[("steam_id", VStr "B"); ("win_rate", VFloat 80); ("games", VInt 10);
        ("wins", VInt 5); ("losses", VInt 5); ("win_rate", VFloat 80)]].
Proof.
  destruct (proj2 (highlight_top_players_ranking (S := stable_sorter)
                     (DataFrame_of_rows [sample_row "A" 60; sample_row "B" 80])
                     "win_rate" 1 ltac:(lia))
              eq_refl (DataFrame_of_rows_well_formed _)
              ltac:(repeat constructor; discriminate)
              _ eq_refl eq_refl)
    as [order [result [_ [_ [Hres _]]]]].
  exists result. split; [exact Hres|].
  vm_compute in Hres. injection Hres as <-. reflexivity.
Defined.

(** C5 (counterexample).  A sorting routine that meets the interface can
    return rows with equal metric out of their input order: of eighteen
    rows tied on the win rate, the top three need not be the first three. *)
Lemma highlight_top_players_not_stable :
  ~ (forall (S : Sorter) (df : DataFrame) (metric : string) (top_n : Z) (key : Series),
       0 <= top_n -> empty df = false -> well_formed df ->
       has_columns df (display metric) ->
       getitem df metric = Ok key -> has_nan key = false ->
       exists order result,
         Permutation order (seq 0 (index df)) /\
         Sorted (key_order key false) order /\
         ties_in_input_order key order /\
         highlight_top_players df metric top_n = Ok result /\
         records result
         = map (fun i => project (display metric) (row df i))
               (firstn (Z.to_nat top_n) order)).
Proof.
  intros claim.
  destruct (claim reversing_sorter (DataFrame_of_rows tied_rows) "win_rate" 3
              (Series_of_numbers (map win_rate tied_rows)) ltac:(lia) eq_refl
              (DataFrame_of_rows_well_formed _)
              ltac:(repeat constructor; discriminate) eq_refl eq_refl)
    as [order [result [Hperm [_ [Hties [Hres Hrec]]]]]].
  vm_compute in Hres. injection Hres as <-.
  pose proof (Permutation_length Hperm) as Hlen.
  pose proof (perm_seq_in_range order _ Hperm) as Hrange.
  destruct order as [|a [|b rest]]; try discriminate Hlen.
  inversion Hrange as [|? ? Ha Hrange']; subst.
  inversion Hrange' as [|? ? Hb _]; subst.
  cbn [index DataFrame_of_rows tied_rows List.length map seq] in Ha, Hb.
  assert (Hab : (a < b)%nat).
  { apply (Hties 0%nat 1%nat); [simpl; lia|].
    cbn [nth].
    transitivity (VFloat 50).
    - clear -Ha. do 18 (destruct a as [|a]; [reflexivity|]). lia.
    - clear -Hb. do 18 (destruct b as [|b]; [reflexivity|]). lia. }
  pose proof (f_equal (fun l => match l with
                                | r :: _ => field r "steam_id"
                                | [] => None
                                end) Hrec) as Hid.
  cbv beta in Hid. cbn [Z.to_nat Pos.to_nat Pos.iter_op Nat.add firstn map] in Hid.
  clear -Hid Hab Hb.
  do 17 (destruct a as [|a]; [vm_compute in Hid; discriminate Hid|]).
  lia.
Qed.

Lemma quotient_first_unfold (W L : Z) :
  win_rate_quotient_first W L
  = PyFloat (float_round1 (int_truediv W (W + L) * 100)%float).
Proof. unfold win_rate_quotient_first. simpl. rewrite float_of_int_100. reflexivity. Qed.

(** C6 (as amended).  With [W] wins and [L] losses, [W + L > 0], in any
    order, the win rate is [round(W / (W + L) * 100, 1)]: the quotient is
    taken first, in binary floating point, then multiplied by 100. *)
Theorem win_rate_quotient_then_product {S : Sorter}
  (requests_get : string -> Params -> Response)
  (account_id days : Z) (key : option string) (sid lbl : string) (json : list RawMatch)
  (W L : Z) :
  requests_get (request_url account_id) (request_params days key) = Response_ok json ->
  wins_in json = W -> losses_in json = L -> 0 < W + L ->
  exists df summary,
    fetch_matches requests_get account_id days key = Ok df /\
    summarize_matches df sid lbl = Ok summary /\
    win_rate summary = win_rate_quotient_first W L /\
    win_rate summary = PyFloat (float_round1 (int_truediv W (W + L) * 100)%float).
Proof.
  intros Hr HW HL Hpos.
  assert (Hne : json <> []).
  { intros ->. unfold wins_in, losses_in in *. simpl in *. lia. }
  destruct json as [|d json']; [contradiction Hne; reflexivity|].
  exists (matches_frame (d :: json')). eexists.
  split; [apply fetch_matches_ok; assumption|].
  split; [apply (summarize_matches_ok (d :: json') d); assumption|].
  cbn [win_rate]. rewrite <- (wins_losses_total (d :: json')), HW, HL.
  split; [reflexivity | apply quotient_first_unfold].
Qed.

(** 23 wins then 57 losses. *)
Lemma win_rate_23_of_80 :
  exists df summary,
    fetch_matches (always (repeat (sample_match true 1) 23 ++ repeat (sample_match false 2) 57))
      0 7 None = Ok df /\
    summarize_matches (S := stable_sorter) df "76561198355928347" "Last 7 days" = Ok summary /\
    win_rate summary = win_rate_quotient_first 23 57 /\
    win_rate summary = PyFloat (float_round1 (int_truediv 23 (23 + 57) * 100)%float).
Proof.
  exact (win_rate_quotient_then_product (S := stable_sorter)
           (always (repeat (sample_match true 1) 23 ++ repeat (sample_match false 2) 57))
           0 7 None "76561198355928347" "Last 7 days" _ 23 57
           eq_refl eq_refl eq_refl eq_refl).
Defined.

(** C6 (counterexample).  With 23 wins and 57 losses the code yields 28.7,
    while [round(100 * 23 / (23 + 57), 1)] is 28.8: the quotient 23/80 is
    not exact in binary, and its product by 100 falls just below 28.75. *)
Lemma win_rate_not_product_first :
  ~ (forall (S : Sorter) (requests_get : string -> Params -> Response)
       (account_id days : Z) (key : option string) (sid lbl : string)
       (json : list RawMatch) (W L : Z),
       requests_get (request_url account_id) (request_params days key) = Response_ok json ->
       wins_in json = W -> losses_in json = L -> 0 < W + L ->
       exists df summary,
         fetch_matches requests_get account_id days key = Ok df /\
         summarize_matches df sid lbl = Ok summary /\
         win_rate summary = win_rate_product_first W L).
Proof.
  intros claim.
  destruct (claim stable_sorter
              (always (repeat (sample_match true 1) 23 ++ repeat (sample_match false 2) 57))
              0 7 None "76561198355928347" "Last 7 days" _ 23 57
              eq_refl eq_refl eq_refl eq_refl)
    as [df [summary [Hf [Hs Hw]]]].
  injection Hf as <-. vm_compute in Hs. injection Hs as <-.
  pose proof (f_equal (fun n => PrimFloat.eqb (to_float (win_rate_quotient_first 23 57))
                                              (to_float n)) Hw) as E.
  vm_compute in E. discriminate E.
Qed.

(** The two values, as tenths: 287 and 288. *)
Lemma win_rate_23_of_80_values :
  win_rate_quotient_first 23 57 = PyFloat (int_truediv 287 10) /\
  win_rate_product_first 23 57 = PyFloat (int_truediv 288 10).
Proof. split; vm_compute; reflexivity. Qed.

(** C7 (as amended).  For every text of ASCII decimal digits, at least one
    and at most [int_max_str_digits], the conversion succeeds and is the
    number the text denotes minus 76561197960265728; a negative result is
    returned like any other. *)
Theorem steam64_to_account_id_digits (s : string) :
  decimal_string s = true ->
  (String.length s <= int_max_str_digits)%nat ->
  steam64_to_account_id s = Some (decimal_value s - 76561197960265728).
Proof.
  intros Hdigits Hlen. unfold steam64_to_account_id, int, STEAM_EPOCH.
  rewrite (parse_int_decimal s Hdigits Hlen). reflexivity.
Qed.

(** The identifier 0 converts to the negative of the epoch. *)
Lemma steam64_to_account_id_zero :
  steam64_to_account_id "0" = Some (- 76561197960265728).
Proof.
  exact (steam64_to_account_id_digits "0" eq_refl ltac:(unfold int_max_str_digits; simpl; lia)).
Defined.

(** C7 (counterexample).  The superscript two passes [normalize_ids], since
    [str.isdigit] accepts it, and [int] refuses it. *)
Lemma steam64_to_account_id_superscript :
  ~ (forall raw s, In s (normalize_ids raw) ->
       exists account_id, steam64_to_account_id s = Some account_id).
Proof.
  intros claim.
  destruct (claim superscript_two superscript_two (or_introl eq_refl)) as [z Hz].
  vm_compute in Hz. discriminate Hz.
Qed.

Lemma filter_isdigit (l : list string) : Forall (fun t => isdigit t = true) (filter isdigit l).
Proof.
  apply Forall_forall. intros t Ht. apply filter_In in Ht. apply Ht.
Qed.

(** C8 (as amended).  [normalize_ids] cuts the text at newlines and commas,
    trims each piece, and keeps, in order and with repetitions, the pieces
    that [str.isdigit] accepts: non-empty, every character a decimal digit
    or one of the other digit characters. *)
Theorem normalize_ids_fields (raw_text : string) :
  normalize_ids raw_text = filter isdigit (map strip (fields raw_text)) /\
  Forall (fun t => t <> EmptyString /\ forall_chars isdigit_char t = true)
         (normalize_ids raw_text).
Proof.
  unfold normalize_ids. rewrite split_replace_fields. split; [reflexivity|].
  eapply Forall_impl; [|apply filter_isdigit].
  intros t Ht. destruct t; [discriminate Ht|]. split; [discriminate | exact Ht].
Qed.

Lemma normalize_ids_example :
  normalize_ids ("123, abc" ++ String newline "456") = ["123"; "456"] /\
  normalize_ids "7,7" = ["7"; "7"].
Proof. split; reflexivity. Qed.

(** C8 (counterexample).  A token that is not made of decimal digits is
    kept: the superscript two. *)
Lemma normalize_ids_keeps_superscript :
  ~ (forall raw t, In t (normalize_ids raw) -> decimal_string t = true).
Proof.
  intros claim.
  specialize (claim superscript_two superscript_two (or_introl eq_refl)).
  vm_compute in claim. discriminate claim.
Qed.

Lemma with_loss_rate_column (rows : list PlayerSummary) :
  rows <> [] ->
  getitem (with_loss_rate rows) "loss_rate" = Ok (Series_of_numbers (map loss_rate rows)).
Proof.
  intros Hne. unfold with_loss_rate. rewrite (DataFrame_of_rows_nonempty rows Hne).
  reflexivity.
Qed.

(** C9 (as amended).  [add_loss_rate] changes no frame that exists before the
    call.  For an empty input it returns the input itself, without a
    [loss_rate] column; for a non-empty input it returns a new frame, the
    input with the column [loss_rate] holding [losses / games * 100] (0
    without games) for every row.  Applied to its own result it succeeds and
    yields the same [loss_rate] column. *)
Theorem add_loss_rate_effect (h : store) (df : nat) (rows : list PlayerSummary) :
  (df < next h)%nat ->
  cell h df = DataFrame_of_rows rows ->
  exists r h',
    add_loss_rate df h = Ok (r, h') /\
    (forall r0, (r0 < next h)%nat -> cell h' r0 = cell h r0) /\
    (rows = [] -> r = df /\ h' = h) /\
    (rows <> [] ->
       r = next h /\ next h' = Datatypes.S (next h) /\
       cell h' r = with_loss_rate rows /\
       getitem (cell h' r) "loss_rate" = Ok (Series_of_numbers (map loss_rate rows))) /\
    (exists r2 h2,
       add_loss_rate r h' = Ok (r2, h2) /\
       (forall r0, (r0 < next h')%nat -> cell h2 r0 = cell h' r0) /\
       getitem (cell h2 r2) "loss_rate" = getitem (cell h' r) "loss_rate").
Proof.
  intros Hdf Hcell. destruct rows as [|p rows'] eqn:Hrows.
  - assert (He : empty (cell h df) = true) by (rewrite Hcell; reflexivity).
    exists df, h. rewrite (add_loss_rate_empty h df He).
    split; [reflexivity|]. split; [reflexivity|]. split; [split; reflexivity|].
    split; [intros H; contradiction H; reflexivity|].
    exists df, h. repeat split.
  - rewrite <- Hrows in *. assert (Hne : rows <> []) by (rewrite Hrows; discriminate).
    clear Hrows p rows'.
    assert (He : empty (cell h df) = false).
    { rewrite Hcell, DataFrame_of_rows_empty. destruct rows; [contradiction Hne|]; reflexivity. }
    pose proof (add_loss_rate_nonempty h df _ _ He
                  ltac:(rewrite Hcell; apply loss_rate_column_rows, Hne)
                  ltac:(rewrite Hcell; apply setitem_rows, Hne)) as Hcall.
    set (h' := write (snd (copy h df)) (next h) (with_loss_rate rows)) in *.
    assert (Hnew : cell h' (next h) = with_loss_rate rows) by apply cell_write_same.
    exists (next h), h'. split; [exact Hcall|].
    split.
    { intros r0 Hr0. unfold h'. rewrite cell_write_other by lia. apply cell_copy_old, Hr0. }
    split; [intros H; contradiction (Hne H)|].
    split.
    { intros _. repeat split; [exact Hnew|]. rewrite Hnew. apply with_loss_rate_column, Hne. }
    assert (He' : empty (cell h' (next h)) = false).
    { rewrite Hnew. apply with_loss_rate_not_empty, Hne. }
    pose proof (add_loss_rate_nonempty h' (next h) _ _ He'
                  ltac:(rewrite Hnew; apply loss_rate_column_again, Hne)
                  ltac:(rewrite Hnew; apply setitem_again, Hne)) as Hcall2.
    exists (next h'), (write (snd (copy h' (next h))) (next h') (with_loss_rate rows)).
    split; [exact Hcall2|]. split.
    + intros r0 Hr0. rewrite cell_write_other by lia. apply cell_copy_old, Hr0.
    + rewrite cell_write_same, Hnew. reflexivity.
Qed.

(** A store whose only frame holds one summary row. *)
Lemma add_loss_rate_example :
  exists r h',
    add_loss_rate 0 {| next := 1; cell := fun _ => DataFrame_of_rows [sample_row "A" 50] |}
    = Ok (r, h') /\
    r = 1%nat /\
    getitem (cell h' 0%nat) "loss_rate" = Raise (KeyError "loss_rate") /\
    getitem (cell h' r) "loss_rate" = Ok (float64 [50%float]).
Proof.
  destruct (add_loss_rate_effect
              {| next := 1; cell := fun _ => DataFrame_of_rows [sample_row "A" 50] |}
              0 [sample_row "A" 50] ltac:(simpl; lia) eq_refl)
    as [r [h' [Hcall [Hold [_ [Hnew _]]]]]].
  destruct (Hnew ltac:(discriminate)) as [Hr [_ [_ Hcol]]].
  exists r, h'. split; [exact Hcall|]. split; [exact Hr|]. split.
  - rewrite (Hold 0%nat ltac:(simpl; lia)). reflexivity.
  - rewrite Hcol. vm_compute. reflexivity.
Defined.

(** C9 (counterexample).  For an empty frame the result is the input frame
    itself, not a new one. *)
Lemma add_loss_rate_returns_input :
  ~ (forall (h : store) (df : nat) (rows : list PlayerSummary),
       (df < next h)%nat -> cell h df = DataFrame_of_rows rows ->
       exists r h', add_loss_rate df h = Ok (r, h') /\ (next h <= r)%nat).
Proof.
  intros claim.
  destruct (claim store_of_nil 0%nat [] ltac:(simpl; lia) eq_refl) as [r [h' [Hcall Hr]]].
  unfold add_loss_rate in Hcall. simpl in Hcall. injection Hcall as <- _.
  simpl in Hr. lia.
Qed.

(** C10.  For a non-empty set of records with the derived attributes, the
    summary has [wins + losses = games] and [0 <= best_streak <= wins]. *)
Theorem summary_counts {S : Sorter} (requests_get : string -> Params -> Response)
  (account_id days : Z) (key : option string) (sid lbl : string) (json : list RawMatch) :
  requests_get (request_url account_id) (request_params days key) = Response_ok json ->
  json <> [] ->
  exists df summary,
    fetch_matches requests_get account_id days key = Ok df /\
    summarize_matches df sid lbl = Ok summary /\
    wins summary + losses summary = games summary /\
    0 <= best_streak summary <= wins summary.
Proof.
  intros Hr Hne. destruct json as [|d json']; [contradiction Hne; reflexivity|].
  exists (matches_frame (d :: json')). eexists.
  split; [apply fetch_matches_ok; assumption|].
  split; [apply (summarize_matches_ok (d :: json') d); assumption|].
  cbn [wins losses games best_streak]. split; [apply wins_losses_total|].
  rewrite (wins_in_perm _ _ (Permutation_sym (scanned_perm (d :: json') d))).
  rewrite <- wins_in_count. apply streak_loop_bounds.
Qed.

Lemma summary_counts_example :
  exists df summary,
    fetch_matches (always streak_sample) 0 7 None = Ok df /\
    summarize_matches (S := stable_sorter) df "76561198355928347" "Last 7 days" = Ok summary /\
    wins summary + losses summary = games summary /\
    0 <= best_streak summary <= wins summary.
Proof.
  exact (summary_counts (S := stable_sorter) (always streak_sample) 0 7 None
           "76561198355928347" "Last 7 days" streak_sample eq_refl ltac:(discriminate)).
Defined.

(* ================================================================= *)
(** ** Further properties *)

Lemma losses_in_perm (l l' : list RawMatch) : Permutation l l' -> losses_in l = losses_in l'.
Proof.
  intros H. rewrite <- !losses_in_count. apply count_true_perm, Permutation_map, H.
Qed.

(** When no exception escapes, a batch yields the summaries and the errors
    of its identifiers, each in input order, one entry for each identifier. *)
Theorem collect_period_summaries_entries {S : Sorter}
  (requests_get : string -> Params -> Response) (days : Z) (key : option string)
  (steam_ids : list string) (entries : list (PlayerSummary + string)) :
  Forall2 (fun sid e => entry requests_get days key sid = Ok e) steam_ids entries ->
  collect_period_summaries requests_get steam_ids days key
  = Ok (DataFrame_of_rows (summaries_of entries), errors_of entries) /\
  (List.length (summaries_of entries) + List.length (errors_of entries)
   = List.length steam_ids)%nat.
Proof.
  intros H. split.
  - unfold collect_period_summaries.
    rewrite (collect_loop_entries requests_get days key steam_ids entries [] [] H).
    reflexivity.
  - clear -H. induction H as [|sid e ids es _ _ IH]; simpl; [reflexivity|].
    destruct e; simpl; lia.
Qed.

(** A malformed identifier and a valid one with matches: one error, one
    summary. *)
Lemma collect_period_summaries_example :
  exists row,
    collect_period_summaries (S := stable_sorter) (always streak_sample)
      ["bad_id"; "76561198355928347"] 7 None
    = Ok (DataFrame_of_rows [row], ["Invalid Steam64 ID: bad_id"]).
Proof.
  eexists.
  refine (proj1 (collect_period_summaries_entries (S := stable_sorter)
                   (always streak_sample) 7 None
                   ["bad_id"; "76561198355928347"] [inr _; inl _] _)).
  repeat constructor; vm_compute; reflexivity.
Defined.

(** On a frame that has the columns [win] and [loss] and no rows,
    [summarize_matches] returns the all-zero summary. *)
Theorem summarize_matches_no_rows {S : Sorter} (cols : list (string * Series))
  (sid lbl : string) :
  lookup "win" cols = Some (bool_ []) ->
  lookup "loss" cols = Some (bool_ []) ->
  summarize_matches {| index := 0; columns := cols |} sid lbl =
  Ok {| steam_id := sid; label := lbl; games := 0; wins := 0; losses := 0;
        win_rate := PyInt 0; avg_k := PyInt 0; avg_d := PyInt 0; avg_a := PyInt 0;
        best_streak := 0 |}.
Proof.
  intros Hw Hl. unfold summarize_matches, getitem. cbn [columns]. rewrite Hw, Hl. reflexivity.
Qed.

Lemma summarize_matches_no_rows_example :
  summarize_matches (S := stable_sorter)
    {| index := 0; columns := [("win", bool_ []); ("loss", bool_ [])] |}
    "76561198355928347" "Last 7 days" =
  Ok {| steam_id := "76561198355928347"; label := "Last 7 days";
        games := 0; wins := 0; losses := 0;
        win_rate := PyInt 0; avg_k := PyInt 0; avg_d := PyInt 0; avg_a := PyInt 0;
        best_streak := 0 |}.
Proof.
  exact (summarize_matches_no_rows (S := stable_sorter)
           [("win", bool_ []); ("loss", bool_ [])]
           "76561198355928347" "Last 7 days" eq_refl eq_refl).
Defined.

(** The counts and the win rate of a summary do not depend on the order in
    which the records are received. *)
Theorem summary_order_independent {S : Sorter} (json json' : list RawMatch)
  (account_id days : Z) (key : option string) (sid lbl : string) :
  json <> [] -> Permutation json json' ->
  exists df df' summary summary',
    fetch_matches (always json) account_id days key = Ok df /\
    fetch_matches (always json') account_id days key = Ok df' /\
    summarize_matches df sid lbl = Ok summary /\
    summarize_matches df' sid lbl = Ok summary' /\
    games summary = games summary' /\
    wins summary = wins summary' /\
    losses summary = losses summary' /\
    win_rate summary = win_rate summary'.
Proof.
  intros Hne Hperm.
  assert (Hne' : json' <> []).
  { intros ->. apply Permutation_sym, Permutation_nil in Hperm. contradiction. }
  destruct json as [|d l]; [contradiction Hne; reflexivity|].
  destruct json' as [|d' l']; [contradiction Hne'; reflexivity|].
  exists (matches_frame (d :: l)), (matches_frame (d' :: l')). do 2 eexists.
  split; [apply fetch_matches_ok; [reflexivity | assumption]|].
  split; [apply fetch_matches_ok; [reflexivity | assumption]|].
  split; [apply (summarize_matches_ok (d :: l) d); assumption|].
  split; [apply (summarize_matches_ok (d' :: l') d'); assumption|].
  cbn [games wins losses win_rate].
  rewrite (wins_in_perm _ _ Hperm), (losses_in_perm _ _ Hperm),
          (Permutation_length Hperm).
  repeat split.
Qed.

Lemma summary_order_independent_example :
  exists df df' summary summary',
    fetch_matches (always streak_sample) 0 7 None = Ok df /\
    fetch_matches (always (rev streak_sample)) 0 7 None = Ok df' /\
    summarize_matches (S := stable_sorter) df "76561198355928347" "Last 7 days" = Ok summary /\
    summarize_matches (S := stable_sorter) df' "76561198355928347" "Last 7 days" = Ok summary' /\
    games summary = games summary' /\
    wins summary = wins summary' /\
    losses summary = losses summary' /\
    win_rate summary = win_rate summary'.
Proof.
  exact (summary_order_independent (S := stable_sorter) streak_sample (rev streak_sample)
           0 7 None "76561198355928347" "Last 7 days"
           ltac:(discriminate) (Permutation_rev streak_sample)).
Defined.

(* ================================================================= *)
(** ** More of the program: identifier lists *)

Module Ids.
Import Py Pd Dashboard Spec.

Definition DEFAULT_STEAM_IDS : list string :=
  ["76561198355928347"; "76561198220727716"].

(** [sep.join(l)] *)
Fixpoint join (sep : string) (l : list string) : string :=
  match l with
  | [] => EmptyString
  | [x] => x
  | x :: rest => (x ++ sep ++ join sep rest)%string
  end.

(** The characters below 128. *)
Definition is_ascii (c : ascii) : bool := (code c <? 128)%N.


(** The sign that [int] reads: the [match] of [parse_int], as tests. *)
Definition read_sign (s : string) : bool * string :=
  match s with
  | String c r =>
      if Ascii.eqb c "-" then (true, r)
      else if Ascii.eqb c "+" then (false, r)
      else (false, s)
  | EmptyString => (false, s)
  end.

End Ids.

Import Ids.

(** *** Characters *)

Lemma isdigit_not_separator (c : ascii) : isdigit_char c = true -> is_separator c = false.
Proof.
  destruct c as [[] [] [] [] [] [] [] []]; intros H; try discriminate H; reflexivity.
Qed.

Lemma isdigit_not_space (c : ascii) : isdigit_char c = true -> isspace c = false.
Proof.
  destruct c as [[] [] [] [] [] [] [] []]; intros H; try discriminate H; reflexivity.
Qed.

Lemma isdigit_ascii_decimal (c : ascii) :
  isdigit_char c = true -> is_ascii c = true -> is_decimal c = true.
Proof.
  destruct c as [[] [] [] [] [] [] [] []]; intros H H'; try discriminate H;
    try discriminate H'; reflexivity.
Qed.

Lemma forall_chars_impl (p q : ascii -> bool) (s : string) :
  (forall c, p c = true -> q c = true) ->
  forall_chars p s = true -> forall_chars q s = true.
Proof.
  intros Hpq. induction s as [|c r IH]; simpl; [reflexivity|].
  intros H. apply andb_true_iff in H. destruct H as [Hc Hr].
  rewrite (Hpq c Hc), (IH Hr). reflexivity.
Qed.

(** *** Pieces of a text inherit what holds of all its characters *)

Lemma forall_chars_fields (p : ascii -> bool) (s : string) :
  forall_chars p s = true -> Forall (fun t => forall_chars p t = true) (fields s).
Proof.
  induction s as [|c r IH]; simpl; intros H; [repeat constructor|].
  apply andb_true_iff in H. destruct H as [Hc Hr]. specialize (IH Hr).
  destruct (is_separator c); [constructor; [reflexivity | exact IH]|].
  destruct (fields r) as [|t ts]; [repeat constructor; simpl; rewrite Hc; reflexivity|].
  inversion IH as [|? ? Ht Hts]; subst.
  constructor; [simpl; rewrite Hc, Ht; reflexivity | exact Hts].
Qed.

Lemma forall_chars_lstrip (p : ascii -> bool) (s : string) :
  forall_chars p s = true -> forall_chars p (lstrip s) = true.
Proof.
  induction s as [|c r IH]; simpl; intros H; [reflexivity|].
  destruct (isspace c); [|exact H].
  apply andb_true_iff in H. apply IH, H.
Qed.

Lemma forall_chars_rstrip (p : ascii -> bool) (s : string) :
  forall_chars p s = true -> forall_chars p (rstrip s) = true.
Proof.
  induction s as [|c r IH]; simpl; intros H; [reflexivity|].
  apply andb_true_iff in H. destruct H as [Hc Hr]. specialize (IH Hr).
  destruct (rstrip r) as [|c' t].
  - destruct (isspace c); simpl; [reflexivity | rewrite Hc; reflexivity].
  - simpl in *. rewrite Hc, IH. reflexivity.
Qed.

Lemma forall_chars_strip (p : ascii -> bool) (s : string) :
  forall_chars p s = true -> forall_chars p (strip s) = true.
Proof. intros H. apply forall_chars_rstrip, forall_chars_lstrip, H. Qed.

(** *** A digit text is one field and is not trimmed *)

Lemma isdigit_chars (t : string) : isdigit t = true -> forall_chars isdigit_char t = true.
Proof. destruct t; [discriminate | intros H; exact H]. Qed.

Lemma fields_one (t : string) :
  forall_chars (fun c => negb (is_separator c)) t = true -> fields t = [t].
Proof.
  induction t as [|c r IH]; simpl; [reflexivity|]. intros H.
  apply andb_true_iff in H. destruct H as [Hc Hr].
  apply negb_true_iff in Hc. rewrite Hc, (IH Hr). reflexivity.
Qed.

Lemma fields_app_newline (t rest : string) :
  forall_chars (fun c => negb (is_separator c)) t = true ->
  fields (t ++ String newline rest) = t :: fields rest.
Proof.
  induction t as [|c r IH]; simpl; [reflexivity|]. intros H.
  apply andb_true_iff in H. destruct H as [Hc Hr].
  apply negb_true_iff in Hc. rewrite Hc, (IH Hr). reflexivity.
Qed.

Lemma lstrip_id (t : string) : is_blank (first_char t) = false -> lstrip t = t.
Proof. destruct t as [|c r]; simpl; [reflexivity|]. intros ->. reflexivity. Qed.

Lemma rstrip_id (t : string) :
  forall_chars (fun c => negb (isspace c)) t = true -> rstrip t = t.
Proof.
  induction t as [|c r IH]; simpl; [reflexivity|]. intros H.
  apply andb_true_iff in H. destruct H as [Hc Hr]. apply negb_true_iff in Hc.
  rewrite (IH Hr). destruct r; [rewrite Hc|]; reflexivity.
Qed.

Lemma strip_digits (t : string) : isdigit t = true -> strip t = t.
Proof.
  intros H. apply isdigit_chars in H. unfold strip.
  assert (Hns : forall_chars (fun c => negb (isspace c)) t = true).
  { apply (forall_chars_impl isdigit_char); [|exact H].
    intros c Hc. rewrite (isdigit_not_space c Hc). reflexivity. }
  rewrite lstrip_id; [apply rstrip_id, Hns|].
  destruct t as [|c r]; [reflexivity|]. simpl in *.
  apply andb_true_iff in Hns. destruct Hns as [Hc _]. apply negb_true_iff in Hc. exact Hc.
Qed.

Lemma digits_no_separator (t : string) :
  isdigit t = true -> forall_chars (fun c => negb (is_separator c)) t = true.
Proof.
  intros H. apply (forall_chars_impl isdigit_char); [|apply isdigit_chars, H].
  intros c Hc. rewrite (isdigit_not_separator c Hc). reflexivity.
Qed.

Lemma fields_join (ids : list string) :
  ids <> [] -> Forall (fun t => isdigit t = true) ids ->
  fields (join (String newline EmptyString) ids) = ids.
Proof.
  intros Hne H. induction H as [|t rest Ht Hrest IH]; [contradiction Hne; reflexivity|].
  destruct rest as [|t' rest'].
  - simpl. apply fields_one, digits_no_separator, Ht.
  - change (join (String newline EmptyString) (t :: t' :: rest'))
      with (t ++ String newline (join (String newline EmptyString) (t' :: rest')))%string.
    rewrite fields_app_newline by (apply digits_no_separator, Ht).
    rewrite IH by discriminate. reflexivity.
Qed.

Lemma map_strip_digits (ids : list string) :
  Forall (fun t => isdigit t = true) ids -> map strip ids = ids.
Proof.
  induction 1 as [|t rest Ht _ IH]; simpl; [reflexivity|].
  rewrite (strip_digits t Ht), IH. reflexivity.
Qed.

Lemma filter_isdigit_all (ids : list string) :
  Forall (fun t => isdigit t = true) ids -> filter isdigit ids = ids.
Proof.
  induction 1 as [|t rest Ht _ IH]; simpl; [reflexivity|].
  rewrite Ht, IH. reflexivity.
Qed.

Lemma normalize_ids_of_join (ids : list string) :
  Forall (fun t => isdigit t = true) ids ->
  normalize_ids (join (String newline EmptyString) ids) = ids.
Proof.
  intros H. unfold normalize_ids. rewrite split_replace_fields.
  destruct ids as [|t rest]; [reflexivity|].
  rewrite (fields_join (t :: rest)) by (discriminate || exact H).
  rewrite (map_strip_digits _ H). apply filter_isdigit_all, H.
Qed.

(** X4.  Identifiers written one per line are read back as they are:
    [normalize_ids] undoes ["\n".join] on every list of digit texts, such as
    the default identifiers the page starts with. *)
Theorem normalize_ids_join (ids : list string) :
  Forall (fun t => isdigit t = true) ids ->
  normalize_ids (join (String newline EmptyString) ids) = ids.
Proof.
  intros H. unfold normalize_ids. rewrite split_replace_fields.
  destruct ids as [|t rest]; [reflexivity|].
  rewrite (fields_join (t :: rest)) by (discriminate || exact H).
  rewrite (map_strip_digits _ H). apply filter_isdigit_all, H.
Qed.

Lemma normalize_ids_join_default :
  normalize_ids (join (String newline EmptyString) DEFAULT_STEAM_IDS) = DEFAULT_STEAM_IDS.
Proof.
  exact (normalize_ids_join DEFAULT_STEAM_IDS ltac:(repeat constructor)).
Defined.

(** X5.  Normalising is idempotent: the identifiers kept from a text, written
    one per line and normalised again, are the same identifiers. *)
Theorem normalize_ids_idempotent (raw_text : string) :
  normalize_ids (join (String newline EmptyString) (normalize_ids raw_text))
  = normalize_ids raw_text.
Proof.
  apply normalize_ids_of_join. unfold normalize_ids. apply filter_isdigit.
Qed.

(** X6.  In a text of ASCII characters every identifier that
    [normalize_ids] keeps is converted by [steam64_to_account_id] (up to the
    limit on the number of digits): the identifiers it keeps and [int] refuses
    all hold a character above 127. *)
Theorem normalize_ids_ascii_convert (raw_text t : string) :
  forall_chars is_ascii raw_text = true ->
  In t (normalize_ids raw_text) ->
  (String.length t <= int_max_str_digits)%nat ->
  steam64_to_account_id t = Some (decimal_value t - STEAM_EPOCH).
Proof.
  intros Hascii Hin Hlen.
  unfold normalize_ids in Hin. rewrite split_replace_fields in Hin.
  apply filter_In in Hin. destruct Hin as [Hmap Hdigit].
  apply in_map_iff in Hmap. destruct Hmap as [f [<- Hf]].
  pose proof (forall_chars_fields is_ascii raw_text Hascii) as Hfields.
  rewrite Forall_forall in Hfields. specialize (Hfields f Hf).
  apply forall_chars_strip in Hfields.
  assert (Hdec : decimal_string (strip f) = true).
  { destruct (strip f) as [|c r] eqn:E; [discriminate Hdigit|].
    unfold decimal_string. unfold isdigit in Hdigit. clear E.
    revert Hdigit Hfields. generalize (String c r). clear.
    induction s as [|c r IH]; simpl; [reflexivity|]. intros Hd Ha.
    apply andb_true_iff in Hd. apply andb_true_iff in Ha.
    destruct Hd as [Hd1 Hd2], Ha as [Ha1 Ha2].
    rewrite (isdigit_ascii_decimal c Hd1 Ha1), (IH Hd2 Ha2). reflexivity. }
  unfold steam64_to_account_id, int.
  rewrite (parse_int_decimal (strip f) Hdec Hlen). reflexivity.
Qed.

Lemma normalize_ids_ascii_convert_example :
  steam64_to_account_id "76561198355928347" = Some (decimal_value "76561198355928347" - STEAM_EPOCH).
Proof.
  exact (normalize_ids_ascii_convert
           ("76561198355928347, abc" ++ String newline " 76561198220727716 ")
           "76561198355928347" eq_refl (or_introl eq_refl)
           ltac:(unfold int_max_str_digits; simpl; lia)).
Defined.

(** *** What [int] accepts and what it refuses *)

Lemma parse_int_read_sign (s : string) :
  parse_int s =
  let '(negative, s2) := read_sign (skip_int_space s) in
  match s2 with
  | String c r =>
      if is_decimal c then
        match scan_digits r false (digit_value c) 1 with
        | Some (v, ndigits, rest) =>
            match skip_int_space rest with
            | EmptyString =>
                if (ndigits <=? int_max_str_digits)%nat
                then Some (if negative then - v else v)
                else None
            | String _ _ => None
            end
        | None => None
        end
      else None
  | EmptyString => None
  end.
Proof.
  unfold parse_int. destruct (skip_int_space s) as [|c r]; [reflexivity|].
  destruct c as [[] [] [] [] [] [] [] []]; reflexivity.
Qed.








Lemma skip_int_space_app (ws s : string) :
  forall_chars int_space ws = true -> skip_int_space (ws ++ s) = skip_int_space s.
Proof.
  induction ws as [|c r IH]; simpl; [reflexivity|]. intros H.
  apply andb_true_iff in H. destruct H as [Hc Hr]. rewrite Hc. apply IH, Hr.
Qed.

Lemma skip_int_space_all (ws : string) :
  forall_chars int_space ws = true -> skip_int_space ws = EmptyString.
Proof.
  induction ws as [|c r IH]; simpl; [reflexivity|]. intros H.
  apply andb_true_iff in H. destruct H as [Hc Hr]. rewrite Hc. apply IH, Hr.
Qed.

Lemma int_space_not_decimal (c : ascii) : int_space c = true -> is_decimal c = false.
Proof.
  intros H. destruct (is_decimal c) eqn:E; [|reflexivity].
  rewrite (decimal_not_space c E) in H. discriminate H.
Qed.

Lemma int_space_not_underscore (c : ascii) :
  int_space c = true -> Ascii.eqb c underscore = false.
Proof.
  destruct c as [[] [] [] [] [] [] [] []]; intros H; try discriminate H; reflexivity.
Qed.

Lemma decimal_no_sign (c : ascii) :
  is_decimal c = true -> Ascii.eqb c "-" = false /\ Ascii.eqb c "+" = false.
Proof.
  destruct c as [[] [] [] [] [] [] [] []]; intros H; try discriminate H; split; reflexivity.
Qed.

(** Digits followed by blanks are scanned up to the blanks. *)
Lemma scan_digits_then_blanks (s ws : string) (acc : Z) (n : nat) :
  forall_chars is_decimal s = true ->
  forall_chars int_space ws = true ->
  exists rest,
    scan_digits (s ++ ws) false acc n
    = Some (decimal_from acc s, (n + String.length s)%nat, rest) /\
    skip_int_space rest = EmptyString.
Proof.
  revert acc n. induction s as [|c r IH]; intros acc n Hs Hws;
    cbn [append scan_digits forall_chars decimal_from String.length] in *.
  - rewrite Nat.add_0_r. destruct ws as [|w ws'].
    + exists EmptyString. split; reflexivity.
    + cbn [forall_chars] in Hws. apply andb_true_iff in Hws. destruct Hws as [Hw Hws'].
      cbn [scan_digits].
      rewrite (int_space_not_decimal w Hw), (int_space_not_underscore w Hw).
      exists (String w ws'). split; [reflexivity|].
      cbn [skip_int_space]. rewrite Hw. apply skip_int_space_all, Hws'.
  - apply andb_true_iff in Hs. destruct Hs as [Hc Hr]. rewrite Hc.
    destruct (IH (10 * acc + digit_value c) (Datatypes.S n) Hr Hws) as [rest [Hscan Hrest]].
    exists rest. rewrite Hscan. split; [do 3 f_equal; lia | exact Hrest].
Qed.

(** X8.  Around the digits [int] skips blanks and reads one sign: an
    identifier padded with blanks converts like the bare digits, and one
    with a minus sign converts to the negated number minus the epoch. *)
Theorem steam64_to_account_id_padded (before after s : string) (negative : bool) :
  forall_chars int_space before = true ->
  forall_chars int_space after = true ->
  decimal_string s = true ->
  (String.length s <= int_max_str_digits)%nat ->
  steam64_to_account_id (before ++ (if negative then "-" else "") ++ s ++ after)
  = Some ((if negative then - decimal_value s else decimal_value s) - STEAM_EPOCH).
Proof.
  intros Hb Ha Hs Hlen. unfold steam64_to_account_id, int.
  rewrite parse_int_read_sign, skip_int_space_app by exact Hb.
  destruct s as [|c r]; [discriminate Hs|]. simpl in Hs.
  apply andb_true_iff in Hs. destruct Hs as [Hc Hr].
  destruct (decimal_no_sign c Hc) as [Hm Hp].
  destruct (scan_digits_then_blanks r after (digit_value c) 1 Hr Ha) as [rest [Hscan Hrest]].
  simpl in Hlen.
  assert (Hle : (1 + String.length r <=? int_max_str_digits)%nat = true)
    by (apply Nat.leb_le; lia).
  destruct negative; simpl.
  - rewrite Hc, Hscan, Hrest, Hle. reflexivity.
  - rewrite (decimal_not_space c Hc). simpl. rewrite Hm, Hp, Hc, Hscan, Hrest, Hle.
    reflexivity.
Qed.

Lemma steam64_to_account_id_padded_example :
  steam64_to_account_id (" " ++ "-" ++ "5" ++ " ") = Some (- decimal_value "5" - STEAM_EPOCH).
Proof.
  exact (steam64_to_account_id_padded " " " " "5" true eq_refl eq_refl eq_refl
           ltac:(unfold int_max_str_digits; simpl; lia)).
Defined.

(* ================================================================= *)
(** ** More of the program: fetching and summarising *)



Ltac step_bind H :=
  match type of H with
  | bind ?c _ = Ok _ =>
      let E := fresh "E" in
      destruct c eqn:E; [cbn [bind] in H | discriminate H]
  end.

Lemma summarize_matches_inv {S : Sorter} (df : DataFrame) (sid lbl : string)
  (summary : PlayerSummary) :
  summarize_matches df sid lbl = Ok summary ->
  steam_id summary = sid /\
  label summary = lbl /\
  games summary = len df /\
  (len df = 0 ->
   win_rate summary = PyInt 0 /\ avg_k summary = PyInt 0 /\
   avg_d summary = PyInt 0 /\ avg_a summary = PyInt 0 /\ best_streak summary = 0).
Proof.
  unfold summarize_matches. intros H.
  repeat step_bind H.
  injection H as <-. cbn [steam_id label games win_rate avg_k avg_d avg_a best_streak].
  split; [reflexivity|]. split; [reflexivity|]. split; [reflexivity|].
  intros Hz. rewrite Hz in *. cbn [Z.eqb] in *.
  repeat match goal with
         | E : Ok _ = Ok _ |- _ => injection E as <-
         end.
  repeat split.
Qed.

(** X10.  Whatever the frame, a summary that [summarize_matches] returns
    carries the identifier and the label it was given and counts the rows of
    the frame; for a frame without rows its win rate, averages and best
    streak are the integer 0. *)
Theorem summarize_matches_fields {S : Sorter} (df : DataFrame) (sid lbl : string)
  (summary : PlayerSummary) :
  summarize_matches df sid lbl = Ok summary ->
  steam_id summary = sid /\
  label summary = lbl /\
  games summary = len df /\
  (len df = 0 ->
   win_rate summary = PyInt 0 /\ avg_k summary = PyInt 0 /\
   avg_d summary = PyInt 0 /\ avg_a summary = PyInt 0 /\ best_streak summary = 0).
Proof.
  intros H. destruct (summarize_matches_inv df sid lbl summary H) as [H1 [H2 [H3 H4]]].
  split; [exact H1|]. split; [exact H2|]. split; [exact H3 | exact H4].
Qed.

Lemma summarize_matches_fields_example :
  exists summary,
    summarize_matches (S := stable_sorter) (matches_frame streak_sample)
      "76561198355928347" "Last 7 days" = Ok summary /\
    steam_id summary = "76561198355928347" /\
    label summary = "Last 7 days" /\
    games summary = 7.
Proof.
  eexists. split; [vm_compute; reflexivity|].
  destruct (summarize_matches_fields (S := stable_sorter) (matches_frame streak_sample)
              "76561198355928347" "Last 7 days" _ eq_refl) as [H1 [H2 [H3 _]]].
  split; [exact H1|]. split; [exact H2 | exact H3].
Defined.

(** *** More on the streak *)

Lemma counter_reaches_one (c : Z) (l : list bool) :
  0 <= c -> In true l -> 1 <= fold_right Z.max 0 (counter_values c l).
Proof.
  revert c. induction l as [|r l IH]; intros c Hc Hin; [contradiction Hin|].
  simpl. destruct r.
  - lia.
  - destruct Hin as [Hin|Hin]; [discriminate Hin|].
    specialize (IH 0 ltac:(lia) Hin). lia.
Qed.

Lemma count_true_zero (l : list bool) : count_true l = 0 -> ~ In true l.
Proof.
  unfold count_true. induction l as [|[|] l IH]; simpl; intros H Hin.
  - exact Hin.
  - lia.
  - destruct Hin as [Hin|Hin]; [discriminate Hin | exact (IH H Hin)].
Qed.

Lemma count_true_pos (l : list bool) : 0 < count_true l -> In true l.
Proof.
  unfold count_true. induction l as [|[|] l IH]; simpl; intros H.
  - lia.
  - left. reflexivity.
  - right. apply IH, H.
Qed.

Lemma count_true_all (l : list bool) :
  count_true l = Z.of_nat (List.length l) -> l = repeat true (List.length l).
Proof.
  induction l as [|b l IH]; intros H; [reflexivity|].
  pose proof (count_true_bounds l) as Hb.
  destruct b; unfold count_true in *; simpl in *.
  - f_equal. apply IH. lia.
  - lia.
Qed.

Lemma counter_all_wins (c : Z) (n : nat) :
  0 <= c -> fold_right Z.max 0 (counter_values c (repeat true n)) = if (n =? 0)%nat then 0 else c + Z.of_nat n.
Proof.
  revert c. induction n as [|n IH]; intros c Hc; [reflexivity|].
  cbn [repeat counter_values fold_right]. rewrite IH by lia.
  destruct n; simpl; lia.
Qed.

(** X11.  The best streak is 0 exactly when no match was won, and it is the
    number of games exactly when every match was won. *)
Theorem best_streak_extremes {S : Sorter} (requests_get : string -> Params -> Response)
  (account_id days : Z) (key : option string) (sid lbl : string) (json : list RawMatch) :
  requests_get (request_url account_id) (request_params days key) = Response_ok json ->
  json <> [] ->
  exists df summary,
    fetch_matches requests_get account_id days key = Ok df /\
    summarize_matches df sid lbl = Ok summary /\
    (best_streak summary = 0 <-> wins summary = 0) /\
    (best_streak summary = games summary <-> wins summary = games summary).
Proof.
  intros Hr Hne. destruct json as [|d json']; [contradiction Hne; reflexivity|].
  exists (matches_frame (d :: json')). eexists.
  split; [apply fetch_matches_ok; assumption|].
  split; [apply (summarize_matches_ok (d :: json') d); assumption|].
  cbn [wins games best_streak].
  set (json := d :: json') in *.
  pose proof (scanned_perm json d) as Hperm.
  pose proof (streak_loop_bounds (map win_of (scanned json d))) as Hb.
  assert (Hw : count_true (map win_of (scanned json d)) = wins_in json).
  { rewrite wins_in_count. apply wins_in_perm, Hperm. }
  assert (Hlen : List.length (map win_of (scanned json d)) = List.length json).
  { rewrite length_map. apply Permutation_length, Hperm. }
  rewrite Hw in Hb. split; split; intros H.
  - destruct (Z.eq_dec (wins_in json) 0) as [E|E]; [exact E|].
    assert (Hin : In true (map win_of (scanned json d))).
    { apply count_true_pos. pose proof (count_true_bounds (map win_of (scanned json d))). lia. }
    rewrite streak_loop_max_counter in H. unfold max_counter in H.
    pose proof (counter_reaches_one 0 _ ltac:(lia) Hin). lia.
  - lia.
  - pose proof (count_true_bounds (map win_of (scanned json d))) as Hc.
    rewrite Hw, Hlen in Hc. lia.
  - rewrite <- Hw, <- Hlen in H. apply count_true_all in H.
    rewrite streak_loop_max_counter. unfold max_counter. rewrite H.
    rewrite counter_all_wins by lia. rewrite Hlen.
    destruct (List.length json) eqn:E; [discriminate E | simpl; lia].
Qed.

Lemma best_streak_extremes_example :
  exists df summary,
    fetch_matches (always streak_sample) 0 7 None = Ok df /\
    summarize_matches (S := stable_sorter) df "76561198355928347" "Last 7 days" = Ok summary /\
    (best_streak summary = 0 <-> wins summary = 0) /\
    (best_streak summary = games summary <-> wins summary = games summary).
Proof.
  exact (best_streak_extremes (S := stable_sorter) (always streak_sample) 0 7 None
           "76561198355928347" "Last 7 days" streak_sample eq_refl ltac:(discriminate)).
Defined.

(** *** Distinct start times leave one chronological order *)

Lemma NoDup_map_eq (A B : Type) (f : A -> B) (l : list A) (x y : A) :
  NoDup (map f l) -> In x l -> In y l -> f x = f y -> x = y.
Proof.
  induction l as [|a l IH]; simpl; intros Hnd Hx Hy Hxy; [contradiction|].
  inversion Hnd as [|? ? Hnotin Hnd']; subst.
  destruct Hx as [<-|Hx], Hy as [<-|Hy].
  - reflexivity.
  - contradiction Hnotin. rewrite Hxy. apply in_map, Hy.
  - contradiction Hnotin. rewrite <- Hxy. apply in_map, Hx.
  - apply IH; assumption.
Qed.

Lemma chronological_strong (l : list RawMatch) :
  chronological l -> StronglySorted (fun a b => start_time a <= start_time b) l.
Proof.
  apply Sorted_StronglySorted. intros a b c Hab Hbc. lia.
Qed.

Lemma chronological_unique (l1 l2 : list RawMatch) :
  chronological l1 -> chronological l2 -> Permutation l1 l2 ->
  NoDup (map start_time l1) -> l1 = l2.
Proof.
  intros H1 H2. apply chronological_strong in H1. apply chronological_strong in H2.
  revert l2 H2. induction H1 as [|a l1 Hs1 IH Ha]; intros l2 H2 Hperm Hnd.
  - apply Permutation_nil in Hperm. symmetry. exact Hperm.
  - destruct H2 as [|b l2 Hs2 Hb].
    + apply Permutation_sym, Permutation_nil in Hperm. discriminate Hperm.
    + assert (Hab : a = b).
      { apply (NoDup_map_eq _ _ start_time (a :: l1)); [exact Hnd | left; reflexivity | |].
        - apply (Permutation_in _ (Permutation_sym Hperm)). left. reflexivity.
        - assert (Hba : start_time b <= start_time a).
          { pose proof (Permutation_in a Hperm (or_introl eq_refl)) as Hin.
            destruct Hin as [->|Hin]; [lia|].
            rewrite Forall_forall in Hb. apply Hb, Hin. }
          assert (Hab : start_time a <= start_time b).
          { pose proof (Permutation_in b (Permutation_sym Hperm) (or_introl eq_refl)) as Hin.
            destruct Hin as [->|Hin]; [lia|].
            rewrite Forall_forall in Ha. apply Ha, Hin. }
          lia. }
      subst b. f_equal. apply IH; [exact Hs2 | |].
      * apply (Permutation_cons_inv Hperm).
      * inversion Hnd; assumption.
Qed.

(** X12.  When no two matches start at the same time, the best streak does
    not depend on the order in which the matches are received, nor on how
    the sorting routine treats equal keys. *)
Theorem best_streak_distinct_times (S1 S2 : Sorter) (json json' : list RawMatch)
  (account_id days : Z) (key : option string) (sid lbl : string) :
  json <> [] -> Permutation json json' -> NoDup (map start_time json) ->
  exists df df' summary summary',
    fetch_matches (always json) account_id days key = Ok df /\
    fetch_matches (always json') account_id days key = Ok df' /\
    summarize_matches (S := S1) df sid lbl = Ok summary /\
    summarize_matches (S := S2) df' sid lbl = Ok summary' /\
    best_streak summary = best_streak summary'.
Proof.
  intros Hne Hperm Hnd.
  assert (Hne' : json' <> []).
  { intros ->. apply Permutation_sym, Permutation_nil in Hperm. contradiction. }
  destruct json as [|d l]; [contradiction Hne; reflexivity|].
  destruct json' as [|d' l']; [contradiction Hne'; reflexivity|].
  exists (matches_frame (d :: l)), (matches_frame (d' :: l')). do 2 eexists.
  split; [apply fetch_matches_ok; [reflexivity | assumption]|].
  split; [apply fetch_matches_ok; [reflexivity | assumption]|].
  split; [apply (summarize_matches_ok (S := S1) (d :: l) d); assumption|].
  split; [apply (summarize_matches_ok (S := S2) (d' :: l') d'); assumption|].
  cbn [best_streak]. do 2 f_equal.
  apply chronological_unique.
  - apply scanned_chronological.
  - apply scanned_chronological.
  - eapply perm_trans; [apply scanned_perm|].
    eapply perm_trans; [exact Hperm | apply Permutation_sym, scanned_perm].
  - apply (Permutation_NoDup (l := map start_time (d :: l))); [|exact Hnd].
    apply Permutation_map, Permutation_sym, scanned_perm.
Qed.

Lemma best_streak_distinct_times_example :
  exists df df' summary summary',
    fetch_matches (always streak_sample) 0 7 None = Ok df /\
    fetch_matches (always (rev streak_sample)) 0 7 None = Ok df' /\
    summarize_matches (S := stable_sorter) df "76561198355928347" "Last 7 days" = Ok summary /\
    summarize_matches (S := reversing_sorter) df' "76561198355928347" "Last 7 days"
    = Ok summary' /\
    best_streak summary = best_streak summary'.
Proof.
  exact (best_streak_distinct_times stable_sorter reversing_sorter
           streak_sample (rev streak_sample) 0 7 None "76561198355928347" "Last 7 days"
           ltac:(discriminate) (Permutation_rev streak_sample)
           ltac:(repeat constructor; simpl; intuition discriminate)).
Defined.

(** *** The range of the win rate *)

Module Range.
Import Py Pd Dashboard Spec.

(** The win rate [summarize_matches] computes from [wins] and [total]. *)
Definition rate (wins total : Z) : number :=
  round1 (mul (truediv (PyInt wins) (PyInt total)) (PyInt 100)).

Definition percentage (n : number) : bool :=
  match n with
  | PyFloat f => ((0 <=? f) && (f <=? 100))%float
  | PyInt _ => false
  end.

End Range.

Import Range.

(** Every rate of [wins] out of [total], for [total] from 1 to 200, is a
    percentage: checked by evaluation. *)
Lemma rates_checked_200 :
  forallb (fun total =>
             forallb (fun wins => percentage (rate (Z.of_nat wins) (Z.of_nat total)))
                     (seq 0 (Datatypes.S total)))
          (seq 1 200) = true.
Proof. vm_compute. reflexivity. Qed.

Lemma forallb_in (A : Type) (f : A -> bool) (l : list A) (x : A) :
  forallb f l = true -> In x l -> f x = true.
Proof. intros H. apply (proj1 (forallb_forall f l) H). Qed.


Lemma rate_percentage (wins total : nat) :
  (1 <= total <= 200)%nat -> (wins <= total)%nat ->
  percentage (rate (Z.of_nat wins) (Z.of_nat total)) = true.
Proof.
  intros Ht Hw.
  assert (Hin : In total (seq 1 200)) by (apply in_seq; lia).
  assert (Hin' : In wins (seq 0 (Datatypes.S total))) by (apply in_seq; lia).
  exact (forallb_in nat
           (fun wins => percentage (rate (Z.of_nat wins) (Z.of_nat total)))
           (seq 0 (Datatypes.S total)) wins
           (forallb_in nat
              (fun total =>
                 forallb (fun wins => percentage (rate (Z.of_nat wins) (Z.of_nat total)))
                         (seq 0 (Datatypes.S total)))
              (seq 1 200) total rates_checked_200 Hin)
           Hin').
Qed.

Lemma percentage_bounds (n : number) :
  percentage n = true ->
  exists f, n = PyFloat f /\ (0 <=? f)%float = true /\ (f <=? 100)%float = true.
Proof.
  destruct n as [z|f]; simpl; intros H; [discriminate H|].
  exists f. apply andb_true_iff in H. split; [reflexivity | exact H].
Qed.

(** X13.  For up to 200 matches, the number [fetch_matches] asks for, the
    win rate of a non-empty set of records is a float between 0 and 100. *)
Theorem win_rate_percentage {S : Sorter} (requests_get : string -> Params -> Response)
  (account_id days : Z) (key : option string) (sid lbl : string) (json : list RawMatch) :
  requests_get (request_url account_id) (request_params days key) = Response_ok json ->
  json <> [] ->
  (List.length json <= 200)%nat ->
  exists df summary f,
    fetch_matches requests_get account_id days key = Ok df /\
    summarize_matches df sid lbl = Ok summary /\
    win_rate summary = PyFloat f /\
    (0 <=? f)%float = true /\ (f <=? 100)%float = true.
Proof.
  intros Hr Hne Hlen.
  assert (Hp : percentage (rate (wins_in json) (Z.of_nat (List.length json))) = true).
  { apply rate_percentage.
    - destruct json; [contradiction Hne; reflexivity | simpl List.length in *; lia].
    - apply filter_length_le. }
  destruct (percentage_bounds _ Hp) as [f [Hf Hbounds]].
  destruct json as [|d json']; [contradiction Hne; reflexivity|].
  exists (matches_frame (d :: json')). eexists. exists f.
  split; [apply fetch_matches_ok; assumption|].
  split; [apply (summarize_matches_ok (d :: json') d); assumption|].
  split; [exact Hf | exact Hbounds].
Qed.

Lemma win_rate_percentage_example :
  exists df summary f,
    fetch_matches (always streak_sample) 0 7 None = Ok df /\
    summarize_matches (S := stable_sorter) df "76561198355928347" "Last 7 days" = Ok summary /\
    win_rate summary = PyFloat f /\
    (0 <=? f)%float = true /\ (f <=? 100)%float = true.
Proof.
  exact (win_rate_percentage (S := stable_sorter) (always streak_sample) 0 7 None
           "76561198355928347" "Last 7 days" streak_sample eq_refl ltac:(discriminate)
           ltac:(simpl; lia)).
Defined.

(* ================================================================= *)
(** ** More of the program: batches *)

Module Batch.
Import Py Pd Dashboard Spec.

(** The label [collect_period_summaries] gives the summaries of a window. *)
Definition window_label (days : Z) : string :=
  "Last " ++ str_of_int days ++ " days".

(** The identifier gets a summary. *)
Definition summarised {S : Sorter} (requests_get : string -> Params -> Response)
  (days : Z) (key : option string) (sid : string) : bool :=
  match entry requests_get days key sid with
  | Ok (inl _) => true
  | _ => false
  end.

(** The account of the identifier has no match in the window. *)
Definition no_matches (requests_get : string -> Params -> Response)
  (days : Z) (key : option string) (sid : string) : Prop :=
  exists account_id,
    steam64_to_account_id sid = Some account_id /\
    requests_get (request_url account_id) (request_params days key) = Response_ok [].

(** The frame of the batch "bad_id", "76561198355928347" over the sample
    matches. *)
Definition batch_sample : DataFrame :=
  Eval vm_compute in
    match collect_period_summaries (S := stable_sorter) (always streak_sample)
            ["bad_id"; "76561198355928347"] 7 None with
    | Ok (df, _) => df
    | Raise _ => DataFrame_nil
    end.

End Batch.

Import Batch.

Section BatchFacts.

Context {S : Sorter}.
Variable requests_get : string -> Params -> Response.
Variable days : Z.
Variable key : option string.

(** What [entry] returns, case by case. *)
Lemma entry_cases (sid : string) :
  match entry requests_get days key sid with
  | Ok (inl row) =>
      steam_id row = sid /\ label row = window_label days /\
      ~ no_matches requests_get days key sid
  | Ok (inr msg) => ~ no_matches requests_get days key sid
  | Raise e => e = KeyError "win" /\ no_matches requests_get days key sid
  end.
Proof.
  unfold entry, no_matches.
  destruct (steam64_to_account_id sid) as [account_id|] eqn:Hid;
    [|intros [a [Ha _]]; discriminate Ha].
  destruct (requests_get (request_url account_id) (request_params days key))
    as [json|exc|exc] eqn:Hr.
  - destruct json as [|d json'].
    + rewrite (fetch_matches_empty requests_get account_id days key Hr).
      split; [reflexivity|]. exists account_id. split; [reflexivity | exact Hr].
    + rewrite (fetch_matches_ok requests_get account_id days key (d :: json') Hr)
        by discriminate.
      rewrite (summarize_matches_ok (d :: json') d) by discriminate.
      cbn [bind steam_id label]. repeat split.
      intros [a [Ha Ha']]. injection Ha as <-. rewrite Hr in Ha'. discriminate Ha'.
  - unfold fetch_matches. rewrite Hr.
    intros [a [Ha Ha']]. injection Ha as <-. rewrite Hr in Ha'. discriminate Ha'.
  - unfold fetch_matches. rewrite Hr.
    intros [a [Ha Ha']]. injection Ha as <-. rewrite Hr in Ha'. discriminate Ha'.
Qed.

(** A batch either gives an entry for each identifier or stops at the first
    identifier whose entry raises. *)
Lemma entries_or_failure (steam_ids : list string) :
  (exists entries,
     Forall2 (fun sid e => entry requests_get days key sid = Ok e) steam_ids entries) \/
  (exists before sid after entries e,
     steam_ids = before ++ sid :: after /\
     Forall2 (fun sid e => entry requests_get days key sid = Ok e) before entries /\
     entry requests_get days key sid = Raise e).
Proof.
  induction steam_ids as [|sid rest IH].
  - left. exists []. constructor.
  - destruct (entry requests_get days key sid) as [x|e] eqn:He.
    + destruct IH as [[entries H]|[before [sid' [after [entries [e [Heq [H He']]]]]]]].
      * left. exists (x :: entries). constructor; assumption.
      * right. exists (sid :: before), sid', after, (x :: entries), e.
        split; [rewrite Heq; reflexivity|]. split; [constructor; assumption | exact He'].
    + right. exists [], sid, rest, [], e. split; [reflexivity|]. split; [constructor | exact He].
Qed.

Lemma summaries_of_ids (steam_ids : list string) (entries : list (PlayerSummary + string)) :
  Forall2 (fun sid e => entry requests_get days key sid = Ok e) steam_ids entries ->
  map steam_id (summaries_of entries) = filter (summarised requests_get days key) steam_ids /\
  Forall (fun r => label r = window_label days) (summaries_of entries) /\
  Forall (fun sid => ~ no_matches requests_get days key sid) steam_ids.
Proof.
  induction 1 as [|sid e ids es He _ [IH1 [IH2 IH3]]]; [repeat split; constructor|].
  pose proof (entry_cases sid) as Hc.
  assert (Hs : summarised requests_get days key sid
               = match e with inl _ => true | inr _ => false end).
  { unfold summarised. rewrite He. reflexivity. }
  rewrite He in Hc. cbn [filter]. rewrite Hs.
  destruct e as [row|msg].
  - destruct Hc as [H1 [H2 H3]]. cbn [summaries_of map]. rewrite H1, IH1.
    repeat split; constructor; assumption.
  - cbn [summaries_of]. repeat split; try assumption. constructor; assumption.
Qed.

End BatchFacts.

(** X14.  A batch in which no identifier converts issues no request: it
    returns the empty frame and one "Invalid Steam64 ID" message for each
    identifier, in order, whatever the remote service would answer. *)
Theorem collect_period_summaries_all_invalid {S : Sorter}
  (requests_get : string -> Params -> Response) (steam_ids : list string) (days : Z)
  (key : option string) :
  Forall (fun sid => steam64_to_account_id sid = None) steam_ids ->
  collect_period_summaries requests_get steam_ids days key
  = Ok (DataFrame_nil, map (fun sid => "Invalid Steam64 ID: " ++ sid)%string steam_ids).
Proof.
  intros H. unfold collect_period_summaries.
  rewrite (collect_loop_entries requests_get days key steam_ids
             (map (fun sid => inr ("Invalid Steam64 ID: " ++ sid)%string) steam_ids) [] []).
  - cbn [bind fst snd app]. f_equal. f_equal.
    + clear. induction steam_ids as [|sid ids IH]; [reflexivity | exact IH].
    + clear. induction steam_ids as [|sid ids IH]; [reflexivity|].
      cbn [map errors_of]. rewrite IH. reflexivity.
  - induction H as [|sid ids Hsid _ IH]; constructor; [|exact IH].
    unfold entry. rewrite Hsid. reflexivity.
Qed.

Lemma collect_period_summaries_all_invalid_example :
  collect_period_summaries (S := stable_sorter) (always streak_sample)
    ["bad_id"; "12 34"] 7 None
  = Ok (DataFrame_nil, ["Invalid Steam64 ID: bad_id"; "Invalid Steam64 ID: 12 34"]).
Proof.
  exact (collect_period_summaries_all_invalid (S := stable_sorter) (always streak_sample)
           ["bad_id"; "12 34"] 7 None ltac:(repeat constructor)).
Defined.

(** X15.  When a batch returns, its frame holds one summary for each
    identifier that got one, in the order of the identifiers and carrying
    their text, every summary is labelled with the window, and summaries
    and errors together are as many as the identifiers. *)
Theorem collect_period_summaries_rows {S : Sorter}
  (requests_get : string -> Params -> Response) (steam_ids : list string) (days : Z)
  (key : option string) (df : DataFrame) (errors : list string) :
  collect_period_summaries requests_get steam_ids days key = Ok (df, errors) ->
  exists rows,
    df = DataFrame_of_rows rows /\
    map steam_id rows = filter (summarised requests_get days key) steam_ids /\
    Forall (fun r => label r = window_label days) rows /\
    (List.length rows + List.length errors = List.length steam_ids)%nat.
Proof.
  intros H.
  destruct (entries_or_failure requests_get days key steam_ids)
    as [[entries He]|[before [sid [after [entries [e [Heq [Hb He]]]]]]]].
  - unfold collect_period_summaries in H.
    rewrite (collect_loop_entries requests_get days key steam_ids entries [] [] He) in H.
    cbn [bind fst snd app] in H. injection H as <- <-.
    exists (summaries_of entries).
    destruct (summaries_of_ids requests_get days key steam_ids entries He) as [H1 [H2 _]].
    split; [reflexivity|]. split; [exact H1|]. split; [exact H2|].
    clear -He. induction He as [|sid e ids es _ _ IH]; [reflexivity|].
    destruct e; simpl; lia.
  - unfold collect_period_summaries in H. rewrite Heq in H.
    rewrite (collect_loop_raises requests_get days key before after sid entries e [] [] Hb He)
      in H.
    discriminate H.
Qed.

Lemma collect_period_summaries_rows_example :
  exists rows,
    batch_sample = DataFrame_of_rows rows /\
    map steam_id rows
    = filter (summarised (S := stable_sorter) (always streak_sample) 7 None)
        ["bad_id"; "76561198355928347"] /\
    Forall (fun r => label r = window_label 7) rows /\
    (List.length rows + List.length ["Invalid Steam64 ID: bad_id"] = 2)%nat.
Proof.
  refine (collect_period_summaries_rows (S := stable_sorter) (always streak_sample)
            ["bad_id"; "76561198355928347"] 7 None _ _ _).
  vm_compute. reflexivity.
Defined.

(** X16.  A batch is processed identifier by identifier: the batch
    [a ++ b] is the batch [a] followed by the batch [b] started from the
    summaries and errors collected so far, and an exception out of [a] is
    the one out of [a ++ b]. *)
Theorem collect_loop_app {S : Sorter} (requests_get : string -> Params -> Response)
  (a b : list string) (days : Z) (key : option string) (rows : list PlayerSummary)
  (errors : list string) :
  collect_loop requests_get (a ++ b) days key rows errors
  = (out <- collect_loop requests_get a days key rows errors ;;
     collect_loop requests_get b days key (fst out) (snd out)).
Proof.
  revert rows errors. induction a as [|sid a IH]; intros rows errors; [reflexivity|].
  cbn [app collect_loop].
  destruct (steam64_to_account_id sid) as [account_id|]; [|apply IH].
  destruct (fetch_matches requests_get account_id days key) as [matches|[]];
    try reflexivity; try apply IH.
  destruct (summarize_matches matches sid _) as [r|e]; [cbn [bind]; apply IH | reflexivity].
Qed.

Lemma collect_period_summaries_ends {S : Sorter}
  (requests_get : string -> Params -> Response) (steam_ids : list string) (days : Z)
  (key : option string) :
  match collect_period_summaries requests_get steam_ids days key with
  | Ok out =>
      (exists rows,
         fst out = DataFrame_of_rows rows /\
         map steam_id rows = filter (summarised requests_get days key) steam_ids) /\
      Forall (fun sid => ~ no_matches requests_get days key sid) steam_ids
  | Raise e =>
      e = KeyError "win" /\
      Exists (no_matches requests_get days key) steam_ids
  end.
Proof.
  destruct (entries_or_failure requests_get days key steam_ids)
    as [[entries He]|[before [sid [after [entries [e [Heq [Hb He]]]]]]]].
  - unfold collect_period_summaries.
    rewrite (collect_loop_entries requests_get days key steam_ids entries [] [] He).
    cbn [bind fst].
    destruct (summaries_of_ids requests_get days key steam_ids entries He) as [H1 [_ H3]].
    split; [|exact H3]. exists (summaries_of entries). split; [reflexivity | exact H1].
  - unfold collect_period_summaries. rewrite Heq.
    rewrite (collect_loop_raises requests_get days key before after sid entries e [] [] Hb He).
    cbn [bind].
    pose proof (entry_cases requests_get days key sid) as Hc. rewrite He in Hc.
    destruct Hc as [-> Hn]. split; [reflexivity|].
    apply Exists_app. right. constructor. exact Hn.
Qed.


(* ================================================================= *)
(** ** More of the program: rankings *)

Lemma Series_len_take (idx : list nat) (s : Series) :
  Series_len (take idx s) = List.length idx.
Proof. destruct s; cbn [take Series_len]; apply length_map. Qed.

Lemma Series_len_firstn (k : nat) (s : Series) :
  Series_len (Series_firstn k s) = Nat.min k (Series_len s).
Proof. destruct s; cbn [Series_firstn Series_len]; apply length_firstn. Qed.

Lemma lookup_Forall (P : Series -> Prop) (k : string) (cols : list (string * Series))
  (s : Series) :
  Forall (fun c => P (snd c)) cols -> lookup k cols = Some s -> P s.
Proof.
  induction 1 as [|[k' s'] cols Hc _ IH]; simpl; [discriminate|].
  destruct (String.eqb k k'); [intros [= <-]; exact Hc | exact IH].
Qed.

(** A selection names its columns as asked and takes them from the frame. *)
Lemma select_columns_inv (cols picked : list (string * Series)) (keys : list string) :
  select_columns cols keys = Ok picked ->
  map fst picked = keys /\
  Forall (fun c => lookup (fst c) cols = Some (snd c)) picked.
Proof.
  revert picked. induction keys as [|k keys IH]; intros picked; simpl.
  - intros [= <-]. split; constructor.
  - destruct (lookup k cols) as [s|] eqn:Hl; [|discriminate].
    destruct (select_columns cols keys) as [r|e]; [|discriminate].
    cbn [bind]. intros [= <-]. destruct (IH r eq_refl) as [H1 H2].
    split; [simpl; rewrite H1; reflexivity | constructor; assumption].
Qed.

Lemma has_columns_head (df : DataFrame) (n : Z) (keys : list string) :
  has_columns df keys -> has_columns (head df n) keys.
Proof.
  unfold has_columns. intros H. eapply Forall_impl; [|exact H].
  intros k Hk. cbv beta in Hk. cbn [head columns]. rewrite lookup_map_snd.
  destruct (lookup k (columns df)); [discriminate | contradiction Hk; reflexivity].
Qed.

Lemma head_well_formed (df : DataFrame) (n : Z) :
  well_formed df -> well_formed (head df n).
Proof.
  unfold well_formed, head. cbn [index columns]. intros H.
  apply Forall_map. eapply Forall_impl; [|exact H].
  intros [k s] Hs. cbn [fst snd] in *. rewrite Series_len_firstn, Hs.
  pose proof (head_count_le (index df) n). lia.
Qed.

Lemma take_rows_well_formed (idx : list nat) (df : DataFrame) :
  well_formed (take_rows idx df).
Proof.
  unfold well_formed, take_rows. cbn [index columns].
  apply Forall_map. apply Forall_forall. intros [k s] _. apply Series_len_take.
Qed.

Lemma with_loss_rate_well_formed (rows : list PlayerSummary) :
  well_formed (with_loss_rate rows).
Proof.
  unfold well_formed, with_loss_rate. cbn [index columns].
  apply Forall_app. split; [apply DataFrame_of_rows_well_formed|].
  constructor; [|constructor]. cbn [snd].
  rewrite Series_of_numbers_len, length_map. destruct rows; reflexivity.
Qed.

Lemma with_loss_rate_has_columns (rows : list PlayerSummary) :
  rows <> [] -> has_columns (with_loss_rate rows) (display "loss_rate").
Proof.
  intros Hne. unfold has_columns, with_loss_rate.
  rewrite (DataFrame_of_rows_nonempty rows Hne). cbn [columns app].
  repeat (constructor; [cbn; discriminate|]). constructor.
Qed.

Lemma DataFrame_of_rows_has_columns (rows : list PlayerSummary) :
  rows <> [] -> has_columns (DataFrame_of_rows rows) (display "win_rate").
Proof.
  intros Hne. unfold has_columns.
  rewrite (DataFrame_of_rows_nonempty rows Hne). cbn [columns].
  repeat (constructor; [cbn; discriminate|]). constructor.
Qed.

Section RankingShape.

Context {S : Sorter}.

Lemma highlight_top_players_frame (df : DataFrame) (metric : string) (top_n : Z) :
  empty df = false ->
  well_formed df ->
  has_columns df (display metric) ->
  exists result,
    highlight_top_players df metric top_n = Ok result /\
    index result = head_count (index df) top_n /\
    map fst (columns result) = display metric /\
    well_formed result.
Proof.
  intros He Hwf Hcols.
  assert (Hm : lookup metric (columns df) <> None).
  { unfold has_columns, display in Hcols.
    repeat match goal with H : Forall _ (_ :: _) |- _ => inversion H; clear H; subst end.
    assumption. }
  destruct (lookup metric (columns df)) as [key|] eqn:Hkey; [|contradiction Hm; reflexivity].
  unfold highlight_top_players, sort_values, getitem. rewrite He, Hkey. cbn [bind].
  set (sorted := take_rows (argsort key false) df).
  assert (Hidx : index sorted = index df).
  { unfold sorted. cbn [take_rows index].
    rewrite (Permutation_length (argsort_perm key false)), length_seq.
    apply (getitem_well_formed df metric key Hwf). unfold getitem. rewrite Hkey. reflexivity. }
  pose proof (has_columns_head sorted top_n _
                (has_columns_take_rows (argsort key false) df _ Hcols)) as Hh.
  destruct (select_columns_ok (columns (head sorted top_n)) (display metric) Hh)
    as [picked [Hsel _]].
  destruct (select_columns_inv _ _ _ Hsel) as [Hnames Hfrom].
  exists {| index := index (head sorted top_n); columns := picked |}.
  unfold select. fold (display metric). rewrite Hsel. cbn [bind index columns].
  split; [reflexivity|]. split; [cbn [head index]; rewrite Hidx; reflexivity|].
  split; [exact Hnames|].
  unfold well_formed. cbn [index columns].
  eapply Forall_impl; [|exact Hfrom]. intros [k s] Hl. cbn [fst snd] in *.
  exact (lookup_Forall (fun s => Series_len s = index (head sorted top_n)) k _ s
           (head_well_formed sorted top_n (take_rows_well_formed _ df)) Hl).
Qed.

End RankingShape.

(** X18.  On a frame with rows whose columns all span the index and include
    the display fields, [highlight_top_players] returns, for any [top_n], a
    frame with the [head] count of rows ([top_n] of them at most, all but the
    last [-top_n] for a negative [top_n]) and exactly the six columns
    steam_id, win_rate, games, wins, losses and the metric, in that order, so
    that the metric win_rate is shown twice. *)
Theorem highlight_top_players_shape {S : Sorter} (df : DataFrame) (metric : string)
  (top_n : Z) :
  empty df = false ->
  well_formed df ->
  has_columns df (display metric) ->
  exists result,
    highlight_top_players df metric top_n = Ok result /\
    index result = head_count (index df) top_n /\
    map fst (columns result) = display metric /\
    well_formed result.
Proof.
  intros He Hwf Hcols. exact (highlight_top_players_frame df metric top_n He Hwf Hcols).
Qed.

Lemma highlight_top_players_shape_example :
  exists result,
    highlight_top_players (S := stable_sorter)
      (DataFrame_of_rows [sample_row "A" 50; sample_row "B" 60]) "win_rate" (-1) = Ok result /\
    index result = 1%nat /\
    map fst (columns result)
    = ["steam_id"; "win_rate"; "games"; "wins"; "losses"; "win_rate"] /\
    well_formed result.
Proof.
  exact (highlight_top_players_shape (S := stable_sorter)
           (DataFrame_of_rows [sample_row "A" 50; sample_row "B" 60]) "win_rate" (-1)
           eq_refl
           (DataFrame_of_rows_well_formed [sample_row "A" 50; sample_row "B" 60])
           (DataFrame_of_rows_has_columns [sample_row "A" 50; sample_row "B" 60]
              ltac:(discriminate))).
Defined.

Lemma ranking_after_add_loss_rate {S : Sorter} (h : store) (df : nat)
  (rows : list PlayerSummary) (top_n : Z) :
  rows <> [] ->
  cell h df = DataFrame_of_rows rows ->
  exists r h' result,
    add_loss_rate df h = Ok (r, h') /\
    highlight_top_players (cell h' r) "loss_rate" top_n = Ok result /\
    index result = head_count (List.length rows) top_n /\
    map fst (columns result) = display "loss_rate".
Proof.
  intros Hne Hcell.
  assert (He : empty (cell h df) = false).
  { rewrite Hcell, DataFrame_of_rows_empty. destruct rows; [contradiction Hne|]; reflexivity. }
  pose proof (add_loss_rate_nonempty h df _ _ He
                ltac:(rewrite Hcell; apply loss_rate_column_rows, Hne)
                ltac:(rewrite Hcell; apply setitem_rows, Hne)) as Hcall.
  destruct (highlight_top_players_frame (with_loss_rate rows) "loss_rate" top_n
              (with_loss_rate_not_empty rows Hne) (with_loss_rate_well_formed rows)
              (with_loss_rate_has_columns rows Hne))
    as [result [Hres [Hidx [Hnames _]]]].
  exists (next h), (write (snd (copy h df)) (next h) (with_loss_rate rows)), result.
  split; [exact Hcall|]. rewrite cell_write_same.
  split; [exact Hres|]. split; [|exact Hnames].
  rewrite Hidx. unfold with_loss_rate. cbn [index].
  destruct rows; [contradiction Hne|]; reflexivity.
Qed.

(** X19.  The ranking by loss rate needs [add_loss_rate]: on a summary frame
    with rows, [highlight_top_players] with the metric loss_rate raises
    [KeyError 'loss_rate'], while on the frame [add_loss_rate] returns for it
    the ranking succeeds, whatever the sorter and [top_n], with the [head]
    count of rows and the columns steam_id, win_rate, games, wins, losses,
    loss_rate. *)
Theorem highlight_top_players_loss_rate {S : Sorter} (h : store) (df : nat)
  (rows : list PlayerSummary) (top_n : Z) :
  rows <> [] ->
  cell h df = DataFrame_of_rows rows ->
  highlight_top_players (cell h df) "loss_rate" top_n = Raise (KeyError "loss_rate") /\
  exists r h' result,
    add_loss_rate df h = Ok (r, h') /\
    highlight_top_players (cell h' r) "loss_rate" top_n = Ok result /\
    index result = head_count (List.length rows) top_n /\
    map fst (columns result) = display "loss_rate".
Proof.
  intros Hne Hcell. split.
  - unfold highlight_top_players. rewrite Hcell, DataFrame_of_rows_empty.
    destruct rows as [|p rows']; [contradiction Hne; reflexivity | reflexivity].
  - exact (ranking_after_add_loss_rate h df rows top_n Hne Hcell).
Qed.

Lemma highlight_top_players_loss_rate_example :
  highlight_top_players (S := stable_sorter)
    (DataFrame_of_rows [sample_row "A" 50]) "loss_rate" 3 = Raise (KeyError "loss_rate") /\
  exists r h' result,
    add_loss_rate 0 {| next := 1; cell := fun _ => DataFrame_of_rows [sample_row "A" 50] |}
    = Ok (r, h') /\
    highlight_top_players (S := stable_sorter) (cell h' r) "loss_rate" 3 = Ok result /\
    index result = 1%nat /\
    map fst (columns result)
    = ["steam_id"; "win_rate"; "games"; "wins"; "losses"; "loss_rate"].
Proof.
  exact (highlight_top_players_loss_rate (S := stable_sorter)
           {| next := 1; cell := fun _ => DataFrame_of_rows [sample_row "A" 50] |}
           0 [sample_row "A" 50] 3 ltac:(discriminate) eq_refl).
Defined.

(* ================================================================= *)
(** ** The page: [main]

    A run of the script is the sequence of Streamlit calls it makes, each
    with the place it draws in, and the way the run ends.  A Streamlit call
    returns; the two input widgets return what the visitor has typed. *)

Module St.
Import Py Pd.

(** Where a call draws: the page, or a column of [st.columns]. *)
Inductive place : Type :=
| page
| column (i : nat).

(** The chart of a call of [render_chart], kept as the arguments of the
    call. *)
Inductive Chart : Type :=
| render_chart (df : DataFrame) (title metric : string).

Inductive call : Type :=
| set_page_config (page_title layout : string)
| title (body : string)
| caption (body : string)
| text_area (label value help : string)
| text_input (label value help : string)
| warning (body : string)
| stop
| columns (spec : Z)
| subheader (body : string)
| error (body : string)
| info (body : string)
| dataframe (data : DataFrame)
| altair_chart (chart : Chart) (use_container_width : bool)
| markdown (body : string).

(** How a run, or a part of it, ends: it returns, [st.stop()] ends the run,
    or an exception leaves it. *)
Inductive ending (A : Type) : Type :=
| Return (a : A)
| StopException
| Exception (e : exn).

Arguments Return {A} a.
Arguments StopException {A}.
Arguments Exception {A} e.

Definition script (A : Type) : Type := list (place * call) * ending A.

Definition ret {A : Type} (a : A) : script A := ([], Return a).

Definition bind {A B : Type} (m : script A) (k : A -> script B) : script B :=
  let '(calls, e) := m in
  match e with
  | Return a => let '(calls', e') := k a in (calls ++ calls', e')
  | StopException => (calls, StopException)
  | Exception e => (calls, Exception e)
  end.

(** A call that shows something, and an input widget with the text it
    returns. *)
Definition draw (p : place) (c : call) : script unit := ([(p, c)], Return tt).

Definition ask (p : place) (c : call) (typed : string) : script string :=
  ([(p, c)], Return typed).

(** [st.stop()] *)
Definition halt {A : Type} : script A := ([(page, stop)], StopException).

(** A computation of the program inside the run. *)
Definition python {A : Type} (c : result A) : script A :=
  match c with
  | Ok a => ([], Return a)
  | Raise e => ([], Exception e)
  end.

End St.

Declare Scope script_scope.
Delimit Scope script_scope with script.

Notation "x <- c ;; k" := (St.bind c (fun x => k))
  (at level 61, c at next level, right associativity) : script_scope.
Notation "c ;; k" := (St.bind c (fun _ => k))
  (at level 61, right associativity) : script_scope.

Module App.
Import Py Pd Dashboard Ids.

(** [os.getenv(name, default)], given the variable when it is set. *)
Definition getenv (variable : option string) (default : string) : string :=
  match variable with
  | Some v => v
  | None => default
  end.

Definition col1 : St.place := St.column 1.
Definition col2 : St.place := St.column 2.

(** The frames that exist when [add_loss_rate] is called. *)
Definition frames (l : list DataFrame) : store :=
  {| next := List.length l; cell := fun r => nth r l DataFrame_nil |}.

(** The text of the last [st.markdown]. *)
Definition tips : string :=
  join (String newline "")
    [ "";
      "    **Tips**";
      "    - Conduct score is not exposed via the OpenDota public API. If Valve exposes it via the Steam Web API in the future, this dashboard can be extended to include it.";
      "    - Deploy to Streamlit Community Cloud to share with friends and link from Discord.";
      "    - Increase the `limit` parameter in `fetch_matches` if you want to analyze more games.";
      "    " ].

Section Page.

Context {S : Sorter}.
Variable requests_get : string -> Params -> Response.

(** [main], given the environment variable DOTA_API_KEY and the texts typed
    in the two widgets. *)
Definition main (DOTA_API_KEY : option string) (typed_ids typed_key : string)
  : St.script unit :=
  (St.draw St.page (St.set_page_config "Dota 2 Friends Dashboard" "wide") ;;
   St.draw St.page (St.title "Dota 2 Friends Dashboard") ;;
   St.draw St.page
     (St.caption
        "Paste your Steam64 profile IDs (from the URL) to see who has been winning lately.") ;;
   let default_ids := join (String newline "") DEFAULT_STEAM_IDS in
   steam_input <-
     St.ask St.page
       (St.text_area "Steam64 IDs" default_ids "Paste one per line or comma-separated.")
       typed_ids ;;
   api_key <-
     St.ask St.page
       (St.text_input "OpenDota or Steam API key (optional)" (getenv DOTA_API_KEY "")
          "Improves rate limits. Either OpenDota or Steam Web API keys work with this endpoint.")
       typed_key ;;
   let steam_ids := normalize_ids steam_input in
   match steam_ids with
   | [] =>
       St.draw St.page (St.warning "Please enter at least one valid Steam64 ID.") ;;
       St.halt
   | _ :: _ => St.ret tt
   end ;;
   St.draw St.page (St.columns 2) ;;
   St.draw col1 (St.subheader "Last 7 days") ;;
   weekly <- St.python (collect_period_summaries requests_get steam_ids 7 (Some api_key)) ;;
   let weekly_df := fst weekly in
   let weekly_errors := snd weekly in
   match weekly_errors with
   | [] => St.ret tt
   | _ :: _ => St.draw col1 (St.error (join (String newline "") weekly_errors))
   end ;;
   (if empty weekly_df
    then St.draw col1 (St.info "No matches found for the last 7 days.")
    else
      St.draw col1 (St.dataframe weekly_df) ;;
      St.draw col1
        (St.altair_chart (St.render_chart weekly_df "Win rate (7 days)" "win_rate") true) ;;
      St.draw col1
        (St.altair_chart (St.render_chart weekly_df "Games played (7 days)" "games") true)) ;;
   St.draw col2 (St.subheader "Last 30 days") ;;
   monthly <- St.python (collect_period_summaries requests_get steam_ids 30 (Some api_key)) ;;
   let monthly_df := fst monthly in
   let monthly_errors := snd monthly in
   match monthly_errors with
   | [] => St.ret tt
   | _ :: _ => St.draw col2 (St.error (join (String newline "") monthly_errors))
   end ;;
   (if empty monthly_df
    then St.draw col2 (St.info "No matches found for the last 30 days.")
    else
      St.draw col2 (St.dataframe monthly_df) ;;
      St.draw col2
        (St.altair_chart (St.render_chart monthly_df "Win rate (30 days)" "win_rate") true) ;;
      St.draw col2
        (St.altair_chart (St.render_chart monthly_df "Games played (30 days)" "games") true)) ;;
   St.draw St.page (St.subheader "Group highlights") ;;
   best_week <- St.python (highlight_top_players weekly_df "win_rate" 3) ;;
   worst_week <-
     (if negb (empty weekly_df)
      then
        enriched <- St.python (add_loss_rate 0 (frames [weekly_df; monthly_df; best_week])) ;;
        St.python
          (highlight_top_players (cell (snd enriched) (fst enriched)) "loss_rate" 3)
      else St.ret DataFrame_nil) ;;
   (if negb (empty weekly_df)
    then
      St.draw St.page (St.markdown "**Top win rates (7 days)**") ;;
      St.draw St.page (St.dataframe best_week) ;;
      St.draw St.page (St.markdown "**Most losses by percentage (7 days)**") ;;
      St.draw St.page (St.dataframe worst_week)
    else St.ret tt) ;;
   St.draw St.page (St.markdown tips))%script.

End Page.

(** The text holds no digit. *)
Definition no_digit (s : string) : bool :=
  forall_chars (fun c => negb (isdigit_char c)) s.

End App.

Import App.

(** *** Texts without a digit *)

Lemma no_digit_isdigit (t : string) : no_digit t = true -> isdigit t = false.
Proof.
  destruct t as [|c r]; [reflexivity|].
  unfold no_digit, isdigit. cbn [forall_chars]. intros H.
  apply andb_true_iff in H. destruct H as [Hc _].
  destruct (isdigit_char c); [discriminate Hc | reflexivity].
Qed.

Lemma no_digit_replace (s : string) :
  no_digit s = true -> no_digit (replace newline comma s) = true.
Proof.
  unfold no_digit. induction s as [|c r IH]; [reflexivity|].
  cbn [replace forall_chars]. intros H. apply andb_true_iff in H. destruct H as [Hc Hr].
  rewrite (IH Hr), andb_true_r.
  destruct (Ascii.eqb c newline); [reflexivity | exact Hc].
Qed.

Lemma no_digit_split (sep : ascii) (s : string) :
  no_digit s = true -> Forall (fun t => no_digit t = true) (split sep s).
Proof.
  unfold no_digit. induction s as [|c r IH]; [repeat constructor|].
  cbn [split forall_chars]. intros H. apply andb_true_iff in H. destruct H as [Hc Hr].
  specialize (IH Hr).
  destruct (Ascii.eqb c sep); [constructor; [reflexivity | exact IH]|].
  destruct (split sep r) as [|t ts]; [repeat constructor; cbn; rewrite Hc; reflexivity|].
  inversion IH as [|? ? Ht Hts]; subst.
  constructor; [cbn [forall_chars]; rewrite Hc, Ht; reflexivity | exact Hts].
Qed.

Lemma no_digit_lstrip (s : string) : no_digit s = true -> no_digit (lstrip s) = true.
Proof.
  unfold no_digit. induction s as [|c r IH]; [reflexivity|].
  cbn [lstrip]. destruct (isspace c); [|trivial].
  cbn [forall_chars]. intros H. apply andb_true_iff in H. apply IH, H.
Qed.

Lemma no_digit_rstrip (s : string) : no_digit s = true -> no_digit (rstrip s) = true.
Proof.
  unfold no_digit. induction s as [|c r IH]; [reflexivity|].
  cbn [rstrip forall_chars]. intros H. apply andb_true_iff in H. destruct H as [Hc Hr].
  specialize (IH Hr).
  destruct (rstrip r) as [|c' r'].
  - destruct (isspace c); [reflexivity | cbn; rewrite Hc; reflexivity].
  - cbn [forall_chars] in *. rewrite Hc, IH. reflexivity.
Qed.

Lemma normalize_ids_no_digit (s : string) : no_digit s = true -> normalize_ids s = [].
Proof.
  intros H. unfold normalize_ids.
  pose proof (no_digit_split comma _ (no_digit_replace s H)) as Hf.
  induction Hf as [|t ts Ht _ IH]; [reflexivity|].
  cbn [map filter]. unfold strip at 1.
  rewrite (no_digit_isdigit _ (no_digit_rstrip _ (no_digit_lstrip _ Ht))). exact IH.
Qed.

(** *** Rankings of a batch *)

Lemma best_week_ok {S : Sorter} (rows : list PlayerSummary) (top_n : Z) :
  exists best, highlight_top_players (DataFrame_of_rows rows) "win_rate" top_n = Ok best.
Proof.
  destruct rows as [|p rows'] eqn:E.
  - exists DataFrame_nil. reflexivity.
  - rewrite <- E. assert (Hne : rows <> []) by (rewrite E; discriminate).
    destruct (highlight_top_players_frame (DataFrame_of_rows rows) "win_rate" top_n)
      as [best [Hb _]].
    + rewrite DataFrame_of_rows_empty, E. reflexivity.
    + apply DataFrame_of_rows_well_formed.
    + apply DataFrame_of_rows_has_columns, Hne.
    + exists best. exact Hb.
Qed.

Ltac run_script :=
  cbn [St.bind St.draw St.ask St.ret St.halt St.python fst snd app negb].

(** The calls before the last [n] of a run that is known call by call. *)
Ltac shown_before n :=
  match goal with
  | |- exists shown, (?l, _) = (shown ++ _, _) =>
      exists (firstn (List.length l - n) l); reflexivity
  end.

Section PageFacts.

Context {S : Sorter}.
Variable requests_get : string -> Params -> Response.
Variable DOTA_API_KEY : option string.
Variable typed_ids typed_key : string.

(** The runs of [main]: it stops on the warning, an exception leaves one of
    the two batches, or it returns after the tips, with the two rankings of
    the week when an identifier has a summary for the week. *)
Lemma main_cases :
  match normalize_ids typed_ids with
  | [] =>
      exists shown,
        main requests_get DOTA_API_KEY typed_ids typed_key
        = (shown ++ [(St.page, St.warning "Please enter at least one valid Steam64 ID.");
                     (St.page, St.stop)], St.StopException) /\
        List.length shown = 5%nat
  | _ :: _ =>
      match collect_period_summaries requests_get (normalize_ids typed_ids) 7 (Some typed_key) with
      | Raise e =>
          exists shown,
            main requests_get DOTA_API_KEY typed_ids typed_key
            = (shown ++ [(col1, St.subheader "Last 7 days")], St.Exception e)
      | Ok weekly =>
          match collect_period_summaries requests_get (normalize_ids typed_ids) 30
                  (Some typed_key) with
          | Raise e =>
              exists shown,
                main requests_get DOTA_API_KEY typed_ids typed_key
                = (shown ++ [(col2, St.subheader "Last 30 days")], St.Exception e)
          | Ok monthly =>
              let ranked :=
                List.length (filter (summarised requests_get 7 (Some typed_key))
                               (normalize_ids typed_ids)) in
              match ranked with
              | O =>
                  exists shown,
                    main requests_get DOTA_API_KEY typed_ids typed_key
                    = (shown ++ [(St.page, St.subheader "Group highlights");
                                 (St.page, St.markdown tips)], St.Return tt)
              | Datatypes.S _ =>
                  exists best worst,
                    (exists shown,
                       main requests_get DOTA_API_KEY typed_ids typed_key
                       = (shown ++ [(St.page, St.subheader "Group highlights");
                                    (St.page, St.markdown "**Top win rates (7 days)**");
                                    (St.page, St.dataframe best);
                                    (St.page, St.markdown "**Most losses by percentage (7 days)**");
                                    (St.page, St.dataframe worst);
                                    (St.page, St.markdown tips)], St.Return tt)) /\
                    map fst (columns best) = display "win_rate" /\
                    map fst (columns worst) = display "loss_rate" /\
                    index best = Nat.min ranked 3 /\
                    index worst = Nat.min ranked 3
              end
          end
      end
  end.
Proof.
  unfold main. run_script.
  destruct (normalize_ids typed_ids) as [|sid ids] eqn:Hids.
  - run_script.
    match goal with
    | |- exists shown, (?l, _) = _ /\ _ => exists (firstn 5 l)
    end.
    split; reflexivity.
  - set (steam_ids := sid :: ids).
    run_script.
    pose proof (collect_period_summaries_ends requests_get steam_ids 7 (Some typed_key)) as Hw.
    destruct (collect_period_summaries requests_get steam_ids 7 (Some typed_key))
      as [[weekly_df weekly_errors]|e]; run_script; [|shown_before 1%nat].
    destruct Hw as [[rows [Hrows Hsids]] _]. cbn [fst] in Hrows.
    destruct (collect_period_summaries requests_get steam_ids 30 (Some typed_key))
      as [[monthly_df monthly_errors]|e]; run_script.
    + rewrite <- Hsids, length_map. cbv zeta.
      destruct rows as [|p rows'].
      * rewrite Hrows. cbn [DataFrame_of_rows List.length].
        change (empty DataFrame_nil) with true. cbv iota.
        change (highlight_top_players DataFrame_nil "win_rate" 3) with (Ok DataFrame_nil).
        destruct weekly_errors, monthly_errors, (empty monthly_df); run_script;
          shown_before 2%nat.
      * cbn [List.length]. cbv iota.
        assert (Hne : p :: rows' <> []) by discriminate.
        assert (He : empty weekly_df = false) by (rewrite Hrows; reflexivity).
        assert (Hlen : index weekly_df = Datatypes.S (List.length rows'))
          by (rewrite Hrows; reflexivity).
        destruct (highlight_top_players_frame weekly_df "win_rate" 3 He)
          as [best [Hbest [Hbi [Hbn _]]]].
        { rewrite Hrows. apply DataFrame_of_rows_well_formed. }
        { rewrite Hrows. apply DataFrame_of_rows_has_columns, Hne. }
        destruct (ranking_after_add_loss_rate (frames [weekly_df; monthly_df; best]) 0
                    (p :: rows') 3 Hne Hrows) as [r [h' [worst [H1 [H2 [Hwi Hwn]]]]]].
        exists best, worst. rewrite He.
        split; [|split; [exact Hbn|]; split; [exact Hwn|]; split].
        -- destruct weekly_errors, monthly_errors, (empty monthly_df); run_script;
             rewrite Hbest; run_script; rewrite H1; run_script; rewrite H2; run_script;
             shown_before 6%nat.
        -- rewrite Hbi, Hlen. reflexivity.
        -- rewrite Hwi. reflexivity.
    + destruct weekly_errors, (empty weekly_df); run_script; shown_before 1%nat.
Qed.

End PageFacts.

(** X20.  When the text of the identifiers holds no digit, [main] shows the
    five opening calls, warns that a valid Steam64 ID is needed and stops,
    whatever the remote service and the key. *)
Theorem main_without_digit {S : Sorter} (requests_get : string -> Params -> Response)
  (DOTA_API_KEY : option string) (typed_ids typed_key : string) :
  no_digit typed_ids = true ->
  exists shown,
    main requests_get DOTA_API_KEY typed_ids typed_key
    = (shown ++ [(St.page, St.warning "Please enter at least one valid Steam64 ID.");
                 (St.page, St.stop)], St.StopException) /\
    List.length shown = 5%nat.
Proof.
  intros H. pose proof (main_cases requests_get DOTA_API_KEY typed_ids typed_key) as Hc.
  rewrite (normalize_ids_no_digit typed_ids H) in Hc. exact Hc.
Qed.

Lemma main_without_digit_example :
  exists shown,
    main (S := stable_sorter) (always streak_sample) None "abc, def" "key"
    = (shown ++ [(St.page, St.warning "Please enter at least one valid Steam64 ID.");
                 (St.page, St.stop)], St.StopException) /\
    List.length shown = 5%nat.
Proof.
  exact (main_without_digit (S := stable_sorter) (always streak_sample) None "abc, def" "key"
           eq_refl).
Defined.

(** X21.  The three ways [main] ends.  It stops exactly when no field of the
    text is an identifier.  The only exception that leaves it is
    [KeyError 'win'], which then comes from an identifier whose account has
    no match in the last 7 or the last 30 days.  When it returns, no
    identifier is in that case for either window: the rankings raise
    nothing. *)
Theorem main_endings {S : Sorter} (requests_get : string -> Params -> Response)
  (DOTA_API_KEY : option string) (typed_ids typed_key : string) :
  let steam_ids := normalize_ids typed_ids in
  match snd (main requests_get DOTA_API_KEY typed_ids typed_key) with
  | St.StopException => steam_ids = []
  | St.Exception e =>
      e = KeyError "win" /\
      (Exists (no_matches requests_get 7 (Some typed_key)) steam_ids \/
       Exists (no_matches requests_get 30 (Some typed_key)) steam_ids)
  | St.Return _ =>
      steam_ids <> [] /\
      Forall (fun sid => ~ no_matches requests_get 7 (Some typed_key) sid) steam_ids /\
      Forall (fun sid => ~ no_matches requests_get 30 (Some typed_key) sid) steam_ids
  end.
Proof.
  intros steam_ids.
  pose proof (main_cases requests_get DOTA_API_KEY typed_ids typed_key) as Hc.
  fold steam_ids in Hc.
  pose proof (collect_period_summaries_ends requests_get steam_ids 7 (Some typed_key)) as Hw.
  pose proof (collect_period_summaries_ends requests_get steam_ids 30 (Some typed_key)) as Hm.
  destruct steam_ids as [|sid ids] eqn:Hids.
  - destruct Hc as [shown [-> _]]. reflexivity.
  - rewrite <- Hids in *.
    destruct (collect_period_summaries requests_get steam_ids 7 (Some typed_key)) as [weekly|e].
    + destruct (collect_period_summaries requests_get steam_ids 30 (Some typed_key))
        as [monthly|e].
      * assert (Hr : snd (main requests_get DOTA_API_KEY typed_ids typed_key) = St.Return tt).
        { cbv zeta in Hc.
          destruct (List.length (filter (summarised requests_get 7 (Some typed_key)) steam_ids)).
          - destruct Hc as [shown ->]. reflexivity.
          - destruct Hc as [best [worst [[shown ->] _]]]. reflexivity. }
        rewrite Hr. split; [rewrite Hids; discriminate|].
        split; [exact (proj2 Hw) | exact (proj2 Hm)].
      * destruct Hc as [shown ->]. cbn [snd]. split; [exact (proj1 Hm)|].
        right. exact (proj2 Hm).
    + destruct Hc as [shown ->]. cbn [snd]. split; [exact (proj1 Hw)|].
      left. exact (proj2 Hw).
Qed.

(** X22.  When some identifier of the text converts to an account without a
    match in the last 7 days, [KeyError 'win'] leaves [main] right after the
    heading of the first column: nothing of the week is shown, not even the
    errors of the other identifiers, and the second column is not reached. *)
Theorem main_no_matches_week {S : Sorter} (requests_get : string -> Params -> Response)
  (DOTA_API_KEY : option string) (typed_ids typed_key : string) :
  Exists (no_matches requests_get 7 (Some typed_key)) (normalize_ids typed_ids) ->
  exists shown,
    main requests_get DOTA_API_KEY typed_ids typed_key
    = (shown ++ [(col1, St.subheader "Last 7 days")], St.Exception (KeyError "win")).
Proof.
  intros H.
  pose proof (main_cases requests_get DOTA_API_KEY typed_ids typed_key) as Hc.
  pose proof (collect_period_summaries_ends requests_get (normalize_ids typed_ids) 7
                (Some typed_key)) as Hw.
  destruct (normalize_ids typed_ids) as [|sid ids] eqn:Hids; [inversion H|].
  destruct (collect_period_summaries requests_get (sid :: ids) 7 (Some typed_key))
    as [weekly|e].
  - destruct Hw as [_ Hw]. apply Exists_exists in H. destruct H as [x [Hin Hx]].
    rewrite Forall_forall in Hw. contradiction (Hw x Hin Hx).
  - destruct Hw as [-> _]. exact Hc.
Qed.

Lemma main_no_matches_week_example :
  exists shown,
    main (S := stable_sorter) (always []) None "bad_id,76561198355928347" ""
    = (shown ++ [(col1, St.subheader "Last 7 days")], St.Exception (KeyError "win")).
Proof.
  refine (main_no_matches_week (S := stable_sorter) (always []) None
            "bad_id,76561198355928347" "" _).
  apply Exists_cons_hd. exists 395662619. split; reflexivity.
Defined.

(** X23.  When [main] returns, the heading "Group highlights" is followed by
    the tips alone if no identifier has a summary for the week; otherwise by
    the two rankings of the week, each of at most three rows, one for every
    summarised identifier up to three, the first with the columns steam_id,
    win_rate, games, wins, losses, win_rate and the second with steam_id,
    win_rate, games, wins, losses, loss_rate. *)
Theorem main_highlights {S : Sorter} (requests_get : string -> Params -> Response)
  (DOTA_API_KEY : option string) (typed_ids typed_key : string) :
  snd (main requests_get DOTA_API_KEY typed_ids typed_key) = St.Return tt ->
  let ranked :=
    List.length (filter (summarised requests_get 7 (Some typed_key))
                   (normalize_ids typed_ids)) in
  match ranked with
  | O =>
      exists shown,
        main requests_get DOTA_API_KEY typed_ids typed_key
        = (shown ++ [(St.page, St.subheader "Group highlights");
                     (St.page, St.markdown tips)], St.Return tt)
  | Datatypes.S _ =>
      exists best worst,
        (exists shown,
           main requests_get DOTA_API_KEY typed_ids typed_key
           = (shown ++ [(St.page, St.subheader "Group highlights");
                        (St.page, St.markdown "**Top win rates (7 days)**");
                        (St.page, St.dataframe best);
                        (St.page, St.markdown "**Most losses by percentage (7 days)**");
                        (St.page, St.dataframe worst);
                        (St.page, St.markdown tips)], St.Return tt)) /\
        map fst (columns best) = display "win_rate" /\
        map fst (columns worst) = display "loss_rate" /\
        index best = Nat.min ranked 3 /\
        index worst = Nat.min ranked 3
  end.
Proof.
  intros Hr.
  pose proof (main_cases requests_get DOTA_API_KEY typed_ids typed_key) as Hc.
  destruct (normalize_ids typed_ids) as [|sid ids] eqn:Hids.
  - destruct Hc as [shown [Hc _]]. rewrite Hc in Hr. discriminate Hr.
  - destruct (collect_period_summaries requests_get (sid :: ids) 7 (Some typed_key))
      as [weekly|e].
    + destruct (collect_period_summaries requests_get (sid :: ids) 30 (Some typed_key))
        as [monthly|e].
      * exact Hc.
      * destruct Hc as [shown Hc]. rewrite Hc in Hr. discriminate Hr.
    + destruct Hc as [shown Hc]. rewrite Hc in Hr. discriminate Hr.
Qed.

Lemma main_highlights_example :
  exists best worst,
    (exists shown,
       main (S := stable_sorter) (always streak_sample) None "bad_id,76561198355928347" ""
       = (shown ++ [(St.page, St.subheader "Group highlights");
                    (St.page, St.markdown "**Top win rates (7 days)**");
                    (St.page, St.dataframe best);
                    (St.page, St.markdown "**Most losses by percentage (7 days)**");
                    (St.page, St.dataframe worst);
                    (St.page, St.markdown tips)], St.Return tt)) /\
    map fst (columns best) = display "win_rate" /\
    map fst (columns worst) = display "loss_rate" /\
    index best = 1%nat /\
    index worst = 1%nat.
Proof.
  exact (main_highlights (S := stable_sorter) (always streak_sample) None
           "bad_id,76561198355928347" "" ltac:(vm_compute; reflexivity)).
Defined.
